(** * Subscription dashboard: spend analytics, registry view and payment flow

    A shallow embedding of the pure logic found in the three React
    components of the repository:

    - [dashboard.tsx]     spend analytics ([calculateMonthlySpend],
                          [getNextRenewal], [getCategorySpending],
                          [getLastMonthSpend], [generateChartData],
                          [changePercentage]);
    - [subscription.tsx]  the filtered and sorted registry view;
    - [PaymentModal]      card formatting and validation, and the
                          four-step payment wizard.

    Modelling conventions.

    - A JavaScript [number] is an exact rational ([Q]); IEEE-754 rounding,
      infinities and NaN costs are outside the model.  Numeric equality is
      [Qeq] ([==]).
    - A [Date] object is its time value: [Some t] with [t] milliseconds since
      the epoch, or [None] for an Invalid Date (time value NaN).  Calendar
      fields follow the ECMAScript day-number algorithms; local time differs
      from UTC by a fixed offset (no daylight-saving changes), given by the
      class [TimeZone].
    - A JavaScript string is a [string] of 8-bit code units.
    - The current instant ([new Date()]) and the values returned by
      [Math.random()] are explicit arguments. *)

From Stdlib Require Import ZArith QArith Qround Lia Lqa List Ascii String.
From Stdlib Require Import Sorting.Sorted Sorting.Permutation.
From stdpp Require Import base option list strings gmap pretty.

Set Default Proof Using "All".

(** ** ECMAScript dates *)

Module JSDate.
Local Open Scope Z_scope.

Definition msPerDay : Z := 86400000.
Definition maxTime : Z := 8640000000000000.

Definition Day (t : Z) : Z := t / msPerDay.
Definition TimeWithinDay (t : Z) : Z := t mod msPerDay.

Definition DaysInYear (y : Z) : Z :=
  if negb (y mod 4 =? 0) then 365
  else if negb (y mod 100 =? 0) then 366
  else if negb (y mod 400 =? 0) then 365
  else 366.

Definition DayFromYear (y : Z) : Z :=
  365 * (y - 1970) + (y - 1969) / 4 - (y - 1901) / 100 + (y - 1601) / 400.

(** [YearFromTime t] is the largest [y] with [msPerDay * DayFromYear y <= t];
    it is computed from an estimate that is off by at most one year
    (see [YearFromTime_spec]). *)
Definition YearFromTime (t : Z) : Z :=
  let y := 1970 + (400 * Day t) / 146097 in
  if Day t <? DayFromYear y then y - 1
  else if DayFromYear (y + 1) <=? Day t then y + 1
  else y.

(** 1 for a leap year, 0 otherwise. *)
Definition leapFlag (y : Z) : Z := if DaysInYear y =? 366 then 1 else 0.

Definition InLeapYear (t : Z) : Z := leapFlag (YearFromTime t).

Definition DayWithinYear (t : Z) : Z := Day t - DayFromYear (YearFromTime t).

(** Number of days of the year that precede month [m] (0 = January);
    [l] is 1 in a leap year and 0 otherwise. *)
Definition daysBeforeMonth (m l : Z) : Z :=
  match m with
  | 0 => 0 | 1 => 31 | 2 => 59 + l | 3 => 90 + l | 4 => 120 + l
  | 5 => 151 + l | 6 => 181 + l | 7 => 212 + l | 8 => 243 + l
  | 9 => 273 + l | 10 => 304 + l | _ => 334 + l
  end.

Definition MonthFromTime (t : Z) : Z :=
  let d := DayWithinYear t in
  let l := InLeapYear t in
  if d <? 31 then 0
  else if d <? 59 + l then 1
  else if d <? 90 + l then 2
  else if d <? 120 + l then 3
  else if d <? 151 + l then 4
  else if d <? 181 + l then 5
  else if d <? 212 + l then 6
  else if d <? 243 + l then 7
  else if d <? 273 + l then 8
  else if d <? 304 + l then 9
  else if d <? 334 + l then 10
  else 11.

Definition DateFromTime (t : Z) : Z :=
  DayWithinYear t - daysBeforeMonth (MonthFromTime t) (InLeapYear t) + 1.

(** [MakeDay]: day number of the given date; months outside [0..11] carry
    into the year and day numbers outside the month carry into the
    following (or preceding) months. *)
Definition MakeDay (year month date : Z) : Z :=
  let ym := year + month / 12 in
  let mn := month mod 12 in
  DayFromYear ym + daysBeforeMonth mn (leapFlag ym) + date - 1.

Definition MakeDate (day time : Z) : Z := day * msPerDay + time.

Definition TimeClip (t : Z) : option Z :=
  if maxTime <? Z.abs t then None else Some t.

(** A [Date] object, identified with its time value. *)
Definition Date : Type := option Z.

Definition getTime (d : Date) : option Z := d.

(** The offset of local time from UTC, in milliseconds.  It is taken to
    be the same at all the instants involved: a zone is modelled between
    its changes of offset (daylight saving time).  Such a change between
    two dates moves what [setMonth] and [setFullYear] return by the amount
    of the change, an hour as a rule; the properties that compare dates
    obtained in this way are stated with room for it. *)
Class TimeZone : Type := localTZA : Z.

Section LocalTime.
Context {tz : TimeZone}.

Definition LocalTime (t : Z) : Z := t + localTZA.
Definition UTC (t : Z) : Z := t - localTZA.

(** [new Date(year, month, 1)] *)
Definition newDateYM1 (year month : Z) : Date :=
  let yr := if (0 <=? year) && (year <=? 99) then 1900 + year else year in
  TimeClip (UTC (MakeDate (MakeDay yr month 1) 0)).

Definition getMonth (d : Date) : option Z :=
  match d with Some t => Some (MonthFromTime (LocalTime t)) | None => None end.
Definition getFullYear (d : Date) : option Z :=
  match d with Some t => Some (YearFromTime (LocalTime t)) | None => None end.

(** [d.setMonth(m)]; a NaN argument or an invalid receiver gives an
    Invalid Date. *)
Definition setMonth (d : Date) (m : option Z) : Date :=
  match d, m with
  | Some t, Some m =>
      let t := LocalTime t in
      TimeClip (UTC (MakeDate (MakeDay (YearFromTime t) m (DateFromTime t))
                              (TimeWithinDay t)))
  | _, _ => None
  end.

(** [d.setFullYear(y)]; an invalid receiver is first reset to time value 0. *)
Definition setFullYear (d : Date) (y : option Z) : Date :=
  match y with
  | Some y =>
      let t := match d with Some t => LocalTime t | None => 0 end in
      TimeClip (UTC (MakeDate (MakeDay y (MonthFromTime t) (DateFromTime t))
                              (TimeWithinDay t)))
  | None => None
  end.

(** Relational operators on [Date] objects compare time values; every
    comparison with an Invalid Date is false. *)
Definition dateGt (a b : Date) : bool :=
  match a, b with Some x, Some y => y <? x | _, _ => false end.
Definition dateLe (a b : Date) : bool :=
  match a, b with Some x, Some y => x <=? y | _, _ => false end.
Definition dateGe (a b : Date) : bool :=
  match a, b with Some x, Some y => y <=? x | _, _ => false end.

Definition monthShort (m : Z) : string :=
  match m with
  | 0 => "Jan" | 1 => "Feb" | 2 => "Mar" | 3 => "Apr" | 4 => "May"
  | 5 => "Jun" | 6 => "Jul" | 7 => "Aug" | 8 => "Sep" | 9 => "Oct"
  | 10 => "Nov" | _ => "Dec"
  end.

(** [d.toLocaleDateString("en-US", { month: "short" })] *)
Definition formatMonth (d : Date) : string :=
  match d with
  | Some t => monthShort (MonthFromTime (LocalTime t))
  | None => "Invalid Date"
  end.

(** [d.toLocaleDateString("en-US", { month: "short", day: "numeric" })] *)
Definition formatMonthDay (d : Date) : string :=
  match d with
  | Some t =>
      monthShort (MonthFromTime (LocalTime t)) +:+ " " +:+
      pretty (DateFromTime (LocalTime t))
  | None => "Invalid Date"
  end.

End LocalTime.

(** A date produced by parsing or by the clock: valid and within the
    representable range of time values. *)
Definition wellFormed (d : Date) : Prop :=
  exists t, d = Some t /\ - maxTime <= t <= maxTime.

End JSDate.

Import JSDate.

(** ** Numbers *)

(** JavaScript numbers are IEEE doubles; here they are exact rationals.
    The sums, quotients and products of amounts that the code computes
    agree with the exact ones up to rounding errors many orders of
    magnitude below a hundredth.  [Math.round] and [toFixed] are applied by
    the code to the double: when the exact value is a tie, or nearer to one
    than such an error, the code may round to the other neighbour.  What
    is proved about a rounded value is therefore its distance from the
    exact value, not the direction of the rounding. *)
Module JSNum.
Local Open Scope Q_scope.

Definition Qlt_bool (x y : Q) : bool := negb (Qle_bool y x).

(** [Math.round(x)]: nearest integer, ties towards plus infinity. *)
Definition MathRound (x : Q) : Z := Qfloor (x + (1 # 2)).

(** [Math.max(0, x)] *)
Definition MathMax0 (x : Q) : Q := if Qlt_bool 0 x then x else 0.

(** [Number(x.toFixed(2))]: the sign is set apart, then the magnitude is
    rounded to the nearest multiple of 1/100, the larger one on a tie. *)
Definition toFixed2 (x : Q) : Q :=
  if Qlt_bool x 0
  then - (inject_Z (Qfloor ((- x) * 100 + (1 # 2))) / 100)
  else inject_Z (Qfloor (x * 100 + (1 # 2))) / 100.

(** A number that may be NaN, as produced by the accessors of an Invalid
    Date. *)
Definition subZ (a : option Z) (k : Z) : option Z :=
  match a with Some x => Some (x - k)%Z | None => None end.

Definition subTime (a b : option Z) : option Q :=
  match a, b with
  | Some x, Some y => Some (inject_Z (x - y))
  | _, _ => None
  end.

End JSNum.

(** ** Strings *)

Module JSString.
Local Open Scope string_scope.

Definition isDigit (c : ascii) : bool :=
  let n := nat_of_ascii c in (48 <=? n)%nat && (n <=? 57)%nat.

(** White space and line terminators among the 8-bit code units
    (tab, LF, VT, FF, CR, space, no-break space). *)
Definition isWhiteSpace (c : ascii) : bool :=
  let n := nat_of_ascii c in
  ((9 <=? n)%nat && (n <=? 13)%nat) || (n =? 32)%nat || (n =? 160)%nat.

Fixpoint filterChars (keep : ascii -> bool) (s : string) : string :=
  match s with
  | "" => ""
  | String c s' =>
      if keep c then String c (filterChars keep s') else filterChars keep s'
  end.

(** [s.replace(/\D/g, "")] and [s.replace(/[^0-9]/gi, "")] *)
Definition stripNonDigits (s : string) : string := filterChars isDigit s.

(** [s.replace(/\s+/g, "")] *)
Definition stripWhiteSpace (s : string) : string :=
  filterChars (fun c => negb (isWhiteSpace c)) s.

Fixpoint trimStart (s : string) : string :=
  match s with
  | "" => ""
  | String c s' => if isWhiteSpace c then trimStart s' else s
  end.

(** [trimEnd] keeps a character when it is not white space or when
    something is left after it. *)
Fixpoint trimEnd (s : string) : string :=
  match s with
  | "" => ""
  | String c s' =>
      match trimEnd s' with
      | "" => if isWhiteSpace c then "" else String c ""
      | r => String c r
      end
  end.

Definition trim (s : string) : string := trimEnd (trimStart s).

(** [s.startsWith(p)] *)
Definition startsWith (s p : string) : bool := String.prefix p s.

(** [s.includes(p)] *)
Fixpoint includes (s p : string) : bool :=
  String.prefix p s ||
  match s with
  | "" => false
  | String _ s' => includes s' p
  end.

Fixpoint takeDigits (s : string) : string :=
  match s with
  | "" => ""
  | String c s' => if isDigit c then String c (takeDigits s') else ""
  end.

(** [s.substring(0, n)] *)
Fixpoint substring0 (n : nat) (s : string) : string :=
  match n, s with
  | S n', String c s' => String c (substring0 n' s')
  | _, _ => ""
  end.

(** First match of [/\d{4,16}/] in [s]: scanning from the left, the first
    position followed by at least four digits, extended greedily to at most
    sixteen digits. *)
Fixpoint matchDigits4to16 (s : string) : option string :=
  match s with
  | "" => None
  | String _ s' =>
      let run := takeDigits s in
      if (4 <=? String.length run)%nat then Some (substring0 16 run)
      else matchDigits4to16 s'
  end.

(** [parts.join(sep)] *)
Fixpoint join (sep : string) (parts : list string) : string :=
  match parts with
  | [] => ""
  | [p] => p
  | p :: rest => p +:+ sep +:+ join sep rest
  end.

(** ASCII lower-casing; used only to instantiate [toLowerCase] in
    examples. *)
Definition asciiLower (c : ascii) : ascii :=
  let n := nat_of_ascii c in
  if (65 <=? n)%nat && (n <=? 90)%nat then ascii_of_nat (n + 32) else c.

Fixpoint asciiToLowerCase (s : string) : string :=
  match s with
  | "" => ""
  | String c s' => String (asciiLower c) (asciiToLowerCase s')
  end.

(** Comparison by code units; used only to instantiate [localeCompare]
    in examples. *)
Fixpoint codeUnitCompare (a b : string) : Z :=
  match a, b with
  | "", "" => 0%Z
  | "", String _ _ => (-1)%Z
  | String _ _, "" => 1%Z
  | String x a', String y b' =>
      let d := (Z.of_nat (nat_of_ascii x) - Z.of_nat (nat_of_ascii y))%Z in
      if (d =? 0)%Z then codeUnitCompare a' b' else d
  end.

End JSString.

(** ** [Array.prototype.sort] *)

Module JSArray.
Section Sort.
Context {A : Type}.

(** The comparison function returns a number, [None] standing for NaN. *)
Variable comparefn : A -> A -> option Q.

(** A NaN result of the comparison function counts as [+0]. *)
Definition sortCompare (x y : A) : Q :=
  match comparefn x y with Some v => v | None => 0%Q end.

(** The sort is stable: an element stays in front of the later elements it
    does not compare greater than. *)
Fixpoint insertSorted (x : A) (l : list A) : list A :=
  match l with
  | [] => [x]
  | y :: l' =>
      if Qle_bool (sortCompare x y) 0 then x :: l
      else y :: insertSorted x l'
  end.

Definition sort (l : list A) : list A := fold_right insertSorted [] l.

End Sort.
End JSArray.

(** ** Plain objects used as dictionaries *)

Module JSObject.
Section Obj.
Context {V : Type}.

(** An object created by an object literal: its own properties in the
    order [Object.entries] lists them (array-index keys in ascending
    numeric order, then the other keys in insertion order), with
    [Object.prototype] as its prototype.  The values stored are numbers
    and strings, never objects. *)
Definition t : Type := list (string * V).

Definition empty : t := [].

(** The own property [k], if there is one. *)
Fixpoint getOwn (o : t) (k : string) : option V :=
  match o with
  | [] => None
  | (k', v) :: o' => if String.eqb k k' then Some v else getOwn o' k
  end.

(** The functions that every such object inherits from
    [Object.prototype]. *)
Definition inheritedFunctions : list string :=
  ["constructor"; "hasOwnProperty"; "isPrototypeOf"; "propertyIsEnumerable";
   "toLocaleString"; "toString"; "valueOf"; "__defineGetter__";
   "__defineSetter__"; "__lookupGetter__"; "__lookupSetter__"]%string.

Definition inheritedFunction (k : string) : bool :=
  existsb (String.eqb k) inheritedFunctions.

(** [__proto__] is an accessor of [Object.prototype]: reading it yields
    the prototype, and writing a value that is not an object to it does
    nothing. *)
Definition protoKey (k : string) : bool := String.eqb k "__proto__".

(** What [o[k]] evaluates to. *)
Inductive Lookup : Type :=
| Own (v : V)
| InheritedFunction
| ObjectPrototype
| Undefined.

(** [o[k]] *)
Definition get (o : t) (k : string) : Lookup :=
  match getOwn o k with
  | Some v => Own v
  | None =>
      if protoKey k then ObjectPrototype
      else if inheritedFunction k then InheritedFunction
      else Undefined
  end.

Fixpoint parseDigits (acc : N) (s : string) : option N :=
  match s with
  | EmptyString => Some acc
  | String c s' =>
      if JSString.isDigit c
      then parseDigits (acc * 10 + (N_of_ascii c - 48))%N s'
      else None
  end.

(** A canonical numeric string below [2^32 - 1]. *)
Definition arrayIndex (k : string) : option N :=
  match k with
  | EmptyString => None
  | String c rest =>
      if Ascii.eqb c "0"%char && negb (String.eqb rest EmptyString) then None
      else if (10 <? String.length k)%nat then None
      else match parseDigits 0 k with
           | Some n => if (n <? 4294967295)%N then Some n else None
           | None => None
           end
  end.

(** [precedes k k'] : a new key [k] is listed before the existing key
    [k']. *)
Definition precedes (k k' : string) : bool :=
  match arrayIndex k, arrayIndex k' with
  | Some i, Some j => (i <? j)%N
  | Some _, None => true
  | None, _ => false
  end.

Fixpoint update (o : t) (k : string) (v : V) : t :=
  match o with
  | [] => []
  | (k', v') :: o' =>
      if String.eqb k k' then (k', v) :: o' else (k', v') :: update o' k v
  end.

Fixpoint insertNew (o : t) (k : string) (v : V) : t :=
  match o with
  | [] => [(k, v)]
  | (k', v') :: o' =>
      if precedes k k' then (k, v) :: o else (k', v') :: insertNew o' k v
  end.

(** [o[k] = v]: an own property is overwritten; otherwise one is created,
    also when [k] names an inherited function; the setter of [__proto__]
    ignores the value. *)
Definition set (o : t) (k : string) (v : V) : t :=
  if protoKey k then o
  else match getOwn o k with
       | Some _ => update o k v
       | None => insertNew o k v
       end.

(** [Object.entries(o)] *)
Definition entries (o : t) : list (string * V) := o.


End Obj.
Arguments t : clear implicits.
Arguments Lookup : clear implicits.
End JSObject.

(** ** The subscription record *)

(** The fields the three components read.  [renewalDate] holds the [Date]
    that [new Date(sub.renewalDate)] yields (parsing of the textual form is
    not modelled); [billingCycle] and [category] are plain strings, as the
    code compares them with string literals. *)
Module Sub.
Record t : Type := mk {
  id : string;
  name : string;
  plan : string;
  cost : Q;
  billingCycle : string;
  renewalDate : Date;
  category : string
}.
End Sub.

Abbreviation Subscription := Sub.t.

(** ** dashboard.tsx: the spend analytics *)

Module Dashboard.
Import JSNum.
Local Open Scope Q_scope.

(** What an expression that should be a colour evaluates to: a string,
    or a member inherited from [Object.prototype]. *)
Inductive Colour : Type :=
| Hex (code : string)
| InheritedMember.

(** A value held in [categoryTotals]: a number, or the string that [+]
    produces once its left operand is not a number. *)
Inductive Total : Type :=
| Amount (amount : Q)
| Concatenation.

(** The result of a call that may throw. *)
Inductive Outcome (A : Type) : Type :=
| Returns (result : A)
| ThrowsTypeError.
Arguments Returns {A} result.
Arguments ThrowsTypeError {A}.

Section Analytics.
Context {tz : TimeZone}.

(** [sub.billingCycle === "annually" ? sub.cost / 12 : sub.cost] *)
Definition monthlyCost (sub : Subscription) : Q :=
  if String.eqb (Sub.billingCycle sub) "annually"
  then Sub.cost sub / 12
  else Sub.cost sub.

Definition calculateMonthlySpend (subscriptions : list Subscription) : Q :=
  fold_left (fun total sub => total + monthlyCost sub) subscriptions 0.

(** [today] is the instant returned by [new Date()]. *)
Definition getNextRenewal (today : Z) (subscriptions : list Subscription)
  : string :=
  if (length subscriptions =? 0)%nat then "N/A"%string
  else
    let upcomingRenewals :=
      JSArray.sort
        (fun a b => subTime (getTime (Sub.renewalDate a))
                            (getTime (Sub.renewalDate b)))
        (List.filter (fun sub => dateGe (Sub.renewalDate sub) (Some today))
                     subscriptions) in
    match upcomingRenewals with
    | [] => "N/A"%string
    | nextRenewal :: _ => formatMonthDay (Sub.renewalDate nextRenewal)
    end.

Definition colors : JSObject.t string :=
  [("Entertainment", "#2563eb"); ("Music", "#3b82f6");
   ("Productivity", "#10b981"); ("Design", "#f59e0b");
   ("Shopping", "#ef4444")]%string.

(** [colors[category] || "#64748b"] *)
Definition getCategoryColor (category : string) : Colour :=
  match JSObject.get colors category with
  | JSObject.Own colour =>
      Hex (if String.eqb colour "" then "#64748b"%string else colour)
  | JSObject.InheritedFunction | JSObject.ObjectPrototype => InheritedMember
  | JSObject.Undefined => Hex "#64748b"%string
  end.

Record CategoryBucket : Type := mkBucket {
  bucket_category : string;
  spend : Q;
  percentage : Z;
  color : Colour
}.

(** [categoryTotals[sub.category] =
       (categoryTotals[sub.category] || 0) + monthlyCost].
    An absent, and likewise a zero, entry reads as [0].  An inherited
    function, the prototype object and a string are truthy, and adding a
    number to them concatenates strings. *)
Definition addToCategory (categoryTotals : JSObject.t Total)
  (sub : Subscription) : JSObject.t Total :=
  let category := Sub.category sub in
  match JSObject.get categoryTotals category with
  | JSObject.Own (Amount v) =>
      JSObject.set categoryTotals category
        (Amount ((if Qeq_bool v 0 then 0 else v) + monthlyCost sub))
  | JSObject.Undefined =>
      JSObject.set categoryTotals category (Amount (0 + monthlyCost sub))
  | JSObject.Own Concatenation
  | JSObject.InheritedFunction
  | JSObject.ObjectPrototype =>
      JSObject.set categoryTotals category Concatenation
  end.

(** The callback of the [map]: a string has no [toFixed], so that the
    call [amount.toFixed(2)] throws. *)
Definition toBucket (totalMonthlySpend : Q) (entry : string * Total)
  : option CategoryBucket :=
  match entry with
  | (category, Amount amount) =>
      Some {| bucket_category := category;
              spend := toFixed2 amount;
              percentage := MathRound (amount / totalMonthlySpend * 100);
              color := getCategoryColor category |}
  | (_, Concatenation) => None
  end.

Definition getCategorySpending (subscriptions : list Subscription)
  : Outcome (list CategoryBucket) :=
  if (length subscriptions =? 0)%nat then Returns []
  else
    let totalMonthlySpend := calculateMonthlySpend subscriptions in
    if Qeq_bool totalMonthlySpend 0 then Returns []
    else
      let categoryTotals :=
        fold_left addToCategory subscriptions JSObject.empty in
      match mapM (toBucket totalMonthlySpend)
                 (JSObject.entries categoryTotals) with
      | Some buckets => Returns buckets
      | None => ThrowsTypeError
      end.

(** The assumed start of the current billing period: the renewal date moved
    back by one month for a "monthly" subscription and by one year for any
    other billing cycle. *)
Definition stepBack (billingCycle : string) (subscriptionStart : Date) : Date :=
  if String.eqb billingCycle "monthly"
  then setMonth subscriptionStart (subZ (getMonth subscriptionStart) 1)
  else setFullYear subscriptionStart (subZ (getFullYear subscriptionStart) 1).

Definition getLastMonthSpend (today : Z) (subscriptions : list Subscription)
  : Q :=
  let lastMonth := setMonth (Some today) (subZ (getMonth (Some today)) 1) in
  fold_left
    (fun total sub =>
       let renewalDate := Sub.renewalDate sub in
       let subscriptionStart := stepBack (Sub.billingCycle sub) renewalDate in
       if dateLe subscriptionStart lastMonth
       then total + monthlyCost sub
       else total)
    subscriptions 0.

(** [while (subscriptionStart > monthDate) subscriptionStart := step(...)];
    [None] when the loop has not finished within [fuel] iterations. *)
Fixpoint rewind (step : Date -> Date) (fuel : nat)
  (monthDate subscriptionStart : Date) : option Date :=
  if dateGt subscriptionStart monthDate then
    match fuel with
    | O => None
    | S fuel' => rewind step fuel' monthDate (step subscriptionStart)
    end
  else Some subscriptionStart.

(** One pass of the [forEach] body of [generateChartData]. *)
Definition addIfActive (fuel : nat) (monthDate : Date)
  (acc : option Q) (sub : Subscription) : option Q :=
  match acc with
  | None => None
  | Some monthSpend =>
      match rewind (stepBack (Sub.billingCycle sub)) fuel monthDate
                   (Sub.renewalDate sub) with
      | None => None
      | Some subscriptionStart =>
          if dateLe subscriptionStart monthDate
          then Some (monthSpend + monthlyCost sub)
          else Some monthSpend
      end
  end.

(** The raw (pre-jitter) estimate for the month that starts at
    [monthDate]. *)
Definition monthSpendAt (fuel : nat) (monthDate : Date)
  (subscriptions : list Subscription) : option Q :=
  fold_left (addIfActive fuel monthDate) subscriptions (Some 0).

(** [new Date(today.getFullYear(), today.getMonth() - i, 1)] *)
Definition monthDateAt (today : Z) (i : Z) : Date :=
  match getFullYear (Some today), subZ (getMonth (Some today)) i with
  | Some y, Some m => newDateYM1 y m
  | _, _ => None
  end.

Record ChartPoint : Type := mkPoint {
  point_name : string;
  total : Q
}.

(** The body of the [for] loop for index [i]; [r] is the value
    [Math.random()] returns in this iteration. *)
Definition chartPoint (fuel : nat) (today : Z)
  (subscriptions : list Subscription) (i : Z) (r : Q) : option ChartPoint :=
  let monthDate := monthDateAt today i in
  let monthName := formatMonth monthDate in
  match monthSpendAt fuel monthDate subscriptions with
  | None => None
  | Some monthSpend =>
      let variation := (r - 0.5) * 0.3 in
      let adjustedSpend := MathMax0 (monthSpend * (1 + variation)) in
      Some {| point_name := monthName; total := toFixed2 adjustedSpend |}
  end.

(** [random k] is the value of the [k]-th call of [Math.random()]
    (counting from 0); iteration [i] makes call number [11 - i]. *)
Definition generateChartData (fuel : nat) (random : nat -> Q) (today : Z)
  (subscriptions : list Subscription) : option (list ChartPoint) :=
  mapM (fun k : nat =>
          chartPoint fuel today subscriptions (11 - Z.of_nat k) (random k))
       (seq 0 12).

Definition changePercentage (today : Z) (subscriptions : list Subscription)
  : Q :=
  let monthlySpend := calculateMonthlySpend subscriptions in
  let lastMonthSpend := getLastMonthSpend today subscriptions in
  if Qlt_bool 0 lastMonthSpend
  then (monthlySpend - lastMonthSpend) / lastMonthSpend * 100
  else 0.

End Analytics.
End Dashboard.


(** ** subscription.tsx: the filtered and sorted view *)

Module Registry.
Section View.

(** [String.prototype.toLowerCase] and [String.prototype.localeCompare]
    depend on Unicode tables and on the host locale; they are parameters of
    the view. *)
Variable toLowerCase : string -> string.
Variable localeCompare : string -> string -> Z.

Definition matchesSearchAndFilter (searchTerm filterBy : string)
  (sub : Subscription) : bool :=
  let matchesSearch :=
    JSString.includes (toLowerCase (Sub.name sub)) (toLowerCase searchTerm) in
  let matchesFilter :=
    String.eqb filterBy "all" || String.eqb (Sub.category sub) filterBy in
  matchesSearch && matchesFilter.

(** The comparison function of the [switch (sortBy)]. *)
Definition compareBy (sortBy : string) (a b : Subscription) : option Q :=
  if String.eqb sortBy "name" then
    Some (inject_Z (localeCompare (Sub.name a) (Sub.name b)))
  else if String.eqb sortBy "cost" then
    Some (Sub.cost b - Sub.cost a)%Q
  else if String.eqb sortBy "renewal" then
    JSNum.subTime (getTime (Sub.renewalDate a)) (getTime (Sub.renewalDate b))
  else Some 0%Q.

Definition filteredAndSortedSubscriptions
  (subscriptions : list Subscription) (searchTerm filterBy sortBy : string)
  : list Subscription :=
  JSArray.sort (compareBy sortBy)
    (List.filter (matchesSearchAndFilter searchTerm filterBy) subscriptions).

End View.
End Registry.

(** ** PaymentModal: card helpers, validation and the wizard *)

Module PaymentModal.
Import JSString.
Local Open Scope string_scope.

Inductive PaymentStep : Type := payment | summary | processing | success.

Record PaymentInfo : Type := mkInfo {
  cardNumber : string;
  expiryDate : string;
  cvv : string;
  cardholderName : string
}.

(** The pieces [match.substring(i, i + 4)] for [i = 0, 4, 8, ...]. *)
Fixpoint chunks4 (s : string) : list string :=
  match s with
  | "" => []
  | String a (String b (String c (String d rest))) =>
      String a (String b (String c (String d ""))) :: chunks4 rest
  | _ => [s]
  end.

Definition formatCardNumber (value : string) : string :=
  let v := stripNonDigits (stripWhiteSpace value) in
  let matched := match matchDigits4to16 v with Some m => m | None => "" end in
  let parts := chunks4 matched in
  if (0 <? length parts)%nat then join " " parts else v.

Definition getCardType (cardNumber : string) : string :=
  let num := stripNonDigits cardNumber in
  if startsWith num "4" then "Visa"
  else if startsWith num "5" || startsWith num "2" then "Mastercard"
  else if startsWith num "3" then "American Express"
  else "".

(** [!s.trim()] *)
Definition blank (s : string) : bool := String.eqb (trim s) "".

(** The error object built by [validatePayment] and its boolean result. *)
Definition validatePayment (paymentInfo : PaymentInfo)
  : gmap string string * bool :=
  let e0 : gmap string string := ∅ in
  let e1 :=
    if blank (cardNumber paymentInfo)
    then <["cardNumber" := "Card number is required"]> e0
    else if (String.length (stripNonDigits (cardNumber paymentInfo)) <? 13)%nat
    then <["cardNumber" := "Invalid card number"]> e0
    else e0 in
  let e2 :=
    if blank (expiryDate paymentInfo)
    then <["expiryDate" := "Expiry date is required"]> e1 else e1 in
  let e3 :=
    if blank (cvv paymentInfo)
    then <["cvv" := "CVV is required"]> e2 else e2 in
  let newErrors :=
    if blank (cardholderName paymentInfo)
    then <["cardholderName" := "Cardholder name is required"]> e3 else e3 in
  (newErrors, (size newErrors =? 0)%nat).

(** The three state cells of the component. *)
Record Modal : Type := mkModal {
  currentStep : PaymentStep;
  paymentInfo : PaymentInfo;
  errors : gmap string string
}.

Definition setCurrentStep (m : Modal) (s : PaymentStep) : Modal :=
  {| currentStep := s; paymentInfo := paymentInfo m; errors := errors m |}.

Definition setErrors (m : Modal) (e : gmap string string) : Modal :=
  {| currentStep := currentStep m; paymentInfo := paymentInfo m; errors := e |}.

(** The flow as the event loop sees it: the component state, the callbacks
    handed to [setTimeout] that have not run yet (with their delay in
    milliseconds), and whether [onClose] has been called.  The owner of the
    modal, the dashboard, then unmounts it ([handleClosePayment]): the
    component renders nothing any more and a later write to its state
    cells is dropped.  [modal] of a closed flow is the state at the time of
    the close. *)
Record Flow : Type := mkFlow {
  modal : Modal;
  timeouts : list (Z * (Modal -> Modal));
  closed : bool
}.

Definition initialModal : Modal :=
  {| currentStep := payment;
     paymentInfo := {| cardNumber := ""; expiryDate := ""; cvv := "";
                       cardholderName := "" |};
     errors := ∅ |}.

Definition initialFlow : Flow :=
  {| modal := initialModal; timeouts := []; closed := false |}.

Definition handleContinueToSummary (f : Flow) : Flow :=
  let '(newErrors, ok) := validatePayment (paymentInfo (modal f)) in
  let m := setErrors (modal f) newErrors in
  {| modal := if ok then setCurrentStep m summary else m;
     timeouts := timeouts f;
     closed := closed f |}.

Definition handleConfirmPayment (f : Flow) : Flow :=
  {| modal := setCurrentStep (modal f) processing;
     timeouts := timeouts f ++ [(3000%Z, fun m => setCurrentStep m success)];
     closed := closed f |}.

(** The close button, the overlay and the success button all call
    [onClose]; nothing cancels a pending timeout. *)
Definition onClose (f : Flow) : Flow :=
  {| modal := modal f; timeouts := timeouts f; closed := true |}.

(** The oldest pending timeout expires and its callback runs.  The
    callback writes to the state through [setCurrentStep]; on a closed
    flow the component is unmounted and the write changes nothing. *)
Definition fireTimeout (f : Flow) : Flow :=
  match timeouts f with
  | [] => f
  | (_, callback) :: rest =>
      {| modal := if closed f then modal f else callback (modal f);
         timeouts := rest;
         closed := closed f |}
  end.

End PaymentModal.

(** ** Sample data *)

Module Examples.
Local Open Scope string_scope.

(** Indian Standard Time, five and a half hours ahead of UTC. *)
Definition IST : TimeZone := 19800000%Z.

(** 2 November 2025, 00:00 UTC. *)
Definition today : Z := 1762041600000.

(** A monthly subscription that renews on 12 November 2025. *)
Definition netflix : Subscription :=
  Sub.mk "1" "Netflix" "Standard" 199 "monthly"
         (Some 1762905600000%Z) "Entertainment".

(** A yearly subscription that renews on 1 March 2026. *)
Definition domain : Subscription :=
  Sub.mk "2" "Domain name" "Standard" 10 "annually"
         (Some 1772323200000%Z) "Productivity".

(** A monthly subscription whose renewal date, 20 October 2025, has
    passed. *)
Definition spotify : Subscription :=
  Sub.mk "3" "Spotify" "Premium" 119 "monthly"
         (Some 1760918400000%Z) "Music".

Definition collection : list Subscription := [netflix; domain; spotify].

(** A record whose renewal date text does not parse. *)
Definition undated : Subscription :=
  Sub.mk "4" "Gym" "Standard" 50 "monthly" None "Shopping".

(** A randomness source that always returns 0.99. *)
Definition high : nat -> Q := fun _ => 0.99%Q.

Definition visaCard : PaymentModal.PaymentInfo :=
  PaymentModal.mkInfo "4111 1111 1111 1111" "12/25" "123" "A. Kumar".

Definition namelessCard : PaymentModal.PaymentInfo :=
  PaymentModal.mkInfo "4111 1111 1111 1111" "12/25" "123" "  ".

(** The wizard at the payment step with the given data entered. *)
Definition entering (info : PaymentModal.PaymentInfo) : PaymentModal.Flow :=
  PaymentModal.mkFlow (PaymentModal.mkModal PaymentModal.payment info ∅)
                      [] false.

(** The flow at the summary step, reached with a valid card. *)
Definition atSummary : PaymentModal.Flow :=
  PaymentModal.handleContinueToSummary (entering visaCard).

End Examples.

(** ** Specification-side notions

    The vocabulary in which the properties below are stated: the sums and
    orders the specification speaks of, and the bounds used to run the
    loops. *)

Module Spec.
Import Dashboard JSNum.
Local Open Scope Q_scope.

(** The specification's normalisation: an "annually" cost is divided by 12,
    any other cost is taken as it is. *)
Definition normalize (sub : Subscription) : Q :=
  if decide (Sub.billingCycle sub = "annually"%string)
  then Sub.cost sub / 12
  else Sub.cost sub.

(** The specification's sum over a collection. *)
Fixpoint sumOf (f : Subscription -> Q) (subs : list Subscription) : Q :=
  match subs with
  | [] => 0
  | sub :: rest => f sub + sumOf f rest
  end.





(** The comparison function of [getNextRenewal]. *)
Definition byRenewal (a b : Subscription) : option Q :=
  subTime (getTime (Sub.renewalDate a)) (getTime (Sub.renewalDate b)).

Definition renewalTime (sub : Subscription) : Z :=
  match Sub.renewalDate sub with Some t => t | None => 0%Z end.

Definition hasValidDate (sub : Subscription) : Prop :=
  exists t, Sub.renewalDate sub = Some t.

(** The number of iterations that certainly suffices to bring [start] to
    or below [monthDate]. *)
Definition enoughFuel (monthDate start : Date) : nat :=
  match monthDate, start with
  | Some m, Some t => Z.to_nat ((t - m) / (28 * msPerDay) + 1)
  | _, _ => O
  end.

(** The environment the trend series is computed in: the local offset is
    within a day of UTC and the clock reads an instant at least a day after
    the epoch and within the range of time values. *)
Definition clockOk {tz : TimeZone} (today : Z) : Prop :=
  (- msPerDay <= localTZA <= msPerDay)%Z /\
  (msPerDay <= today <= maxTime)%Z.

(** Fuel that suffices for every subscription and every one of the twelve
    month dates. *)
Definition chartFuel {tz : TimeZone} (today : Z) (subs : list Subscription)
  : nat :=
  list_max
    (flat_map
       (fun k : nat =>
          map (fun sub => enoughFuel (monthDateAt today (11 - Z.of_nat k))
                                     (Sub.renewalDate sub))
              subs)
       (seq 0 12)).

End Spec.

Module PaymentSpec.
Import PaymentModal JSString.
Local Open Scope string_scope.

(** The network label as a function of the first digit that is left after
    the non-digits are removed. *)
Definition networkOfLeadingDigit (digits : string) : string :=
  match digits with
  | String "4" _ => "Visa"
  | String "5" _ => "Mastercard"
  | String "2" _ => "Mastercard"
  | String "3" _ => "American Express"
  | _ => ""
  end.

Definition validInfo (info : PaymentInfo) : Prop :=
  trim (cardNumber info) <> "" /\
  trim (expiryDate info) <> "" /\
  trim (cvv info) <> "" /\
  trim (cardholderName info) <> "" /\
  (13 <= String.length (stripNonDigits (cardNumber info)))%nat.

(** The message expected for the card number, if any: one when nothing
    is left after trimming, another when fewer than 13 digits are present. *)
Definition cardNumberError (info : PaymentInfo) : option string :=
  if decide (trim (cardNumber info) = "")
  then Some "Card number is required"
  else if decide (String.length (stripNonDigits (cardNumber info)) < 13)%nat
  then Some "Invalid card number"
  else None.

(** The message expected for a field that must not be blank. *)
Definition requiredError (value message : string) : option string :=
  if decide (trim value = "") then Some message else None.

End PaymentSpec.

(** ** dashboard.tsx: the table of upcoming renewals *)

Module RenewalsTable.
Import JSNum.
Local Open Scope string_scope.

(** [Math.ceil((renewalDate.getTime() - today.getTime()) / (1000 * 3600 * 24))];
    [None] is NaN, the result for an Invalid Date.  [today] is the instant
    [new Date()] returns; one render is taken to read the clock at a single
    instant. *)
Definition daysUntilRenewal (today : Z) (sub : Subscription) : option Z :=
  match subTime (getTime (Sub.renewalDate sub)) (Some today) with
  | Some difference =>
      Some (Qceiling (difference / inject_Z (1000 * 3600 * 24)))
  | None => None
  end.

(** The filter of the table: [daysUntilRenewal >= 0 && daysUntilRenewal <= 30]. *)
Definition renewsSoon (today : Z) (sub : Subscription) : bool :=
  match daysUntilRenewal today sub with
  | Some days => (0 <=? days)%Z && (days <=? 30)%Z
  | None => false
  end.

Definition byRenewalTime (a b : Subscription) : option Q :=
  subTime (getTime (Sub.renewalDate a)) (getTime (Sub.renewalDate b)).

(** [String(n).padStart(2, "0")] *)
Definition padStart2 (s : string) : string :=
  match String.length s with
  | 0%nat => "00"
  | 1%nat => "0" +:+ s
  | _ => s
  end.

Fixpoint numberRows (index : nat) (subs : list Subscription)
  : list (string * Subscription) :=
  match subs with
  | [] => []
  | sub :: rest =>
      (padStart2 (pretty (index + 1)%nat), sub) :: numberRows (S index) rest
  end.

(** The rows of the table, each with its serial number:
    [subscriptions.filter(...).sort(...).slice(0, 5).map(...)]. *)
Definition upcomingRenewals (today : Z) (subscriptions : list Subscription)
  : list (string * Subscription) :=
  numberRows 0
    (firstn 5
       (JSArray.sort byRenewalTime
          (List.filter (renewsSoon today) subscriptions))).

(** What the panel shows: a prompt to add subscriptions, or the table,
    whose body may carry the "no renewals in the next 30 days" message. *)
Inductive Panel : Type :=
| AddSubscriptionsPrompt
| Table (rows : list (string * Subscription)) (noRenewalsMessage : bool).

Definition renewalsPanel (today : Z) (subscriptions : list Subscription)
  : Panel :=
  if (0 <? length subscriptions)%nat then
    Table (upcomingRenewals today subscriptions)
          (length (List.filter (renewsSoon today) subscriptions) =? 0)%nat
  else AddSubscriptionsPrompt.

End RenewalsTable.

(** ** subscription.tsx: colours, the empty state and the add form *)

Module RegistryExtras.
Local Open Scope string_scope.

Definition categoryColors : JSObject.t string :=
  [("Entertainment", "#2563eb"); ("Music", "#3b82f6");
   ("Productivity", "#10b981"); ("Design", "#f59e0b");
   ("Shopping", "#ef4444")].

(** [categoryColors[subscription.category] || "#64748b"] *)
Definition badgeColor (category : string) : Dashboard.Colour :=
  match JSObject.get categoryColors category with
  | JSObject.Own colour =>
      Dashboard.Hex (if String.eqb colour "" then "#64748b" else colour)
  | JSObject.InheritedFunction | JSObject.ObjectPrototype =>
      Dashboard.InheritedMember
  | JSObject.Undefined => Dashboard.Hex "#64748b"
  end.

(** What the grid shows when the view is empty. *)
Definition emptyStateMessage (subscriptions : list Subscription) : string :=
  if (length subscriptions =? 0)%nat
  then "Add your first subscription to get started."
  else "Try adjusting your search or filters.".

Inductive Grid : Type :=
| Cards (shown : list Subscription)
| EmptyState (message : string).

Section Grid.
Variable toLowerCase : string -> string.
Variable localeCompare : string -> string -> Z.

Definition grid (subscriptions : list Subscription)
  (searchTerm filterBy sortBy : string) : Grid :=
  let shown :=
    Registry.filteredAndSortedSubscriptions toLowerCase localeCompare
      subscriptions searchTerm filterBy sortBy in
  if (0 <? length shown)%nat then Cards shown
  else EmptyState (emptyStateMessage subscriptions).

End Grid.
End RegistryExtras.

Module AddSubscriptionModal.
Local Open Scope string_scope.

(** The form state; every field is text. *)
Record FormData : Type := mkForm {
  name : string;
  description : string;
  plan : string;
  cost : string;
  renewalDate : string;
  billingCycle : string;
  category : string
}.

Definition initialFormData : FormData :=
  {| name := ""; description := ""; plan := ""; cost := "";
     renewalDate := ""; billingCycle := "monthly"; category := "" |}.

(** [setFormData((prev) => ({ ...prev, [field]: value }))]; a key that is
    not a field of the form is never read and is left out. *)
Definition handleInputChange (formData : FormData) (field value : string)
  : FormData :=
  if String.eqb field "name" then
    mkForm value (description formData) (plan formData) (cost formData)
           (renewalDate formData) (billingCycle formData) (category formData)
  else if String.eqb field "description" then
    mkForm (name formData) value (plan formData) (cost formData)
           (renewalDate formData) (billingCycle formData) (category formData)
  else if String.eqb field "plan" then
    mkForm (name formData) (description formData) value (cost formData)
           (renewalDate formData) (billingCycle formData) (category formData)
  else if String.eqb field "cost" then
    mkForm (name formData) (description formData) (plan formData) value
           (renewalDate formData) (billingCycle formData) (category formData)
  else if String.eqb field "renewalDate" then
    mkForm (name formData) (description formData) (plan formData)
           (cost formData) value (billingCycle formData) (category formData)
  else if String.eqb field "billingCycle" then
    mkForm (name formData) (description formData) (plan formData)
           (cost formData) (renewalDate formData) value (category formData)
  else if String.eqb field "category" then
    mkForm (name formData) (description formData) (plan formData)
           (cost formData) (renewalDate formData) (billingCycle formData) value
  else formData.

(** The argument of [onAdd]: a subscription without its id.  The cost is
    the number [parseFloat] returns, [None] standing for NaN; the renewal
    date is still text. *)
Module Intent.
Record t : Type := mk {
  name : string;
  description : string;
  plan : string;
  cost : option Q;
  renewalDate : string;
  billingCycle : string;
  category : string
}.
End Intent.

(** What a submit does, in order. *)
Inductive Effect : Type :=
| PreventDefault
| Alert (message : string)
| OnAdd (subscription : Intent.t)
| OnClose.

Section Submit.

(** [parseFloat] is a parameter. *)
Variable parseFloat : string -> option Q.

(** [!s] for a string: true exactly for the empty string. *)
Definition missing (s : string) : bool := String.eqb s "".

Definition handleSubmit (formData : FormData) : list Effect :=
  PreventDefault ::
  if missing (name formData) || missing (cost formData)
     || missing (renewalDate formData) || missing (category formData)
  then [Alert "Please fill in all required fields"]
  else
    [OnAdd {| Intent.name := name formData;
              Intent.description := description formData;
              Intent.plan :=
                if missing (plan formData) then "Standard" else plan formData;
              Intent.cost := parseFloat (cost formData);
              Intent.renewalDate := renewalDate formData;
              Intent.billingCycle := billingCycle formData;
              Intent.category := category formData |};
     OnClose].

End Submit.
End AddSubscriptionModal.

(** ** dashboard.tsx: the owner of the payment modal *)

Module PaymentOwner.

(** The two state cells of the dashboard that control the modal. *)
Record State : Type := mkState {
  selectedSubscription : option Subscription;
  showPaymentModal : bool
}.

Definition initialState : State :=
  {| selectedSubscription := None; showPaymentModal := false |}.

Definition handlePayNow (s : State) (subscription : Subscription) : State :=
  {| selectedSubscription := Some subscription; showPaymentModal := true |}.

Definition handleClosePayment (s : State) : State :=
  {| selectedSubscription := None; showPaymentModal := false |}.

(** [showPaymentModal && selectedSubscription && <PaymentModal ... />]:
    the subscription the modal is mounted for, if it is mounted. *)
Definition mountedFor (s : State) : option Subscription :=
  if showPaymentModal s then selectedSubscription s else None.

End PaymentOwner.

(** ** PaymentModal: the input handlers and the events of the wizard *)

Module PaymentInput.
Import PaymentModal JSString.
Local Open Scope string_scope.

Definition formatExpiryDate (value : string) : string :=
  let v := stripNonDigits value in
  if (2 <=? String.length v)%nat
  then String.substring 0 2 v +:+ "/" +:+ String.substring 2 2 v
  else v.

(** [keyof PaymentInfo] *)
Inductive Field : Type :=
| cardNumberField | expiryDateField | cvvField | cardholderNameField.

Definition fieldName (field : Field) : string :=
  match field with
  | cardNumberField => "cardNumber"
  | expiryDateField => "expiryDate"
  | cvvField => "cvv"
  | cardholderNameField => "cardholderName"
  end.

(** [{ ...prev, [field]: value }] *)
Definition setField (info : PaymentInfo) (field : Field) (value : string)
  : PaymentInfo :=
  match field with
  | cardNumberField =>
      mkInfo value (expiryDate info) (cvv info) (cardholderName info)
  | expiryDateField =>
      mkInfo (cardNumber info) value (cvv info) (cardholderName info)
  | cvvField =>
      mkInfo (cardNumber info) (expiryDate info) value (cardholderName info)
  | cardholderNameField =>
      mkInfo (cardNumber info) (expiryDate info) (cvv info) value
  end.

Definition setPaymentInfo (m : Modal) (info : PaymentInfo) : Modal :=
  {| currentStep := currentStep m; paymentInfo := info; errors := errors m |}.

(** [errors[field]] as a condition: present and not the empty string. *)
Definition hasError (e : gmap string string) (key : string) : bool :=
  match e !! key with
  | Some message => negb (String.eqb message "")
  | None => false
  end.

Definition handleInputChange (m : Modal) (field : Field) (value : string)
  : Modal :=
  let m' := setPaymentInfo m (setField (paymentInfo m) field value) in
  if hasError (errors m) (fieldName field)
  then setErrors m' (<[fieldName field := ""]> (errors m))
  else m'.

Definition handleCardNumberChange (m : Modal) (value : string) : Modal :=
  let formatted := formatCardNumber value in
  if (String.length formatted <=? 19)%nat
  then handleInputChange m cardNumberField formatted
  else m.

Definition handleExpiryChange (m : Modal) (value : string) : Modal :=
  let formatted := formatExpiryDate value in
  if (String.length formatted <=? 5)%nat
  then handleInputChange m expiryDateField formatted
  else m.

(** The [onChange] of the CVV input. *)
Definition handleCvvChange (m : Modal) (value : string) : Modal :=
  handleInputChange m cvvField (stripNonDigits value).

(** The [onChange] of the cardholder name input. *)
Definition handleCardholderNameChange (m : Modal) (value : string) : Modal :=
  handleInputChange m cardholderNameField value.

(** [s.slice(-4)] *)
Definition sliceLast4 (s : string) : string :=
  String.substring (String.length s - 4) 4 s.

(** The masked card line of the summary step. *)
Definition maskedCardNumber (info : PaymentInfo) : string :=
  "**** **** **** " +:+ sliceLast4 (cardNumber info).

(** What can happen to a flow: an edit of one of the four inputs, a click
    on Continue, Pay or one of the closing controls, or the expiry of the
    pending timeout. *)
Inductive Event : Type :=
| ChangeCardNumber (value : string)
| ChangeCardholderName (value : string)
| ChangeExpiryDate (value : string)
| ChangeCvv (value : string)
| ClickContinue
| ClickPay
| ClickClose
| TimeoutExpires.

Definition atStep (f : Flow) (s : PaymentStep) : bool :=
  match currentStep (modal f), s with
  | payment, payment | summary, summary
  | processing, processing | success, success => true
  | _, _ => false
  end.

(** The events of the mounted wizard: the controls each step renders
    ([renderCurrentStep], [getFooterButton] and the header) and the expiry
    of a pending timeout.  A closed flow is unmounted: it renders nothing
    and has no state left to change, so it has no further event (what the
    expiry of a timeout does after the close is [fireTimeout] on a closed
    flow). *)
Definition enabled (f : Flow) (e : Event) : bool :=
  match e with
  | ChangeCardNumber _ | ChangeCardholderName _
  | ChangeExpiryDate _ | ChangeCvv _ | ClickContinue =>
      negb (closed f) && atStep f payment
  | ClickPay => negb (closed f) && atStep f summary
  | ClickClose => negb (closed f)
  | TimeoutExpires =>
      negb (closed f) && match timeouts f with [] => false | _ => true end
  end.

Definition withModal (f : Flow) (m : Modal) : Flow :=
  {| modal := m; timeouts := timeouts f; closed := closed f |}.

Definition react (f : Flow) (e : Event) : Flow :=
  match e with
  | ChangeCardNumber v => withModal f (handleCardNumberChange (modal f) v)
  | ChangeCardholderName v =>
      withModal f (handleCardholderNameChange (modal f) v)
  | ChangeExpiryDate v => withModal f (handleExpiryChange (modal f) v)
  | ChangeCvv v => withModal f (handleCvvChange (modal f) v)
  | ClickContinue => handleContinueToSummary f
  | ClickPay => handleConfirmPayment f
  | ClickClose => onClose f
  | TimeoutExpires => fireTimeout f
  end.

(** The flows that a sequence of enabled events produces from the initial
    one. *)
Inductive reachable : Flow -> Prop :=
| reachable_initial : reachable initialFlow
| reachable_step f e :
    reachable f -> enabled f e = true -> reachable (react f e).

(** Running a list of events, stopping with [None] at one that is not
    enabled. *)
Fixpoint run (f : Flow) (events : list Event) : option Flow :=
  match events with
  | [] => Some f
  | e :: rest => if enabled f e then run (react f e) rest else None
  end.

End PaymentInput.

(** ** Further specification-side notions *)

Module MoreSpec.
Import JSString.
Local Open Scope string_scope.

(** Every character of [s] satisfies [p]. *)
Fixpoint allChars (p : ascii -> bool) (s : string) : bool :=
  match s with
  | "" => true
  | String c s' => p c && allChars p s'
  end.

Definition isSpace (c : ascii) : bool := Ascii.eqb c " ".

Definition isSlash (c : ascii) : bool := Ascii.eqb c "/".








(** The record has a valid renewal date. *)
Definition hasDate (sub : Subscription) : bool :=
  match Sub.renewalDate sub with Some _ => true | None => false end.

Definition isMonthly (sub : Subscription) : bool :=
  String.eqb (Sub.billingCycle sub) "monthly".

(** The renewal date is early enough for the record to count toward last
    month's spend whatever the lengths of the months involved: at least
    five days before [today] for a monthly record, at most 331 days after
    [today] for any other.  Three respectively 333 days are what the
    lengths of the months and years require; the two further days leave
    room for a change of the zone's offset between the dates compared
    (daylight saving time), which at the exact bounds can move a record
    across the line.  The date is also far enough from the smallest time
    value to be moved back by a year. *)
Definition renewsBefore (today : Z) (sub : Subscription) : Prop :=
  exists t,
    Sub.renewalDate sub = Some t /\
    (- maxTime + 367 * msPerDay <= t)%Z /\
    (t <= today + (if isMonthly sub then -5 else 331) * msPerDay)%Z.

(** The renewal date, if valid, is late enough for the record to be left
    out of last month's spend: more than five days after [today] for a
    monthly record, more than 341 days after [today] for any other (again
    with two days of room for a change of the zone's offset). *)
Definition renewsAfter (today : Z) (sub : Subscription) : Prop :=
  forall t,
    Sub.renewalDate sub = Some t ->
    (today + (if isMonthly sub then 5 else 341) * msPerDay < t)%Z.

(** The steps of the wizard in the order the flow goes through them. *)
Definition stepRank (s : PaymentModal.PaymentStep) : nat :=
  match s with
  | PaymentModal.payment => 0
  | PaymentModal.summary => 1
  | PaymentModal.processing => 2
  | PaymentModal.success => 3
  end.

(** Reading a field of the payment data. *)
Definition getField (info : PaymentModal.PaymentInfo)
  (field : PaymentInput.Field) : string :=
  match field with
  | PaymentInput.cardNumberField => PaymentModal.cardNumber info
  | PaymentInput.expiryDateField => PaymentModal.expiryDate info
  | PaymentInput.cvvField => PaymentModal.cvv info
  | PaymentInput.cardholderNameField => PaymentModal.cardholderName info
  end.

(** The callback that [handleConfirmPayment] schedules. *)
Definition toSuccess : PaymentModal.Modal -> PaymentModal.Modal :=
  fun m => PaymentModal.setCurrentStep m PaymentModal.success.

(** What every flow that the wizard can get into satisfies. *)
Record consistent (f : PaymentModal.Flow) : Prop := {
  (** past the payment step the card data is valid and no error is shown *)
  valid_past_payment :
    PaymentModal.currentStep (PaymentModal.modal f) <> PaymentModal.payment ->
    PaymentSpec.validInfo (PaymentModal.paymentInfo (PaymentModal.modal f)) /\
    PaymentModal.errors (PaymentModal.modal f) = ∅;
  (** a timeout is pending exactly during processing, and it is the one
      that leads to success *)
  pending_iff_processing :
    (PaymentModal.currentStep (PaymentModal.modal f) = PaymentModal.processing
     /\ PaymentModal.timeouts f = [(3000%Z, toSuccess)]) \/
    (PaymentModal.currentStep (PaymentModal.modal f) <> PaymentModal.processing
     /\ PaymentModal.timeouts f = []);
  (** the stored card number is in its formatted form *)
  card_formatted :
    PaymentModal.formatCardNumber
      (PaymentModal.cardNumber (PaymentModal.paymentInfo (PaymentModal.modal f)))
    = PaymentModal.cardNumber (PaymentModal.paymentInfo (PaymentModal.modal f));
  (** the stored expiry date is in its formatted form *)
  expiry_formatted :
    PaymentInput.formatExpiryDate
      (PaymentModal.expiryDate (PaymentModal.paymentInfo (PaymentModal.modal f)))
    = PaymentModal.expiryDate (PaymentModal.paymentInfo (PaymentModal.modal f));
  (** the stored CVV consists of digits *)
  cvv_digits :
    allChars isDigit
      (PaymentModal.cvv (PaymentModal.paymentInfo (PaymentModal.modal f)))
    = true
}.

End MoreSpec.

(** ** Further sample data *)

Module MoreExamples.
Import PaymentModal PaymentInput.
Local Open Scope string_scope.

(** A customer types the card data and continues to the summary. *)
Definition fillAndContinue : list Event :=
  [ChangeCardNumber "4111111111111111"; ChangeCardholderName "A. Kumar";
   ChangeExpiryDate "1225"; ChangeCvv "123"; ClickContinue].

(** The flow at the summary step after these events. *)
Definition reviewing : Flow :=
  match run initialFlow fillAndContinue with
  | Some f => f
  | None => initialFlow
  end.

(** The flow after the payment has been confirmed as well. *)
Definition paying : Flow := react reviewing ClickPay.

End MoreExamples.

(** * Properties *)

(** ** Calendar arithmetic *)

Module JSDateFacts.
Local Open Scope Z_scope.

Lemma DaysInYear_cases y : DaysInYear y = 365 \/ DaysInYear y = 366.
Proof.
  unfold DaysInYear.
  destruct (y mod 4 =? 0), (y mod 100 =? 0), (y mod 400 =? 0); simpl; auto.
Qed.

Lemma DayFromYear_succ y : DayFromYear (y + 1) = DayFromYear y + DaysInYear y.
Proof.
  unfold DayFromYear, DaysInYear.
  destruct (Z.eqb_spec (y mod 4) 0); destruct (Z.eqb_spec (y mod 100) 0);
    destruct (Z.eqb_spec (y mod 400) 0); simpl negb; cbv iota;
    Z.div_mod_to_equations; lia.
Qed.

Lemma DayFromYear_lt y1 y2 : y1 < y2 -> DayFromYear y1 + 365 <= DayFromYear y2.
Proof.
  unfold DayFromYear. intros H. Z.div_mod_to_equations. lia.
Qed.

(** [YearFromTime t] is the year whose day range contains [Day t]. *)
Lemma YearFromTime_spec t :
  DayFromYear (YearFromTime t) <= Day t < DayFromYear (YearFromTime t + 1).
Proof.
  unfold YearFromTime.
  set (D := Day t). clearbody D. cbv zeta.
  destruct (Z.ltb_spec D (DayFromYear (1970 + 400 * D / 146097))) as [H1|H1].
  - replace (1970 + 400 * D / 146097 - 1 + 1)
      with (1970 + 400 * D / 146097) by lia.
    split; [|exact H1].
    unfold DayFromYear in *. Z.div_mod_to_equations. lia.
  - destruct (Z.leb_spec (DayFromYear (1970 + 400 * D / 146097 + 1)) D)
      as [H2|H2].
    + split; [exact H2|].
      unfold DayFromYear in *. Z.div_mod_to_equations. lia.
    + split; assumption.
Qed.

Lemma YearFromTime_unique t y :
  DayFromYear y <= Day t < DayFromYear (y + 1) -> YearFromTime t = y.
Proof.
  intros [Hlo Hhi].
  pose proof (YearFromTime_spec t) as [Slo Shi].
  destruct (Z.lt_trichotomy (YearFromTime t) y) as [Hlt|[Heq|Hgt]]; auto.
  - assert (YearFromTime t + 1 <= y) as Hle by lia.
    apply Zle_lt_or_eq in Hle. destruct Hle as [Hle|Hle].
    + pose proof (DayFromYear_lt _ _ Hle). lia.
    + rewrite Hle in Shi. lia.
  - assert (y + 1 <= YearFromTime t) as Hle by lia.
    apply Zle_lt_or_eq in Hle. destruct Hle as [Hle|Hle].
    + pose proof (DayFromYear_lt _ _ Hle). lia.
    + rewrite <- Hle in Slo. lia.
Qed.

Lemma DayWithinYear_range t :
  0 <= DayWithinYear t < DaysInYear (YearFromTime t).
Proof.
  unfold DayWithinYear.
  pose proof (YearFromTime_spec t) as [Slo Shi].
  rewrite DayFromYear_succ in Shi. lia.
Qed.

Lemma MonthFromTime_range t : 0 <= MonthFromTime t <= 11.
Proof.
  unfold MonthFromTime. cbv zeta.
  repeat match goal with
         | |- context [if ?a <? ?b then _ else _] => destruct (a <? b)
         end; lia.
Qed.

Lemma msPerDay_pos : 0 < msPerDay.
Proof. reflexivity. Qed.

Lemma time_decompose t : t = MakeDate (Day t) (TimeWithinDay t).
Proof.
  unfold MakeDate, Day, TimeWithinDay.
  pose proof (Z.div_mod t msPerDay). unfold msPerDay in *. lia.
Qed.

Lemma TimeWithinDay_range t : 0 <= TimeWithinDay t < msPerDay.
Proof. unfold TimeWithinDay. apply Z.mod_pos_bound. reflexivity. Qed.

(** The calendar fields of a time value give back its day number. *)
Lemma MakeDay_fields t :
  MakeDay (YearFromTime t) (MonthFromTime t) (DateFromTime t) = Day t.
Proof.
  pose proof (MonthFromTime_range t) as Hm.
  unfold MakeDay. cbv zeta.
  rewrite Z.div_small, Z.mod_small by lia.
  rewrite Z.add_0_r.
  unfold DateFromTime, DayWithinYear, InLeapYear. lia.
Qed.

Lemma month_cases m : 0 <= m <= 11 ->
  m = 0 \/ m = 1 \/ m = 2 \/ m = 3 \/ m = 4 \/ m = 5 \/ m = 6 \/ m = 7 \/
  m = 8 \/ m = 9 \/ m = 10 \/ m = 11.
Proof. lia. Qed.

Ltac by_month H :=
  apply month_cases in H;
  repeat (destruct H as [H|H]; [subst|]); [..|subst].

Lemma leapFlag_cases y :
  (leapFlag y = 0 /\ DaysInYear y = 365) \/ (leapFlag y = 1 /\ DaysInYear y = 366).
Proof.
  unfold leapFlag. destruct (DaysInYear_cases y) as [H|H]; rewrite H; simpl; auto.
Qed.

Lemma MakeDay_unfold y m d : 0 <= m <= 11 ->
  MakeDay y m d = DayFromYear y + daysBeforeMonth m (leapFlag y) + d - 1.
Proof.
  intros Hm. unfold MakeDay. cbv zeta.
  rewrite Z.div_small, Z.mod_small by lia. rewrite Z.add_0_r. reflexivity.
Qed.

(** Moving one month back takes off the length of the preceding month. *)
Lemma MakeDay_prev_month y m d : 0 <= m <= 11 ->
  exists k, 28 <= k <= 31 /\ MakeDay y (m - 1) d = MakeDay y m d - k.
Proof.
  intros Hm.
  destruct (Z.eq_dec m 0) as [->|Hne].
  - exists 31. split; [lia|].
    unfold MakeDay. cbv zeta.
    change ((0 - 1) / 12) with (-1). change ((0 - 1) mod 12) with 11.
    change (0 / 12) with 0. change (0 mod 12) with 0.
    replace (y + 0) with (y + -1 + 1) by lia.
    rewrite DayFromYear_succ.
    destruct (leapFlag_cases (y + -1)) as [[-> ->]|[-> ->]]; simpl; lia.
  - rewrite !MakeDay_unfold by lia.
    destruct (leapFlag_cases y) as [[-> _]|[-> _]].
    + by_month Hm; try lia;
        match goal with
        | |- exists k, _ /\ _ + daysBeforeMonth ?a 0 + _ - 1 = _ + daysBeforeMonth ?b 0 + _ - 1 - k =>
            exists (daysBeforeMonth b 0 - daysBeforeMonth a 0); simpl; lia
        end.
    + by_month Hm; try lia;
        match goal with
        | |- exists k, _ /\ _ + daysBeforeMonth ?a 1 + _ - 1 = _ + daysBeforeMonth ?b 1 + _ - 1 - k =>
            exists (daysBeforeMonth b 1 - daysBeforeMonth a 1); simpl; lia
        end.
Qed.

(** Moving one year back takes off about a year. *)
Lemma MakeDay_prev_year y m d : 0 <= m <= 11 ->
  exists k, 364 <= k <= 367 /\ MakeDay (y - 1) m d = MakeDay y m d - k.
Proof.
  intros Hm. rewrite !MakeDay_unfold by lia.
  replace (DayFromYear y) with (DayFromYear (y - 1 + 1)) by (f_equal; lia).
  rewrite DayFromYear_succ.
  exists (DaysInYear (y - 1) + daysBeforeMonth m (leapFlag y)
          - daysBeforeMonth m (leapFlag (y - 1))).
  split; [|lia].
  destruct (leapFlag_cases (y - 1)) as [[-> ->]|[-> ->]];
    destruct (leapFlag_cases y) as [[-> _]|[-> _]];
    by_month Hm; simpl; lia.
Qed.

Lemma DateFromTime_pos t : 1 <= DateFromTime t.
Proof.
  unfold DateFromTime, MonthFromTime. cbv zeta.
  pose proof (DayWithinYear_range t) as Hd.
  repeat match goal with
         | |- context [if ?a <? ?b then _ else _] => destruct (Z.ltb_spec a b)
         end; simpl daysBeforeMonth; lia.
Qed.

Lemma TimeClip_in_range t :
  - maxTime <= t <= maxTime -> TimeClip t = Some t.
Proof.
  intros H. unfold TimeClip.
  destruct (Z.ltb_spec maxTime (Z.abs t)); [lia|reflexivity].
Qed.

Lemma TimeClip_Some t t' : TimeClip t = Some t' -> t' = t.
Proof. unfold TimeClip. destruct (maxTime <? Z.abs t); congruence. Qed.

Section LocalTimeFacts.
Context {tz : TimeZone}.

Lemma setMonth_back t :
  exists k, (28 <= k <= 31) /\
    setMonth (Some t) (JSNum.subZ (getMonth (Some t)) 1)
    = TimeClip (t - k * msPerDay).
Proof.
  destruct (MakeDay_prev_month (YearFromTime (LocalTime t))
              (MonthFromTime (LocalTime t)) (DateFromTime (LocalTime t))
              (MonthFromTime_range (LocalTime t))) as (k & Hk & E).
  exists k. split; [exact Hk|].
  simpl. rewrite E, MakeDay_fields. f_equal.
  pose proof (time_decompose (LocalTime t)) as Hd.
  unfold UTC, MakeDate, LocalTime in *. lia.
Qed.

Lemma setFullYear_back t :
  exists k, (364 <= k <= 367) /\
    setFullYear (Some t) (JSNum.subZ (getFullYear (Some t)) 1)
    = TimeClip (t - k * msPerDay).
Proof.
  destruct (MakeDay_prev_year (YearFromTime (LocalTime t))
              (MonthFromTime (LocalTime t)) (DateFromTime (LocalTime t))
              (MonthFromTime_range (LocalTime t))) as (k & Hk & E).
  exists k. split; [exact Hk|].
  simpl. rewrite E, MakeDay_fields. f_equal.
  pose proof (time_decompose (LocalTime t)) as Hd.
  unfold UTC, MakeDate, LocalTime in *. lia.
Qed.

End LocalTimeFacts.

End JSDateFacts.

(** ** The backward-stepping loop and the month dates *)

Module RewindFacts.
Import JSDateFacts Dashboard Spec.
Local Open Scope Z_scope.

Lemma rewind_invalid_target step fuel start :
  rewind step fuel None start = Some start.
Proof.
  destruct fuel; simpl; destruct start; reflexivity.
Qed.

Lemma rewind_invalid_start step fuel md :
  rewind step fuel md None = Some None.
Proof. destruct fuel; reflexivity. Qed.

Lemma enoughFuel_bound m t :
  t - m <= Z.of_nat (enoughFuel (Some m) (Some t)) * (28 * msPerDay).
Proof.
  unfold enoughFuel, msPerDay.
  pose proof (Z.div_mod (t - m) (28 * 86400000) ltac:(lia)).
  pose proof (Z.mod_pos_bound (t - m) (28 * 86400000) ltac:(lia)).
  lia.
Qed.

Lemma daysBeforeMonth_range m l : 0 <= m <= 11 -> 0 <= l <= 1 ->
  0 <= daysBeforeMonth m l <= 335.
Proof. intros Hm Hl. by_month Hm; simpl; lia. Qed.

Lemma daysBeforeMonth_mono a b l : 0 <= a <= b -> b <= 11 -> 0 <= l <= 1 ->
  daysBeforeMonth a l <= daysBeforeMonth b l.
Proof.
  intros Hab Hb Hl.
  assert (0 <= a <= 11) as Ha by lia. assert (0 <= b <= 11) as Hb' by lia.
  by_month Ha; by_month Hb'; simpl; lia.
Qed.

Lemma leapFlag_range y : 0 <= leapFlag y <= 1.
Proof. destruct (leapFlag_cases y) as [[-> _]|[-> _]]; lia. Qed.

(** A time value on the first day of month [mn] of year [ym] has these
    calendar fields. *)
Lemma first_of_month ym mn t : 0 <= mn <= 11 ->
  Day t = DayFromYear ym + daysBeforeMonth mn (leapFlag ym) ->
  YearFromTime t = ym /\ MonthFromTime t = mn.
Proof.
  intros Hmn HD.
  assert (YearFromTime t = ym) as Hy.
  { apply YearFromTime_unique. rewrite HD, DayFromYear_succ.
    destruct (leapFlag_cases ym) as [[-> ->]|[-> ->]];
      by_month Hmn; simpl; lia. }
  split; [exact Hy|].
  unfold MonthFromTime, InLeapYear, DayWithinYear. rewrite Hy, HD. cbv zeta.
  replace (DayFromYear ym + daysBeforeMonth mn (leapFlag ym) - DayFromYear ym)
    with (daysBeforeMonth mn (leapFlag ym)) by lia.
  destruct (leapFlag_cases ym) as [[-> _]|[-> _]];
    by_month Hmn; reflexivity.
Qed.

Lemma YearFromTime_epoch t : 0 <= t -> 1970 <= YearFromTime t.
Proof.
  intros Ht.
  pose proof (YearFromTime_spec t) as [_ Shi].
  assert (0 <= Day t) as HD by (apply Z.div_pos; [exact Ht|reflexivity]).
  destruct (Z.le_gt_cases 1970 (YearFromTime t)) as [|Hlt]; [assumption|].
  exfalso.
  assert (YearFromTime t + 1 <= 1970) as Hle by lia.
  apply Zle_lt_or_eq in Hle. destruct Hle as [Hle|Hle].
  - pose proof (DayFromYear_lt _ _ Hle) as H. change (DayFromYear 1970) with 0 in H. lia.
  - rewrite Hle in Shi. change (DayFromYear 1970) with 0 in Shi. lia.
Qed.

Lemma Day_MakeDate D : Day (MakeDate D 0) = D.
Proof.
  unfold Day, MakeDate. rewrite Z.add_0_r. apply Z.div_mul. discriminate.
Qed.

Lemma Day_le_time t : Day t * msPerDay <= t.
Proof.
  unfold Day. pose proof (Z.div_mod t msPerDay ltac:(discriminate)).
  pose proof (Z.mod_pos_bound t msPerDay ltac:(reflexivity)). lia.
Qed.

Section RewindLocal.
Context {tz : TimeZone}.

Lemma stepBack_None bc : stepBack bc None = None.
Proof. unfold stepBack. destruct (String.eqb bc "monthly"); reflexivity. Qed.

(** One step moves a valid date back by 28 to 367 days (and clips it). *)
Lemma stepBack_Some bc t :
  exists k, (28 <= k <= 367) /\
    stepBack bc (Some t) = TimeClip (t - k * msPerDay).
Proof.
  unfold stepBack. destruct (String.eqb bc "monthly").
  - destruct (setMonth_back t) as (k & Hk & E). exists k. split; [lia|exact E].
  - destruct (setFullYear_back t) as (k & Hk & E). exists k. split; [lia|exact E].
Qed.

Lemma stepBack_decreases bc t t' :
  stepBack bc (Some t) = Some t' ->
  t - 367 * msPerDay <= t' <= t - 28 * msPerDay.
Proof.
  destruct (stepBack_Some bc t) as (k & Hk & E). rewrite E. intros H.
  apply TimeClip_Some in H. subst. unfold msPerDay. lia.
Qed.

Lemma rewind_valid bc m n : forall t fuel,
  t - m <= Z.of_nat n * (28 * msPerDay) -> (n <= fuel)%nat ->
  exists d, rewind (stepBack bc) fuel (Some m) (Some t) = Some d /\
            dateGt d (Some m) = false /\
            (- maxTime <= m - 367 * msPerDay -> t <= maxTime ->
             dateLe d (Some m) = true).
Proof.
  induction n as [|n IH]; intros t fuel Hn Hfuel.
  - assert (t <= m) as Htm by lia.
    exists (Some t).
    assert (dateGt (Some t) (Some m) = false) as Hgt
      by (simpl; apply Z.ltb_ge; exact Htm).
    repeat split.
    + destruct fuel; simpl rewind; simpl in Hgt; rewrite Hgt; reflexivity.
    + exact Hgt.
    + intros _ _. simpl. apply Z.leb_le. exact Htm.
  - destruct (Z.ltb_spec m t) as [Hlt|Hge].
    + destruct fuel as [|fuel]; [lia|].
      simpl rewind. simpl dateGt.
      destruct (Z.ltb_spec m t) as [_|]; [|lia].
      destruct (stepBack_Some bc t) as (k & Hk & E).
      destruct (stepBack bc (Some t)) as [t'|] eqn:Et.
      * symmetry in E. apply TimeClip_Some in E. subst t'.
        destruct (IH (t - k * msPerDay) fuel) as (d & Hd & Hgt & Hle).
        { unfold msPerDay in *. lia. }
        { lia. }
        exists d. repeat split; auto.
        intros Hm Ht. apply Hle; [exact Hm|unfold msPerDay in *; lia].
      * exists None. repeat split.
        -- apply rewind_invalid_start.
        -- intros Hm Ht. exfalso.
           rewrite TimeClip_in_range in E; [discriminate|].
           unfold msPerDay, maxTime in *. lia.
    + exists (Some t).
      assert (dateGt (Some t) (Some m) = false) as Hgt
        by (simpl; apply Z.ltb_ge; exact Hge).
      repeat split.
      * destruct fuel; simpl rewind; simpl in Hgt; rewrite Hgt; reflexivity.
      * exact Hgt.
      * intros _ _. simpl. apply Z.leb_le. exact Hge.
Qed.

(** The twelve month dates of the chart: valid, not after [today], not
    before December 1968, and in the expected calendar month. *)
Lemma monthDateAt_spec today i : clockOk today -> 0 <= i <= 11 ->
  exists m, monthDateAt today i = Some m /\
            (- 366 * msPerDay <= m <= today) /\
            MonthFromTime (LocalTime m)
            = (MonthFromTime (LocalTime today) - i) mod 12.
Proof.
  intros [Htz Ht] Hi.
  assert (0 <= LocalTime today) as Hlt by (unfold LocalTime; lia).
  assert (LocalTime today = today + localTZA) as Elt by reflexivity.
  pose proof (YearFromTime_epoch (LocalTime today) Hlt) as Hy.
  pose proof (MonthFromTime_range (LocalTime today)) as Hm.
  pose proof (DateFromTime_pos (LocalTime today)) as Hd.
  pose proof (MakeDay_fields (LocalTime today)) as HD.
  rewrite MakeDay_unfold in HD by exact Hm.
  pose proof (Day_le_time (LocalTime today)) as Hle.
  unfold monthDateAt. simpl getFullYear. simpl getMonth. simpl JSNum.subZ.
  unfold newDateYM1. cbv zeta.
  replace ((0 <=? YearFromTime (LocalTime today))
           && (YearFromTime (LocalTime today) <=? 99))
    with false
    by (symmetry; apply andb_false_iff; right; apply Z.leb_gt; lia).
  set (y := YearFromTime (LocalTime today)) in *.
  set (mth := MonthFromTime (LocalTime today)) in *.
  unfold MakeDay. cbv zeta.
  set (ym := y + (mth - i) / 12). set (mn := (mth - i) mod 12).
  assert (0 <= mn <= 11) as Hmn
    by (pose proof (Z.mod_pos_bound (mth - i) 12 ltac:(lia)); unfold mn; lia).
  replace (DayFromYear ym + daysBeforeMonth mn (leapFlag ym) + 1 - 1)
    with (DayFromYear ym + daysBeforeMonth mn (leapFlag ym)) by lia.
  set (D := DayFromYear ym + daysBeforeMonth mn (leapFlag ym)).
  pose proof (daysBeforeMonth_range mn (leapFlag ym) Hmn (leapFlag_range ym))
    as Hdb.
  assert (- 365 <= D <= Day (LocalTime today)) as HDr.
  { destruct (Z.le_gt_cases i mth) as [Him|Him].
    - assert (ym = y) as -> by (unfold ym; rewrite Z.div_small by lia; lia).
      assert (mn = mth - i) as Emn by (unfold mn; apply Z.mod_small; lia).
      pose proof (daysBeforeMonth_mono mn mth (leapFlag y) ltac:(lia) ltac:(lia)
                    (leapFlag_range y)).
      assert (DayFromYear 1970 <= DayFromYear y) as H0.
      { apply Zle_lt_or_eq in Hy. destruct Hy as [Hy|Hy].
        - pose proof (DayFromYear_lt _ _ Hy). lia.
        - rewrite <- Hy. lia. }
      change (DayFromYear 1970) with 0 in H0. unfold D. lia.
    - assert (ym = y - 1) as ->.
      { unfold ym. replace (mth - i) with ((mth - i + 12) + (-1) * 12) by lia.
        rewrite Z.div_add by discriminate. rewrite Z.div_small by lia. lia. }
      pose proof (DayFromYear_lt (y - 1) y ltac:(lia)) as H1.
      assert (DayFromYear 1969 <= DayFromYear (y - 1)) as H0.
      { assert (1969 <= y - 1) as Hy' by lia.
        apply Zle_lt_or_eq in Hy'. destruct Hy' as [Hy'|Hy'].
        - pose proof (DayFromYear_lt _ _ Hy'). lia.
        - rewrite <- Hy'. lia. }
      change (DayFromYear 1969) with (-365) in H0.
      pose proof (daysBeforeMonth_range mth (leapFlag y) Hm (leapFlag_range y)).
      unfold D. lia. }
  exists (UTC (MakeDate D 0)).
  assert (- 366 * msPerDay <= UTC (MakeDate D 0) <= today) as Hr
    by (unfold UTC, MakeDate, msPerDay in *; lia).
  split; [|split].
  - apply TimeClip_in_range. unfold maxTime, msPerDay in *. lia.
  - exact Hr.
  - replace (LocalTime (UTC (MakeDate D 0))) with (MakeDate D 0)
      by (unfold LocalTime, UTC; lia).
    apply (first_of_month ym mn); [exact Hmn|]. apply Day_MakeDate.
Qed.

End RewindLocal.

End RewindFacts.

(** ** Rounding *)

Module JSNumFacts.
Import JSNum.
Local Open Scope Q_scope.

Lemma Qlt_bool_iff x y : Qlt_bool x y = true <-> x < y.
Proof.
  unfold Qlt_bool. rewrite negb_true_iff.
  split; intros H.
  - apply Qnot_le_lt. intros Hle. apply Qle_bool_iff in Hle. congruence.
  - destruct (Qle_bool y x) eqn:E; [|reflexivity].
    apply Qle_bool_iff in E. exfalso. apply (Qlt_not_le _ _ H E).
Qed.





#[export] Instance toFixed2_Proper : Proper (Qeq ==> Qeq) toFixed2.
Proof.
  intros x y Hxy. unfold toFixed2.
  assert (Qlt_bool x 0 = Qlt_bool y 0) as ->.
  { unfold Qlt_bool. f_equal.
    destruct (Qle_bool 0 x) eqn:Ex, (Qle_bool 0 y) eqn:Ey; try reflexivity.
    - apply Qle_bool_iff in Ex. rewrite Hxy in Ex. apply Qle_bool_iff in Ex. congruence.
    - apply Qle_bool_iff in Ey. rewrite <- Hxy in Ey. apply Qle_bool_iff in Ey. congruence. }
  destruct (Qlt_bool y 0).
  - assert (Qfloor (- x * 100 + (1 # 2)) = Qfloor (- y * 100 + (1 # 2))) as ->
      by (apply Qfloor_comp; rewrite Hxy; reflexivity).
    reflexivity.
  - assert (Qfloor (x * 100 + (1 # 2)) = Qfloor (y * 100 + (1 # 2))) as ->
      by (apply Qfloor_comp; rewrite Hxy; reflexivity).
    reflexivity.
Qed.

End JSNumFacts.

(** ** Sorting *)

Module JSArrayFacts.
Import JSArray.
Section SortFacts.
Context {A : Type}.
Variable comparefn : A -> A -> option Q.

Lemma insertSorted_Permutation x (l : list A) :
  Permutation (insertSorted comparefn x l) (x :: l).
Proof.
  induction l as [|y l IH]; simpl; [reflexivity|].
  destruct (Qle_bool _ _); [reflexivity|].
  rewrite IH. apply perm_swap.
Qed.

(** Sorting rearranges: nothing is added, dropped or duplicated. *)
Lemma sort_Permutation (l : list A) : Permutation (sort comparefn l) l.
Proof.
  induction l as [|x l IH]; simpl; [reflexivity|].
  rewrite insertSorted_Permutation. apply perm_skip. exact IH.
Qed.

Lemma sort_In (l : list A) x : In x (sort comparefn l) <-> In x l.
Proof.
  split; apply Permutation_in;
    [apply sort_Permutation|symmetry; apply sort_Permutation].
Qed.

(** An order [R] and a set [P] of elements on which the comparison function
    is consistent with [R]. *)
Variable R : A -> A -> Prop.
Variable P : A -> Prop.
Hypothesis compare_le :
  forall x y, P x -> P y -> (sortCompare comparefn x y <= 0)%Q -> R x y.
Hypothesis compare_gt :
  forall x y, P x -> P y -> ~ (sortCompare comparefn x y <= 0)%Q -> R y x.
Hypothesis R_trans :
  forall x y z, P x -> P y -> P z -> R x y -> R y z -> R x z.

Lemma insertSorted_sorted x (l : list A) :
  P x -> Forall P l -> StronglySorted R l ->
  StronglySorted R (insertSorted comparefn x l).
Proof.
  intros Hx HP HS. induction HS as [|y l HS IH Hy]; simpl.
  - constructor; constructor.
  - inversion HP as [|? ? Py Pl]; subst.
    destruct (Qle_bool (sortCompare comparefn x y) 0) eqn:E.
    + apply Qle_bool_iff in E.
      pose proof (compare_le x y Hx Py E) as Rxy.
      constructor; [constructor; assumption|].
      constructor; [exact Rxy|].
      rewrite List.Forall_forall in Hy, Pl |- *.
      intros z Hz. apply (R_trans x y z); auto.
    + assert (~ (sortCompare comparefn x y <= 0)%Q) as Hn.
      { intros H. apply Qle_bool_iff in H. congruence. }
      pose proof (compare_gt x y Hx Py Hn) as Ryx.
      constructor; [apply IH; exact Pl|].
      rewrite List.Forall_forall in Hy |- *.
      intros z Hz.
      apply (Permutation_in _ (insertSorted_Permutation x l)) in Hz.
      destruct Hz as [<-|Hz]; [exact Ryx|apply Hy; exact Hz].
Qed.

(** On such elements the result is sorted with respect to [R]. *)
Lemma sort_sorted (l : list A) :
  Forall P l -> StronglySorted R (sort comparefn l).
Proof.
  induction 1 as [|x l Hx Hl IH]; simpl; [constructor|].
  apply insertSorted_sorted; [exact Hx| |exact IH].
  rewrite List.Forall_forall in Hl |- *.
  intros z Hz. apply Hl. apply sort_In. exact Hz.
Qed.

End SortFacts.
End JSArrayFacts.

(** ** Dictionary objects *)

Module JSObjectFacts.
Import JSObject.

Section ObjFacts.
Context {V : Type}.
Implicit Types (o : JSObject.t V) (k : string) (v : V).














(** [get] in terms of the own properties. *)
Lemma get_Own o k v : get o k = Own v <-> getOwn o k = Some v.
Proof.
  unfold get. destruct (getOwn o k) as [v'|].
  - split; intros [= ->]; reflexivity.
  - destruct (protoKey k); [|destruct (inheritedFunction k)];
      split; discriminate.
Qed.

End ObjFacts.
End JSObjectFacts.

(** ** Ordering subscriptions by renewal date *)

Module RenewalOrder.
Import JSNum JSArrayFacts Spec.
Local Open Scope Q_scope.

Lemma byRenewal_le a b : hasValidDate a -> hasValidDate b ->
  (JSArray.sortCompare byRenewal a b <= 0
   <-> (renewalTime a <= renewalTime b)%Z).
Proof.
  intros [ta Ha] [tb Hb].
  unfold JSArray.sortCompare, byRenewal, renewalTime, getTime.
  rewrite Ha, Hb. simpl.
  change 0 with (inject_Z 0). rewrite <- Zle_Qle. lia.
Qed.

Lemma sort_byRenewal_sorted (l : list Subscription) :
  Forall hasValidDate l ->
  StronglySorted (fun a b => (renewalTime a <= renewalTime b)%Z)
                 (JSArray.sort byRenewal l).
Proof.
  apply sort_sorted.
  - intros x y Hx Hy H. apply byRenewal_le in H; assumption.
  - intros x y Hx Hy H. rewrite byRenewal_le in H by assumption. lia.
  - intros x y z _ _ _ H1 H2. lia.
Qed.

End RenewalOrder.

(** ** Strings *)

Module JSStringFacts.
Import JSString.
Local Open Scope string_scope.

Lemma prefix_spec p : forall s,
  String.prefix p s = true <-> exists b, s = p +:+ b.
Proof.
  induction p as [|c p IH]; intros s.
  - split; [intros _; exists s; reflexivity|].
    intros _. destruct s; reflexivity.
  - destruct s as [|c' s]; simpl.
    + split; [discriminate|]. intros (b & H). discriminate.
    + destruct (ascii_dec c c') as [->|Hne].
      * rewrite IH. split.
        -- intros (b & ->). exists b. reflexivity.
        -- intros (b & [= ->]). exists b. reflexivity.
      * split; [discriminate|]. intros (b & [= ? _]). congruence.
Qed.

(** [includes s p] holds exactly when [p] occurs in [s]. *)
Lemma includes_spec p : forall s,
  includes s p = true <-> exists a b, s = a +:+ p +:+ b.
Proof.
  induction s as [|c s IH].
  - change (includes "" p) with (String.prefix p "" || false).
    rewrite orb_false_r, prefix_spec. split.
    + intros (b & H). exists "", b. exact H.
    + intros (a & b & H). destruct a; [exists b; exact H|discriminate].
  - change (includes (String c s) p)
      with (String.prefix p (String c s) || includes s p).
    rewrite orb_true_iff, prefix_spec, IH. split.
    + intros [(b & H)|(a & b & ->)].
      * exists "", b. exact H.
      * exists (String c a), b. reflexivity.
    + intros (a & b & H). destruct a as [|c' a].
      * left. exists b. exact H.
      * right. injection H as -> ->. exists a, b. reflexivity.
Qed.

Lemma codeUnitCompare_antisym a : forall b,
  (0 < codeUnitCompare a b -> codeUnitCompare b a <= 0)%Z.
Proof.
  induction a as [|x a IH]; intros [|y b]; simpl; try lia.
  destruct (Z.eqb_spec (Z.of_nat (nat_of_ascii x) - Z.of_nat (nat_of_ascii y)) 0),
           (Z.eqb_spec (Z.of_nat (nat_of_ascii y) - Z.of_nat (nat_of_ascii x)) 0);
    try lia.
  apply IH.
Qed.

Lemma codeUnitCompare_trans a : forall b c,
  (codeUnitCompare a b <= 0 -> codeUnitCompare b c <= 0 ->
   codeUnitCompare a c <= 0)%Z.
Proof.
  induction a as [|x a IH]; intros [|y b] [|z c]; simpl; try lia.
  destruct (Z.eqb_spec (Z.of_nat (nat_of_ascii x) - Z.of_nat (nat_of_ascii y)) 0),
           (Z.eqb_spec (Z.of_nat (nat_of_ascii y) - Z.of_nat (nat_of_ascii z)) 0),
           (Z.eqb_spec (Z.of_nat (nat_of_ascii x) - Z.of_nat (nat_of_ascii z)) 0);
    try lia.
  apply IH.
Qed.

End JSStringFacts.

(** ** Spend analytics *)

Module DashboardFacts.
Import Dashboard JSNum JSNumFacts JSDateFacts RewindFacts JSArrayFacts.
Import JSObjectFacts RenewalOrder Spec.
Local Open Scope Q_scope.

Lemma monthlyCost_normalize sub : monthlyCost sub = normalize sub.
Proof.
  unfold monthlyCost, normalize.
  destruct (String.eqb_spec (Sub.billingCycle sub) "annually");
    destruct (decide _); congruence.
Qed.

Lemma fold_spend_acc (subs : list Subscription) (acc : Q) :
  fold_left (fun total sub => total + monthlyCost sub) subs acc
  == acc + sumOf normalize subs.
Proof.
  revert acc. induction subs as [|sub rest IH]; intros acc; simpl.
  - lra.
  - rewrite IH, monthlyCost_normalize. lra.
Qed.

Lemma sumOf_Permutation f (l1 l2 : list Subscription) :
  Permutation l1 l2 -> sumOf f l1 == sumOf f l2.
Proof.
  induction 1; simpl; lra.
Qed.

(** C1.  The monthly spend is the sum, over all subscriptions, of the
    normalised monthly cost ([cost / 12] for billing cycle "annually", the
    cost itself for every other billing cycle); it does not depend on the
    order of the collection, and equal collections give equal totals. *)
Theorem calculateMonthlySpend_sum :
  forall subs : list Subscription,
    calculateMonthlySpend subs == sumOf normalize subs /\
    (forall sub, Sub.billingCycle sub = "annually"%string ->
                 normalize sub = Sub.cost sub / 12) /\
    (forall sub, Sub.billingCycle sub <> "annually"%string ->
                 normalize sub = Sub.cost sub) /\
    (forall subs', Permutation subs subs' ->
                   calculateMonthlySpend subs' == calculateMonthlySpend subs) /\
    (forall subs', subs' = subs ->
                   calculateMonthlySpend subs' = calculateMonthlySpend subs).
Proof.
  intros subs. unfold calculateMonthlySpend.
  split; [rewrite fold_spend_acc; lra|].
  split; [intros sub H; unfold normalize; destruct (decide _); congruence|].
  split; [intros sub H; unfold normalize; destruct (decide _); congruence|].
  split.
  - intros subs' HP. rewrite !fold_spend_acc.
    rewrite (sumOf_Permutation normalize _ _ HP). reflexivity.
  - intros subs' ->. reflexivity.
Qed.


Lemma monthlyCost_nonneg sub : 0 <= Sub.cost sub -> 0 <= monthlyCost sub.
Proof.
  intros Hc. unfold monthlyCost.
  destruct (String.eqb _ _); [|exact Hc].
  assert (Sub.cost sub / 12 == Sub.cost sub * (1 # 12)) as -> by field. lra.
Qed.



Lemma dateGe_Some d today :
  dateGe d (Some today) = true <-> exists t, d = Some t /\ (today <= t)%Z.
Proof.
  destruct d as [t|]; simpl.
  - rewrite Z.leb_le. split; [intros H; exists t; auto|].
    intros (t' & [= <-] & H). exact H.
  - split; [discriminate|]. intros (t' & [=] & _).
Qed.

(** *** The category breakdown *)















(** *** Properties that involve the local time zone *)

Section AnalyticsLocal.
Context {tz : TimeZone}.

(** *** The trend series *)

Lemma chartFuel_enough today subs (k : nat) sub :
  (k < 12)%nat -> In sub subs ->
  (enoughFuel (monthDateAt today (11 - Z.of_nat k)) (Sub.renewalDate sub)
   <= chartFuel today subs)%nat.
Proof.
  intros Hk Hin. unfold chartFuel.
  match goal with |- (_ <= list_max ?l)%nat =>
    pose proof (proj1 (list_max_le l (list_max l)) (Nat.le_refl _)) as HF
  end.
  rewrite List.Forall_forall in HF. apply HF.
  apply in_flat_map. exists k. split.
  - apply in_seq. lia.
  - apply in_map_iff. exists sub. split; [reflexivity|exact Hin].
Qed.

(** With enough fuel the loop ends, and it ends on a date that is not after
    the month date. *)
Lemma rewind_enough bc md start fuel :
  (enoughFuel md start <= fuel)%nat ->
  exists d, rewind (stepBack bc) fuel md start = Some d /\
            dateGt d md = false.
Proof.
  intros Hfuel. destruct md as [m|].
  - destruct start as [t|].
    + destruct (rewind_valid bc m (enoughFuel (Some m) (Some t)) t fuel
                  (enoughFuel_bound m t) Hfuel) as (d & Hd & Hgt & _).
      exists d. split; assumption.
    + exists None. split; [apply rewind_invalid_start|reflexivity].
  - exists start. split; [apply rewind_invalid_target|].
    destruct start; reflexivity.
Qed.

(** For a well-formed renewal date and a month date at least 367 days
    above the smallest time value, it ends on or before the month date. *)
Lemma rewind_reaches bc m start fuel :
  wellFormed start ->
  (- maxTime <= m - 367 * msPerDay)%Z ->
  (enoughFuel (Some m) start <= fuel)%nat ->
  exists d, rewind (stepBack bc) fuel (Some m) start = Some d /\
            dateGt d (Some m) = false /\ dateLe d (Some m) = true.
Proof.
  intros (t & -> & Ht) Hm Hfuel.
  destruct (rewind_valid bc m (enoughFuel (Some m) (Some t)) t fuel
              (enoughFuel_bound m t) Hfuel) as (d & Hd & Hgt & Hle).
  exists d. repeat split; auto. apply Hle; [exact Hm|lia].
Qed.

Lemma fold_addIfActive_all fuel md subs : forall acc,
  (forall sub, In sub subs ->
     exists start,
       rewind (stepBack (Sub.billingCycle sub)) fuel md (Sub.renewalDate sub)
       = Some start /\ dateLe start md = true) ->
  fold_left (addIfActive fuel md) subs (Some acc)
  = Some (fold_left (fun total sub => total + monthlyCost sub) subs acc).
Proof.
  induction subs as [|sub rest IH]; intros acc H; simpl; [reflexivity|].
  destruct (H sub (or_introl eq_refl)) as (start & -> & ->).
  apply IH. intros s Hs. apply H. right. exact Hs.
Qed.


(** C3.  With a sane clock ([clockOk]) and well-formed renewal dates,
    for each of the twelve month dates the backward-stepping loop of every
    subscription ends (given enough iterations) on a start date that is not
    after the month date, so the inclusion test succeeds, and the raw
    estimate of that month is the current monthly spend. *)
Theorem generateChartData_raw_is_monthlySpend :
  forall (today : Z) (subs : list Subscription) (fuel : nat) (i : Z),
    clockOk today ->
    Forall (fun sub => wellFormed (Sub.renewalDate sub)) subs ->
    (chartFuel today subs <= fuel)%nat ->
    (0 <= i <= 11)%Z ->
    (forall sub, In sub subs ->
       exists start,
         rewind (stepBack (Sub.billingCycle sub)) fuel (monthDateAt today i)
                (Sub.renewalDate sub) = Some start /\
         dateGt start (monthDateAt today i) = false /\
         dateLe start (monthDateAt today i) = true) /\
    monthSpendAt fuel (monthDateAt today i) subs
    = Some (calculateMonthlySpend subs).
Proof.
  intros today subs fuel i Ht Hwf Hfuel Hi.
  destruct (monthDateAt_spec today i Ht Hi) as (m & Em & Hm & _).
  assert (forall sub, In sub subs ->
     exists start,
       rewind (stepBack (Sub.billingCycle sub)) fuel (monthDateAt today i)
              (Sub.renewalDate sub) = Some start /\
       dateGt start (monthDateAt today i) = false /\
       dateLe start (monthDateAt today i) = true) as Hall.
  { intros sub Hin. rewrite Em.
    apply rewind_reaches.
    - rewrite List.Forall_forall in Hwf. apply Hwf. exact Hin.
    - unfold maxTime, msPerDay in *. lia.
    - rewrite <- Em.
      replace i with (11 - Z.of_nat (Z.to_nat (11 - i)))%Z by lia.
      etransitivity; [|exact Hfuel].
      apply chartFuel_enough; [lia|exact Hin]. }
  split; [exact Hall|].
  unfold monthSpendAt, calculateMonthlySpend.
  apply fold_addIfActive_all.
  intros sub Hin. destruct (Hall sub Hin) as (start & H1 & _ & H2).
  exists start. split; assumption.
Qed.

(** *** The month-over-month change *)

Lemma getLastMonthSpend_nonneg today subs :
  Forall (fun sub => 0 <= Sub.cost sub) subs ->
  0 <= getLastMonthSpend today subs.
Proof.
  unfold getLastMonthSpend. cbv zeta.
  generalize (setMonth (Some today) (subZ (getMonth (Some today)) 1)).
  intros lastMonth Hc.
  assert (forall acc, 0 <= acc ->
    0 <= fold_left
           (fun total sub =>
              if dateLe (stepBack (Sub.billingCycle sub) (Sub.renewalDate sub))
                        lastMonth
              then total + monthlyCost sub else total) subs acc) as H.
  { induction Hc as [|sub rest Hc1 _ IH]; intros acc Hacc; simpl; [exact Hacc|].
    pose proof (monthlyCost_nonneg sub Hc1).
    destruct (dateLe _ _); apply IH; lra. }
  apply H. lra.
Qed.

(** C6.  For non-negative costs the last-month estimate is non-negative;
    when it is positive the change percentage is
    [(monthlySpend - lastMonthSpend) / lastMonthSpend * 100], and when it is
    zero the change percentage is exactly [0], whatever the monthly spend. *)
Theorem changePercentage_guarded :
  forall (today : Z) (subs : list Subscription),
    Forall (fun sub => 0 <= Sub.cost sub) subs ->
    let monthlySpend := calculateMonthlySpend subs in
    let lastMonthSpend := getLastMonthSpend today subs in
    0 <= lastMonthSpend /\
    (0 < lastMonthSpend ->
     changePercentage today subs
     = (monthlySpend - lastMonthSpend) / lastMonthSpend * 100) /\
    (lastMonthSpend == 0 -> changePercentage today subs = 0).
Proof.
  intros today subs Hc monthlySpend lastMonthSpend.
  split; [apply getLastMonthSpend_nonneg; exact Hc|].
  unfold changePercentage. fold monthlySpend. fold lastMonthSpend. cbv zeta.
  split; intros H.
  - apply Qlt_bool_iff in H. rewrite H. reflexivity.
  - destruct (Qlt_bool 0 lastMonthSpend) eqn:E; [|reflexivity].
    apply Qlt_bool_iff in E. lra.
Qed.

(** *** The jittered chart points *)




(** *** The next renewal *)

(** C5.  [getNextRenewal] is a total function.  It returns "N/A" on the
    empty collection and whenever no subscription has a renewal date at or
    after [today]; otherwise it returns, formatted as month and day, the
    earliest renewal date among the subscriptions whose renewal date is at
    or after [today]. *)
Theorem getNextRenewal_spec :
  forall (today : Z) (subs : list Subscription),
    (subs = [] -> getNextRenewal today subs = "N/A"%string) /\
    ((forall sub, In sub subs ->
        dateGe (Sub.renewalDate sub) (Some today) = false) ->
     getNextRenewal today subs = "N/A"%string) /\
    ((exists sub, In sub subs /\
        dateGe (Sub.renewalDate sub) (Some today) = true) ->
     exists next t,
       In next subs /\ Sub.renewalDate next = Some t /\ (today <= t)%Z /\
       (forall sub t', In sub subs -> Sub.renewalDate sub = Some t' ->
                       (today <= t')%Z -> (t <= t')%Z) /\
       getNextRenewal today subs = formatMonthDay (Some t)).
Proof.
  intros today subs.
  split; [intros ->; reflexivity|].
  unfold getNextRenewal. fold byRenewal.
  set (upcoming :=
         List.filter (fun sub => dateGe (Sub.renewalDate sub) (Some today))
                     subs).
  split.
  - intros Hnone.
    destruct (length subs =? 0)%nat; [reflexivity|].
    assert (upcoming = []) as ->; [|reflexivity].
    unfold upcoming. clear upcoming.
    induction subs as [|s rest IH]; simpl; [reflexivity|].
    rewrite (Hnone s (or_introl eq_refl)).
    apply IH. intros sub Hin. apply Hnone. right. exact Hin.
  - intros (s0 & Hin0 & Hge0).
    assert ((length subs =? 0)%nat = false) as ->
      by (destruct subs; [destruct Hin0|reflexivity]).
    assert (Forall hasValidDate upcoming) as Hvalid.
    { apply List.Forall_forall. intros s Hs.
      apply filter_In in Hs. destruct Hs as [_ Hs].
      apply dateGe_Some in Hs. destruct Hs as (t & Ht & _). exists t. exact Ht. }
    pose proof (sort_byRenewal_sorted upcoming Hvalid) as Hsorted.
    pose proof (sort_In byRenewal upcoming) as HIn.
    destruct (JSArray.sort byRenewal upcoming) as [|next sorted] eqn:E.
    + exfalso. apply (HIn s0). apply filter_In. split; assumption.
    + assert (In next upcoming) as Hnext by (apply HIn; left; reflexivity).
      apply filter_In in Hnext. destruct Hnext as [Hnext Hge].
      apply dateGe_Some in Hge. destruct Hge as (t & Et & Ht).
      exists next, t. repeat split; auto.
      * intros sub t' Hsub Et' Ht'.
        assert (In sub (next :: sorted)) as Hs.
        { apply HIn. apply filter_In. split; [exact Hsub|].
          apply dateGe_Some. exists t'. auto. }
        inversion Hsorted as [|? ? _ Hall]; subst.
        destruct Hs as [<-|Hs].
        -- rewrite Et in Et'. injection Et' as <-. lia.
        -- rewrite List.Forall_forall in Hall. specialize (Hall sub Hs).
           unfold renewalTime in Hall. rewrite Et, Et' in Hall. exact Hall.
      * rewrite Et. reflexivity.
Qed.

End AnalyticsLocal.

(** *** The analytics on the sample data *)


Lemma sample_clock : clockOk (tz := Examples.IST) Examples.today.
Proof. vm_compute. repeat split; discriminate. Defined.

Lemma sample_dates :
  Forall (fun sub => wellFormed (Sub.renewalDate sub)) Examples.collection.
Proof.
  repeat constructor; eexists;
    (split; [reflexivity|vm_compute; split; discriminate]).
Defined.

Lemma sample_costs :
  Forall (fun sub => 0 <= Sub.cost sub) Examples.collection.
Proof. repeat constructor; vm_compute; discriminate. Defined.

Lemma sample_fuel :
  (chartFuel (tz := Examples.IST) Examples.today Examples.collection
   <= 20)%nat.
Proof. vm_compute. lia. Defined.


(** C3 on the sample collection, for the oldest of the twelve months. *)
Lemma generateChartData_raw_is_monthlySpend_witness :
  (clockOk (tz := Examples.IST) Examples.today /\
   Forall (fun sub => wellFormed (Sub.renewalDate sub)) Examples.collection /\
   (chartFuel (tz := Examples.IST) Examples.today Examples.collection
    <= 20)%nat /\
   (0 <= 11 <= 11)%Z) /\
  monthSpendAt (tz := Examples.IST) 20
    (monthDateAt (tz := Examples.IST) Examples.today 11) Examples.collection
  = Some (calculateMonthlySpend Examples.collection).
Proof.
  assert (0 <= 11 <= 11)%Z as Hi by lia.
  split; [exact (conj sample_clock (conj sample_dates (conj sample_fuel Hi)))|].
  exact (proj2 (generateChartData_raw_is_monthlySpend (tz := Examples.IST)
                  Examples.today Examples.collection 20 11
                  sample_clock sample_dates sample_fuel Hi)).
Defined.

(** The well-formedness assumption of C3 cannot be dropped: an Invalid Date
    fails every comparison, so the record is left out of the estimate
    although it counts towards the monthly spend. *)
Example invalid_renewal_date_left_out :
  monthSpendAt (tz := Examples.IST) 20
    (monthDateAt (tz := Examples.IST) Examples.today 0) [Examples.undated]
  = Some 0 /\
  calculateMonthlySpend [Examples.undated] == 50.
Proof. split; vm_compute; reflexivity. Qed.

(** C6 on the sample collection. *)
Lemma changePercentage_guarded_witness :
  Forall (fun sub => 0 <= Sub.cost sub) Examples.collection /\
  0 <= getLastMonthSpend (tz := Examples.IST) Examples.today
         Examples.collection.
Proof.
  split; [exact sample_costs|].
  exact (proj1 (changePercentage_guarded (tz := Examples.IST)
                  Examples.today Examples.collection sample_costs)).
Defined.




(** C5 on the sample collection, which has upcoming renewals. *)
Lemma getNextRenewal_spec_witness :
  (exists sub, In sub Examples.collection /\
     dateGe (Sub.renewalDate sub) (Some Examples.today) = true) /\
  exists next t,
    In next Examples.collection /\ Sub.renewalDate next = Some t /\
    (Examples.today <= t)%Z /\
    (forall sub t', In sub Examples.collection ->
                    Sub.renewalDate sub = Some t' ->
                    (Examples.today <= t')%Z -> (t <= t')%Z) /\
    getNextRenewal (tz := Examples.IST) Examples.today Examples.collection
    = formatMonthDay (tz := Examples.IST) (Some t).
Proof.
  assert (exists sub, In sub Examples.collection /\
            dateGe (Sub.renewalDate sub) (Some Examples.today) = true) as H
    by (exists Examples.netflix; split; [left; reflexivity|reflexivity]).
  split; [exact H|].
  exact (proj2 (proj2 (getNextRenewal_spec (tz := Examples.IST)
                         Examples.today Examples.collection)) H).
Defined.

(** The scenarios of the specification, evaluated. *)

Example scenario_single_subscription :
  calculateMonthlySpend [Examples.netflix] == 199 /\
  getNextRenewal (tz := Examples.IST) Examples.today [Examples.netflix]
  = "Nov 12"%string /\
  exists b,
    getCategorySpending [Examples.netflix] = Returns [b] /\
    bucket_category b = "Entertainment"%string /\
    percentage b = 100%Z /\
    spend b == 199.
Proof.
  split; [vm_compute; reflexivity|].
  split; [vm_compute; reflexivity|].
  eexists. split; [vm_compute; reflexivity|].
  split; [reflexivity|]. split; [reflexivity|]. vm_compute. reflexivity.
Qed.

Example scenario_empty_collection :
  calculateMonthlySpend [] == 0 /\
  getNextRenewal (tz := Examples.IST) Examples.today [] = "N/A"%string /\
  getCategorySpending [] = Returns [] /\
  getLastMonthSpend (tz := Examples.IST) Examples.today [] == 0 /\
  changePercentage (tz := Examples.IST) Examples.today [] = 0.
Proof. repeat split. Qed.

Example scenario_all_renewals_past :
  getNextRenewal (tz := Examples.IST) Examples.today [Examples.spotify]
  = "N/A"%string.
Proof. vm_compute. reflexivity. Qed.

End DashboardFacts.

(** ** The registry view *)

Module RegistryFacts.
Import Registry JSArrayFacts JSStringFacts RenewalOrder Spec.

Section ViewFacts.
Variable toLowerCase : string -> string.
Variable localeCompare : string -> string -> Z.

(** [localeCompare] is a consistent comparison. *)
Hypothesis localeCompare_antisym :
  forall a b, (0 < localeCompare a b -> localeCompare b a <= 0)%Z.
Hypothesis localeCompare_trans :
  forall a b c, (localeCompare a b <= 0 -> localeCompare b c <= 0 ->
                 localeCompare a c <= 0)%Z.

Abbreviation view := (filteredAndSortedSubscriptions toLowerCase localeCompare).
Abbreviation keeps := (matchesSearchAndFilter toLowerCase).

Lemma keeps_spec searchTerm filterBy sub :
  keeps searchTerm filterBy sub = true <->
  (exists a b,
     toLowerCase (Sub.name sub) = a +:+ toLowerCase searchTerm +:+ b) /\
  (filterBy = "all"%string \/ Sub.category sub = filterBy).
Proof.
  unfold matchesSearchAndFilter. cbv zeta.
  rewrite andb_true_iff, orb_true_iff, includes_spec.
  rewrite !String.eqb_eq. reflexivity.
Qed.

Lemma sorted_by_name l :
  StronglySorted
    (fun a b => (localeCompare (Sub.name a) (Sub.name b) <= 0)%Z)
    (JSArray.sort (compareBy localeCompare "name") l).
Proof.
  apply (sort_sorted _ _ (fun _ => True)).
  - intros x y _ _ H. unfold JSArray.sortCompare, compareBy in H. simpl in H.
    change 0%Q with (inject_Z 0) in H. rewrite <- Zle_Qle in H. exact H.
  - intros x y _ _ H. unfold JSArray.sortCompare, compareBy in H. simpl in H.
    apply localeCompare_antisym.
    destruct (Z.lt_ge_cases 0 (localeCompare (Sub.name x) (Sub.name y)))
      as [Hlt|Hge]; [exact Hlt|].
    exfalso. apply H. change 0%Q with (inject_Z 0). rewrite <- Zle_Qle. lia.
  - intros x y z _ _ _. apply localeCompare_trans.
  - apply List.Forall_forall. intros; exact I.
Qed.

Lemma sorted_by_cost l :
  StronglySorted (fun a b => (Sub.cost b <= Sub.cost a)%Q)
    (JSArray.sort (compareBy localeCompare "cost") l).
Proof.
  apply (sort_sorted _ _ (fun _ => True)).
  - intros x y _ _ H. unfold JSArray.sortCompare, compareBy in H. simpl in H.
    lra.
  - intros x y _ _ H. unfold JSArray.sortCompare, compareBy in H. simpl in H.
    apply Qnot_lt_le. intros Hlt. apply H. lra.
  - intros x y z _ _ _ H1 H2. lra.
  - apply List.Forall_forall. intros; exact I.
Qed.

(** C8.  The derived view is a rearrangement of the subscriptions whose
    lower-cased name contains the lower-cased search term and whose category
    equals the filter ("all" lets every category through).  It is ordered by the
    sort key: "name" ascending with respect to [localeCompare], "cost"
    descending by the raw cost, "renewal" ascending by renewal date. *)
Theorem filteredAndSortedSubscriptions_spec :
  forall (subs : list Subscription) (searchTerm filterBy sortBy : string),
    Permutation (view subs searchTerm filterBy sortBy)
                (List.filter (keeps searchTerm filterBy) subs) /\
    (forall sub,
       In sub (view subs searchTerm filterBy sortBy) <->
       In sub subs /\
       (exists a b,
          toLowerCase (Sub.name sub) = a +:+ toLowerCase searchTerm +:+ b) /\
       (filterBy = "all"%string \/ Sub.category sub = filterBy)) /\
    (sortBy = "name"%string ->
     StronglySorted
       (fun a b => (localeCompare (Sub.name a) (Sub.name b) <= 0)%Z)
       (view subs searchTerm filterBy sortBy)) /\
    (sortBy = "cost"%string ->
     StronglySorted (fun a b => (Sub.cost b <= Sub.cost a)%Q)
       (view subs searchTerm filterBy sortBy)) /\
    (sortBy = "renewal"%string ->
     Forall hasValidDate (List.filter (keeps searchTerm filterBy) subs) ->
     StronglySorted (fun a b => (renewalTime a <= renewalTime b)%Z)
       (view subs searchTerm filterBy sortBy)).
Proof.
  intros subs searchTerm filterBy sortBy.
  unfold filteredAndSortedSubscriptions.
  split; [apply sort_Permutation|].
  split.
  { intros sub. rewrite sort_In, filter_In, keeps_spec. reflexivity. }
  split; [intros ->; apply sorted_by_name|].
  split; [intros ->; apply sorted_by_cost|].
  intros -> Hvalid. apply sort_byRenewal_sorted. exact Hvalid.
Qed.

End ViewFacts.
End RegistryFacts.

Module RegistryExamples.
Import Registry JSString JSStringFacts RegistryFacts RenewalOrder Spec.

Lemma filteredAndSortedSubscriptions_spec_witness :
  ((forall a b, (0 < codeUnitCompare a b -> codeUnitCompare b a <= 0)%Z) /\
   (forall a b c, (codeUnitCompare a b <= 0 -> codeUnitCompare b c <= 0 ->
                   codeUnitCompare a c <= 0)%Z)) /\
  Permutation
    (filteredAndSortedSubscriptions asciiToLowerCase codeUnitCompare
       Examples.collection "T" "all" "name")
    (List.filter (matchesSearchAndFilter asciiToLowerCase "T" "all")
       Examples.collection).
Proof.
  split; [split; [exact codeUnitCompare_antisym|exact codeUnitCompare_trans]|].
  exact (proj1 (filteredAndSortedSubscriptions_spec
                  asciiToLowerCase codeUnitCompare
                  codeUnitCompare_antisym codeUnitCompare_trans
                  Examples.collection "T" "all" "name")).
Defined.

End RegistryExamples.

(** ** The payment flow *)

Module PaymentFacts.
Import PaymentModal JSString PaymentSpec.
Local Open Scope string_scope.

(** *** Card helpers *)

Lemma prefix_one c s :
  String.prefix (String c "") s
  = match s with
    | String c' _ => if ascii_dec c c' then true else false
    | "" => false
    end.
Proof.
  destruct s as [|c' s]; simpl; [reflexivity|].
  destruct (ascii_dec c c'); [destruct s|]; reflexivity.
Qed.

(** C10.  ["4111111111111111"] is formatted as ["4111 1111 1111 1111"] and
    recognised as "Visa"; in general the card type is decided by the first
    digit left after stripping the non-digits: 4 gives "Visa", 5 and 2 give
    "Mastercard", 3 gives "American Express", and any other digit (or no
    digit at all) gives the empty label. *)
Theorem card_number_helpers :
  formatCardNumber "4111111111111111" = "4111 1111 1111 1111" /\
  getCardType "4111111111111111" = "Visa" /\
  forall cardNumber : string,
    getCardType cardNumber
    = networkOfLeadingDigit (stripNonDigits cardNumber).
Proof.
  split; [reflexivity|]. split; [reflexivity|].
  intros cardNumber. unfold getCardType, startsWith. cbv zeta.
  rewrite !prefix_one.
  destruct (stripNonDigits cardNumber) as [|c rest]; [reflexivity|].
  destruct c as [[] [] [] [] [] [] [] []]; reflexivity.
Qed.

(** *** Validation *)

Lemma blank_false s : blank s = false <-> trim s <> "".
Proof. unfold blank. apply String.eqb_neq. Qed.

Lemma validatePayment_errors info :
  let newErrors := fst (validatePayment info) in
  newErrors !! "cardNumber" = cardNumberError info /\
  newErrors !! "expiryDate"
  = requiredError (expiryDate info) "Expiry date is required" /\
  newErrors !! "cvv" = requiredError (cvv info) "CVV is required" /\
  newErrors !! "cardholderName"
  = requiredError (cardholderName info) "Cardholder name is required".
Proof.
  unfold validatePayment, cardNumberError, requiredError, blank. cbv zeta.
  destruct (String.eqb_spec (trim (cardNumber info)) "");
    destruct (decide (trim (cardNumber info) = "")); try contradiction;
  destruct (String.eqb_spec (trim (expiryDate info)) "");
    destruct (decide (trim (expiryDate info) = "")); try contradiction;
  destruct (String.eqb_spec (trim (cvv info)) "");
    destruct (decide (trim (cvv info) = "")); try contradiction;
  destruct (String.eqb_spec (trim (cardholderName info)) "");
    destruct (decide (trim (cardholderName info) = "")); try contradiction;
  try (destruct (Nat.ltb_spec
                   (String.length (stripNonDigits (cardNumber info))) 13);
       destruct (decide (String.length (stripNonDigits (cardNumber info))
                         < 13)%nat); try lia);
  vm_compute; repeat split.
Qed.

Lemma validatePayment_ok info :
  snd (validatePayment info) = true <-> validInfo info.
Proof.
  unfold validInfo. rewrite <- !blank_false, <- Nat.ltb_ge.
  unfold validatePayment. cbv zeta.
  destruct (blank (cardNumber info)), (blank (expiryDate info)),
    (blank (cvv info)), (blank (cardholderName info));
    try destruct (String.length (stripNonDigits (cardNumber info)) <? 13)%nat;
    vm_compute; intuition congruence.
Qed.

(** C9.  From the payment step, Continue leads to the summary step exactly
    when the four fields are non-blank and the card number has at least 13
    digits.  Otherwise the step stays [payment].  In both cases the error
    object holds exactly the message of each failing field, and the payment
    data, the pending timeouts and the closed flag are untouched. *)
Theorem handleContinueToSummary_spec :
  forall f : Flow,
    currentStep (modal f) = payment ->
    let info := paymentInfo (modal f) in
    let f' := handleContinueToSummary f in
    (currentStep (modal f') = summary <-> validInfo info) /\
    (~ validInfo info -> currentStep (modal f') = payment) /\
    errors (modal f') !! "cardNumber" = cardNumberError info /\
    errors (modal f') !! "expiryDate"
    = requiredError (expiryDate info) "Expiry date is required" /\
    errors (modal f') !! "cvv" = requiredError (cvv info) "CVV is required" /\
    errors (modal f') !! "cardholderName"
    = requiredError (cardholderName info) "Cardholder name is required" /\
    paymentInfo (modal f') = paymentInfo (modal f) /\
    timeouts f' = timeouts f /\
    closed f' = closed f.
Proof.
  intros f Hstep info f'.
  pose proof (validatePayment_errors info) as He.
  pose proof (validatePayment_ok info) as Hok.
  unfold f', handleContinueToSummary. fold info.
  destruct (validatePayment info) as [newErrors ok]. simpl in He, Hok.
  simpl.
  assert (errors (if ok then setCurrentStep (setErrors (modal f) newErrors) summary
                  else setErrors (modal f) newErrors) = newErrors) as ->
    by (destruct ok; reflexivity).
  assert (paymentInfo
            (if ok then setCurrentStep (setErrors (modal f) newErrors) summary
             else setErrors (modal f) newErrors) = paymentInfo (modal f)) as ->
    by (destruct ok; reflexivity).
  destruct He as (H1 & H2 & H3 & H4).
  split.
  { destruct ok; simpl.
    - split; [intros _; apply Hok; reflexivity|reflexivity].
    - rewrite Hstep. split; [discriminate|].
      intros Hv. apply Hok in Hv. discriminate. }
  split.
  { intros Hn. destruct ok; [exfalso; apply Hn, Hok; reflexivity|].
    simpl. exact Hstep. }
  split; [exact H1|]. split; [exact H2|]. split; [exact H3|].
  split; [exact H4|]. split; [reflexivity|]. split; reflexivity.
Qed.

(** *** The deferred transition to [success] *)

(** C4 (as the code has it).  The callback that [handleConfirmPayment]
    hands to [setTimeout] is an unconditional [setCurrentStep("success")]:
    it makes no check of its own, and closing does not cancel the timeout.
    While the modal is mounted its expiry moves the flow to [success] and
    changes nothing else.  Closing makes the dashboard unmount the modal
    ([handleClosePayment]); when the callback fires after that, its write
    is dropped: the step stays [processing] and no state of the flow
    changes. *)
Theorem deferred_callback_unconditional :
  forall f : Flow,
    timeouts f = [] ->
    let g := handleConfirmPayment f in
    currentStep (modal g) = processing /\
    (exists callback,
       timeouts g = [(3000%Z, callback)] /\
       forall m : Modal, callback m = setCurrentStep m success) /\
    timeouts (onClose g) = timeouts g /\
    (closed f = false ->
     let h := fireTimeout g in
     currentStep (modal h) = success /\
     paymentInfo (modal h) = paymentInfo (modal f) /\
     errors (modal h) = errors (modal f) /\
     timeouts h = [] /\
     closed h = false) /\
    (let h := fireTimeout (onClose g) in
     modal h = modal (onClose g) /\
     currentStep (modal h) = processing /\
     timeouts h = [] /\
     closed h = true) /\
    (forall (owner : PaymentOwner.State) (subscription : Subscription),
       PaymentOwner.mountedFor (PaymentOwner.handlePayNow owner subscription)
       = Some subscription /\
       PaymentOwner.mountedFor (PaymentOwner.handleClosePayment owner)
       = None).
Proof.
  intros f Hno g. unfold g, handleConfirmPayment. rewrite Hno. simpl.
  split; [reflexivity|].
  split; [eexists; split; [reflexivity|]; intros m; reflexivity|].
  split; [reflexivity|].
  split.
  - intros Hopen. unfold fireTimeout. simpl. rewrite Hopen. simpl.
    repeat split.
  - split; [|intros owner subscription; split; reflexivity].
    unfold fireTimeout. simpl. repeat split.
Qed.

End PaymentFacts.

Module PaymentExamples.
Import PaymentModal PaymentSpec PaymentFacts.

Lemma handleContinueToSummary_spec_witness :
  currentStep (modal (Examples.entering Examples.namelessCard)) = payment /\
  errors (modal (handleContinueToSummary
                   (Examples.entering Examples.namelessCard)))
    !! "cardholderName"
  = requiredError (cardholderName Examples.namelessCard)
                  "Cardholder name is required".
Proof.
  split; [reflexivity|].
  exact (proj1 (proj2 (proj2 (proj2 (proj2 (proj2
           (handleContinueToSummary_spec
              (Examples.entering Examples.namelessCard) eq_refl))))))).
Defined.

(** C4, as stated, fails: Pay, then close while processing.  The timeout
    is still pending on the closed flow, and the callback it holds,
    applied to the state, sets the step to [success]: it does not check
    whether the flow has been torn down. *)
Lemma deferred_callback_fires_after_close :
  let g := onClose (handleConfirmPayment Examples.atSummary) in
  closed g = true /\
  currentStep (modal g) = processing /\
  exists callback,
    timeouts g = [(3000%Z, callback)] /\
    currentStep (callback (modal g)) = success /\
    callback (modal g) <> modal g.
Proof.
  cbv zeta. split; [reflexivity|]. split; [reflexivity|].
  eexists. split; [reflexivity|]. split; [reflexivity|].
  vm_compute. intros H. discriminate H.
Qed.

Lemma deferred_callback_unconditional_witness :
  timeouts Examples.atSummary = [] /\
  currentStep
    (modal (fireTimeout (onClose (handleConfirmPayment Examples.atSummary))))
  = processing.
Proof.
  assert (timeouts Examples.atSummary = []) as H by reflexivity.
  split; [exact H|].
  exact (proj1 (proj2 (proj1 (proj2 (proj2 (proj2 (proj2
           (deferred_callback_unconditional Examples.atSummary H)))))))).
Defined.

End PaymentExamples.

(** ** The card inputs *)

Module PaymentInputFacts.
Import PaymentModal PaymentInput JSString PaymentSpec MoreSpec.
Local Open Scope string_scope.

Lemma length_append (a b : string) :
  String.length (a +:+ b) = (String.length a + String.length b)%nat.
Proof. induction a as [|c a IH]; simpl; [reflexivity|rewrite IH; reflexivity]. Qed.

Lemma filterChars_all p s : allChars p (filterChars p s) = true.
Proof.
  induction s as [|c s IH]; simpl; [reflexivity|].
  destruct (p c) eqn:E; simpl; [rewrite E|]; exact IH.
Qed.

Lemma filterChars_id p s : allChars p s = true -> filterChars p s = s.
Proof.
  induction s as [|c s IH]; simpl; [reflexivity|].
  intros H. apply andb_true_iff in H. destruct H as [Hc Hs].
  rewrite Hc, IH by exact Hs. reflexivity.
Qed.

Lemma filterChars_append p a b :
  filterChars p (a +:+ b) = filterChars p a +:+ filterChars p b.
Proof.
  induction a as [|c a IH]; simpl; [reflexivity|].
  destruct (p c); simpl; rewrite IH; reflexivity.
Qed.

Lemma filterChars_filterChars p q s :
  (forall c, p c = true -> q c = true) ->
  filterChars p (filterChars q s) = filterChars p s.
Proof.
  intros Hpq. induction s as [|c s IH]; simpl; [reflexivity|].
  destruct (q c) eqn:Eq; simpl.
  - destruct (p c); rewrite IH; reflexivity.
  - destruct (p c) eqn:Ep; [|exact IH].
    apply Hpq in Ep. congruence.
Qed.

Lemma digit_not_whiteSpace c : isDigit c = true -> negb (isWhiteSpace c) = true.
Proof.
  unfold isDigit, isWhiteSpace. cbv zeta.
  generalize (nat_of_ascii c). intros n H.
  apply andb_true_iff in H. destruct H as [H1 H2].
  apply Nat.leb_le in H1, H2.
  apply negb_true_iff. apply orb_false_iff. split; [apply orb_false_iff; split|].
  - apply andb_false_iff. right. apply Nat.leb_gt. lia.
  - apply Nat.eqb_neq. lia.
  - apply Nat.eqb_neq. lia.
Qed.

Lemma substring0_length n s :
  String.length (substring0 n s) = Nat.min n (String.length s).
Proof.
  revert s. induction n as [|n IH]; intros [|c s]; simpl; auto.
Qed.

Lemma substring0_all n s : (String.length s <= n)%nat -> substring0 n s = s.
Proof.
  revert s. induction n as [|n IH]; intros [|c s]; simpl; auto; try lia.
  intros H. rewrite IH by lia. reflexivity.
Qed.

Lemma substring0_allChars p n s :
  allChars p s = true -> allChars p (substring0 n s) = true.
Proof.
  revert s. induction n as [|n IH]; intros [|c s]; simpl; auto.
  intros H. apply andb_true_iff in H. destruct H as [Hc Hs].
  rewrite Hc. apply IH. exact Hs.
Qed.

Lemma substring0_idem n s : substring0 n (substring0 n s) = substring0 n s.
Proof.
  apply substring0_all. rewrite substring0_length. lia.
Qed.

Lemma takeDigits_all s : allChars isDigit s = true -> takeDigits s = s.
Proof.
  induction s as [|c s IH]; simpl; [reflexivity|].
  intros H. apply andb_true_iff in H. destruct H as [Hc Hs].
  rewrite Hc, IH by exact Hs. reflexivity.
Qed.

(** On a string of digits the pattern matches at the very start, or not at
    all. *)
Lemma matchDigits4to16_digits s :
  allChars isDigit s = true ->
  matchDigits4to16 s
  = if (4 <=? String.length s)%nat then Some (substring0 16 s) else None.
Proof.
  induction s as [|c s IH]; [reflexivity|].
  intros H. pose proof H as H'. simpl in H'.
  apply andb_true_iff in H'. destruct H' as [Hc Hs].
  unfold matchDigits4to16; fold matchDigits4to16. cbv zeta.
  rewrite (takeDigits_all _ H).
  destruct (4 <=? String.length (String c s))%nat eqn:E; [reflexivity|].
  rewrite (IH Hs).
  apply Nat.leb_gt in E. simpl in E.
  destruct (4 <=? String.length s)%nat eqn:E'; [|reflexivity].
  apply Nat.leb_le in E'. lia.
Qed.

(** Induction four characters at a time. *)
Lemma chunks_ind (P : string -> Prop) :
  P "" ->
  (forall s, (1 <= String.length s <= 3)%nat -> P s) ->
  (forall a b c d rest,
     P rest -> P (String a (String b (String c (String d rest))))) ->
  forall s, P s.
Proof.
  intros H0 H3 H4 s.
  assert (forall n s, (String.length s <= n)%nat -> P s) as H.
  { clear s. induction n as [|n IH]; intros s Hn.
    - destruct s; [exact H0|simpl in Hn; lia].
    - destruct s as [|a [|b [|c [|d rest]]]];
        try exact H0; try (apply H3; simpl; lia).
      apply H4. apply IH. simpl in Hn. lia. }
  apply (H (String.length s)). lia.
Qed.

Lemma chunks4_short s : (1 <= String.length s <= 3)%nat -> chunks4 s = [s].
Proof.
  destruct s as [|a [|b [|c [|d rest]]]]; simpl; try lia; reflexivity.
Qed.

Lemma chunks4_nil s : chunks4 s = [] -> s = "".
Proof.
  destruct s as [|a [|b [|c [|d rest]]]]; simpl; congruence.
Qed.

Lemma join_cons sep p rest :
  rest <> [] -> join sep (p :: rest) = p +:+ sep +:+ join sep rest.
Proof. destruct rest; [congruence|reflexivity]. Qed.

Lemma digits_of_groups s :
  allChars isDigit s = true ->
  stripNonDigits (join " " (chunks4 s)) = s.
Proof.
  unfold stripNonDigits.
  induction s as [| s Hs | a b c d rest IH] using chunks_ind; intros H.
  - reflexivity.
  - rewrite chunks4_short by exact Hs. simpl. apply filterChars_id. exact H.
  - simpl in H. repeat (apply andb_true_iff in H; destruct H as [? H]).
    change (chunks4 (String a (String b (String c (String d rest)))))
      with (String a (String b (String c (String d ""))) :: chunks4 rest).
    destruct (chunks4 rest) as [|g gs] eqn:E.
    + apply chunks4_nil in E. subst rest. simpl.
      repeat match goal with Hx : isDigit _ = true |- _ => rewrite Hx; clear Hx end.
      reflexivity.
    + rewrite join_cons by congruence. rewrite !filterChars_append.
      rewrite (IH H). simpl.
      repeat match goal with Hx : isDigit _ = true |- _ => rewrite Hx; clear Hx end.
      reflexivity.
Qed.

Lemma groups_chars s :
  allChars isDigit s = true ->
  allChars (fun c => isDigit c || isSpace c) (join " " (chunks4 s)) = true.
Proof.
  assert (forall t, allChars isDigit t = true ->
            allChars (fun c => isDigit c || isSpace c) t = true) as Hweak.
  { induction t as [|c t IH]; simpl; [reflexivity|].
    intros H. apply andb_true_iff in H. destruct H as [Hc Ht].
    rewrite Hc, IH by exact Ht. reflexivity. }
  induction s as [| s Hs | a b c d rest IH] using chunks_ind; intros H.
  - reflexivity.
  - rewrite chunks4_short by exact Hs. simpl. apply Hweak. exact H.
  - simpl in H. repeat (apply andb_true_iff in H; destruct H as [? H]).
    change (chunks4 (String a (String b (String c (String d rest)))))
      with (String a (String b (String c (String d ""))) :: chunks4 rest).
    destruct (chunks4 rest) as [|g gs] eqn:E.
    + simpl.
      repeat match goal with Hx : isDigit _ = true |- _ => rewrite Hx; clear Hx end.
      reflexivity.
    + rewrite join_cons by congruence. simpl.
      repeat match goal with Hx : isDigit _ = true |- _ => rewrite Hx; clear Hx end.
      simpl. apply IH. exact H.
Qed.

Lemma groups_length s :
  (1 <= String.length s)%nat ->
  (4 * String.length (join " " (chunks4 s)) + 1 <= 5 * String.length s)%nat.
Proof.
  induction s as [| s Hs | a b c d rest IH] using chunks_ind; intros H.
  - simpl in H. lia.
  - rewrite chunks4_short by exact Hs. simpl. lia.
  - change (chunks4 (String a (String b (String c (String d rest)))))
      with (String a (String b (String c (String d ""))) :: chunks4 rest).
    destruct (chunks4 rest) as [|g gs] eqn:E.
    + apply chunks4_nil in E. subst rest. simpl. lia.
    + rewrite join_cons by congruence.
      assert (1 <= String.length rest)%nat as Hr
        by (destruct rest; [discriminate|simpl; lia]).
      specialize (IH Hr). rewrite !length_append. simpl in *. lia.
Qed.

Lemma stripped_twice value :
  stripNonDigits (stripWhiteSpace value) = stripNonDigits value.
Proof.
  unfold stripNonDigits, stripWhiteSpace.
  apply filterChars_filterChars. exact digit_not_whiteSpace.
Qed.

Lemma chunks4_length_pos s :
  (1 <= String.length s)%nat -> (0 <? length (chunks4 s))%nat = true.
Proof.
  destruct s as [|a [|b [|c [|d rest]]]]; simpl; try lia; reflexivity.
Qed.

(** The two regular expressions and the loop of [formatCardNumber] amount
    to this: take the digits, keep the first sixteen, and write them in
    groups of four separated by single spaces. *)
Lemma formatCardNumber_groups value :
  formatCardNumber value
  = join " " (chunks4 (substring0 16 (stripNonDigits value))).
Proof.
  unfold formatCardNumber. cbv zeta. rewrite stripped_twice.
  set (v := stripNonDigits value).
  assert (allChars isDigit v = true) as Hv by apply filterChars_all.
  rewrite (matchDigits4to16_digits v Hv).
  destruct (4 <=? String.length v)%nat eqn:E.
  - apply Nat.leb_le in E.
    rewrite chunks4_length_pos; [reflexivity|].
    rewrite substring0_length. lia.
  - apply Nat.leb_gt in E.
    change (v = join " " (chunks4 (substring0 16 v))).
    rewrite substring0_all by lia.
    destruct v as [|c v']; [reflexivity|].
    rewrite chunks4_short by (simpl in *; lia). reflexivity.
Qed.

Lemma formatCardNumber_digits value :
  stripNonDigits (formatCardNumber value)
  = substring0 16 (stripNonDigits value).
Proof.
  rewrite formatCardNumber_groups. apply digits_of_groups.
  apply substring0_allChars, filterChars_all.
Qed.

Lemma formatCardNumber_length value :
  (String.length (formatCardNumber value) <= 19)%nat.
Proof.
  rewrite formatCardNumber_groups.
  set (d := substring0 16 (stripNonDigits value)).
  assert (String.length d <= 16)%nat as Hlen
    by (unfold d; rewrite substring0_length; lia).
  destruct d as [|c d'] eqn:E; [simpl; lia|].
  pose proof (groups_length (String c d') ltac:(simpl; lia)).
  lia.
Qed.

(** X1.  [formatCardNumber] keeps exactly the first sixteen digits of its
    input, in their order, written in groups of four separated by single
    spaces; it adds nothing but spaces and its result is never longer than
    19 characters. *)
Theorem formatCardNumber_keeps_sixteen_digits :
  forall value : string,
    formatCardNumber value
    = join " " (chunks4 (substring0 16 (stripNonDigits value))) /\
    stripNonDigits (formatCardNumber value)
    = substring0 16 (stripNonDigits value) /\
    allChars (fun c => isDigit c || isSpace c) (formatCardNumber value)
    = true /\
    (String.length (formatCardNumber value) <= 19)%nat.
Proof.
  intros value.
  split; [apply formatCardNumber_groups|].
  split; [apply formatCardNumber_digits|].
  split; [|apply formatCardNumber_length].
  rewrite formatCardNumber_groups. apply groups_chars.
  apply substring0_allChars, filterChars_all.
Qed.

Lemma formatCardNumber_idempotent_aux value :
  formatCardNumber (formatCardNumber value) = formatCardNumber value.
Proof.
  rewrite (formatCardNumber_groups (formatCardNumber value)).
  rewrite formatCardNumber_digits, substring0_idem.
  symmetry. apply formatCardNumber_groups.
Qed.

(** X2.  Formatting a formatted card number changes nothing. *)
Theorem formatCardNumber_idempotent :
  forall value : string,
    formatCardNumber (formatCardNumber value) = formatCardNumber value.
Proof.
  exact formatCardNumber_idempotent_aux.
Qed.

Lemma prefix_one_char c s :
  String.prefix (String c "") s
  = match s with
    | String c' _ => if ascii_dec c c' then true else false
    | "" => false
    end.
Proof.
  destruct s as [|c' s]; simpl; [reflexivity|].
  destruct (ascii_dec c c'); [destruct s|]; reflexivity.
Qed.

Lemma getCardType_leading cardNumber :
  getCardType cardNumber = networkOfLeadingDigit (stripNonDigits cardNumber).
Proof.
  unfold getCardType, startsWith. cbv zeta. rewrite !prefix_one_char.
  destruct (stripNonDigits cardNumber) as [|c rest]; [reflexivity|].
  destruct c as [[] [] [] [] [] [] [] []]; reflexivity.
Qed.

(** X3.  The card type shown next to the input does not depend on the
    formatting: the formatted number has the card type of the text it was
    made from. *)
Theorem getCardType_formatCardNumber :
  forall value : string,
    getCardType (formatCardNumber value) = getCardType value.
Proof.
  intros value. rewrite !getCardType_leading, formatCardNumber_digits.
  destruct (stripNonDigits value); reflexivity.
Qed.

(** X4.  The length test of [handleCardNumberChange] never fails: every
    edit of the card number input is stored, as the formatted text. *)
Theorem handleCardNumberChange_always_stores :
  forall (m : Modal) (value : string),
    handleCardNumberChange m value
    = handleInputChange m cardNumberField (formatCardNumber value) /\
    cardNumber (paymentInfo (handleCardNumberChange m value))
    = formatCardNumber value.
Proof.
  intros m value. unfold handleCardNumberChange. cbv zeta.
  pose proof (formatCardNumber_length value) as H.
  apply Nat.leb_le in H. rewrite H.
  split; [reflexivity|].
  unfold handleInputChange. cbv zeta.
  destruct (hasError _ _); reflexivity.
Qed.

(** *** The expiry input *)

Lemma substring_from0 n s : String.substring 0 n s = substring0 n s.
Proof.
  revert s. induction n as [|n IH]; intros [|c s]; simpl; auto.
  rewrite IH. reflexivity.
Qed.

Lemma substring_length_le n m s :
  (String.length (String.substring n m s) <= m)%nat.
Proof.
  revert n s. induction m as [|m IHm]; intros n s.
  - revert s. induction n as [|n IHn]; intros [|c s]; simpl; auto.
  - revert s. induction n as [|n IHn]; intros [|c s]; simpl; try lia.
    + specialize (IHm 0%nat s). lia.
    + apply IHn.
Qed.

Lemma formatExpiryDate_digits value :
  stripNonDigits (formatExpiryDate value)
  = substring0 4 (stripNonDigits value).
Proof.
  unfold formatExpiryDate. cbv zeta.
  set (v := stripNonDigits value).
  assert (allChars isDigit v = true) as Hv by apply filterChars_all.
  destruct (2 <=? String.length v)%nat eqn:E.
  - apply Nat.leb_le in E.
    destruct v as [|a [|b rest]]; simpl in E; try lia.
    simpl in Hv. repeat (apply andb_true_iff in Hv; destruct Hv as [? Hv]).
    destruct rest as [|c [|d rest]]; simpl in Hv |- *;
      repeat (apply andb_true_iff in Hv; destruct Hv as [? Hv]);
      unfold stripNonDigits; simpl;
      repeat match goal with Hx : isDigit _ = true |- _ => rewrite Hx; clear Hx end;
      try reflexivity.
    destruct rest; reflexivity.
  - apply Nat.leb_gt in E. unfold stripNonDigits.
    rewrite filterChars_id by exact Hv.
    rewrite substring0_all by lia. reflexivity.
Qed.

Lemma formatExpiryDate_length value :
  (String.length (formatExpiryDate value) <= 5)%nat.
Proof.
  unfold formatExpiryDate. cbv zeta.
  set (v := stripNonDigits value).
  destruct (2 <=? String.length v)%nat eqn:E.
  - rewrite !length_append.
    rewrite substring_from0, substring0_length.
    pose proof (substring_length_le 2 2 v).
    change (String.length "/") with 1%nat. lia.
  - apply Nat.leb_gt in E. lia.
Qed.

Lemma formatExpiryDate_idempotent_aux value :
  formatExpiryDate (formatExpiryDate value) = formatExpiryDate value.
Proof.
  unfold formatExpiryDate at 1. cbv zeta.
  rewrite formatExpiryDate_digits.
  unfold formatExpiryDate. cbv zeta.
  set (v := stripNonDigits value).
  destruct v as [|a [|b [|c [|d rest]]]]; try reflexivity.
  destruct rest; reflexivity.
Qed.

Lemma formatExpiryDate_shape value a b rest :
  stripNonDigits value = String a (String b rest) ->
  formatExpiryDate value
  = String a (String b (String "/" (substring0 2 rest))).
Proof.
  intros H. unfold formatExpiryDate. cbv zeta. rewrite H.
  change (2 <=? String.length (String a (String b rest)))%nat with true.
  cbv iota.
  change (String.substring 0 2 (String a (String b rest)))
    with (String a (String b (String.substring 0 0 rest))).
  change (String.substring 2 2 (String a (String b rest)))
    with (String.substring 0 2 rest).
  rewrite !substring_from0. destruct rest; reflexivity.
Qed.

(** X5.  [formatExpiryDate] looks at the digits of its input only.  With
    fewer than two digits it returns them as they are; otherwise it
    returns the first two digits, a slash, and the third and fourth digit
    if there are any.  So it keeps the first four digits, its result has
    at most five characters, [handleExpiryChange] stores every edit, and
    formatting twice is formatting once; with exactly two digits the
    result ends in the slash. *)
Theorem formatExpiryDate_spec :
  forall value : string,
    stripNonDigits (formatExpiryDate value)
    = substring0 4 (stripNonDigits value) /\
    (String.length (formatExpiryDate value) <= 5)%nat /\
    (forall m, expiryDate (paymentInfo (handleExpiryChange m value))
               = formatExpiryDate value) /\
    formatExpiryDate (formatExpiryDate value) = formatExpiryDate value /\
    (String.length (stripNonDigits value) = 2%nat ->
     formatExpiryDate value = stripNonDigits value +:+ "/") /\
    (forall a b rest,
       stripNonDigits value = String a (String b rest) ->
       formatExpiryDate value
       = String a (String b (String "/" (substring0 2 rest)))) /\
    ((String.length (stripNonDigits value) < 2)%nat ->
     formatExpiryDate value = stripNonDigits value).
Proof.
  intros value.
  split; [apply formatExpiryDate_digits|].
  split; [apply formatExpiryDate_length|].
  split.
  { intros m. unfold handleExpiryChange. cbv zeta.
    pose proof (formatExpiryDate_length value) as H.
    apply Nat.leb_le in H. rewrite H.
    unfold handleInputChange. cbv zeta. destruct (hasError _ _); reflexivity. }
  split; [apply formatExpiryDate_idempotent_aux|].
  split.
  { unfold formatExpiryDate. cbv zeta. intros H. rewrite H.
    destruct (stripNonDigits value) as [|a [|b [|c rest]]];
      simpl in H; try discriminate; reflexivity. }
  split; [intros a b rest; apply formatExpiryDate_shape|].
  intros H. unfold formatExpiryDate. cbv zeta.
  apply Nat.leb_gt in H. rewrite H. reflexivity.
Qed.

(** *** Editing a field *)

Lemma hasError_cleared (e : gmap string string) key :
  hasError (<[key := ""]> e) key = false.
Proof. unfold hasError. rewrite lookup_insert_eq. reflexivity. Qed.

Lemma fieldName_inj a b : fieldName a = fieldName b -> a = b.
Proof. destruct a, b; simpl; intros H; try reflexivity; discriminate H. Qed.

(** X6.  [handleInputChange] stores the value in the named field and leaves
    the other three fields and the step alone; afterwards no error is shown
    for that field, and the messages of the other fields are as before. *)
Theorem handleInputChange_spec :
  forall (m : Modal) (field : Field) (value : string),
    let m' := handleInputChange m field value in
    currentStep m' = currentStep m /\
    getField (paymentInfo m') field = value /\
    (forall other, other <> field ->
       getField (paymentInfo m') other = getField (paymentInfo m) other) /\
    hasError (errors m') (fieldName field) = false /\
    (forall other, other <> field ->
       errors m' !! fieldName other = errors m !! fieldName other).
Proof.
  intros m field value m'. unfold m', handleInputChange. cbv zeta.
  destruct (hasError (errors m) (fieldName field)) eqn:E; simpl.
  - split; [reflexivity|]. split; [destruct field; reflexivity|].
    split; [intros other Hne; destruct field, other; try reflexivity; congruence|].
    split; [apply hasError_cleared|].
    intros other Hne. apply lookup_insert_ne.
    intros H. apply fieldName_inj in H. congruence.
  - split; [reflexivity|]. split; [destruct field; reflexivity|].
    split; [intros other Hne; destruct field, other; try reflexivity; congruence|].
    split; [exact E|]. intros other Hne. reflexivity.
Qed.

(** *** The wizard as a whole *)

Lemma validatePayment_true_empty info :
  snd (validatePayment info) = true -> fst (validatePayment info) = ∅.
Proof.
  unfold validatePayment. cbv zeta. simpl. intros H.
  apply Nat.eqb_eq in H. apply map_size_empty_iff in H. exact H.
Qed.

Lemma handleInputChange_step m field value :
  currentStep (handleInputChange m field value) = currentStep m.
Proof. unfold handleInputChange. cbv zeta. destruct (hasError _ _); reflexivity. Qed.

Lemma handleInputChange_info m field value :
  paymentInfo (handleInputChange m field value)
  = setField (paymentInfo m) field value.
Proof. unfold handleInputChange. cbv zeta. destruct (hasError _ _); reflexivity. Qed.

Lemma atStep_true f s : atStep f s = true <-> currentStep (modal f) = s.
Proof.
  unfold atStep. destruct (currentStep (modal f)), s; split; congruence.
Qed.

Lemma consistent_initial : consistent initialFlow.
Proof.
  split; simpl; try reflexivity.
  - intros H. congruence.
  - right. split; [discriminate|reflexivity].
Qed.

Lemma consistent_edit f m :
  consistent f ->
  currentStep (modal f) = payment ->
  currentStep m = payment ->
  formatCardNumber (cardNumber (paymentInfo m)) = cardNumber (paymentInfo m) ->
  formatExpiryDate (expiryDate (paymentInfo m)) = expiryDate (paymentInfo m) ->
  allChars isDigit (cvv (paymentInfo m)) = true ->
  consistent (withModal f m).
Proof.
  intros [H1 H2 H3 H4 H5] Hf Hm Hc He Hv.
  split; simpl; auto.
  - intros H. congruence.
  - right. destruct H2 as [[H2 _]|[_ H2]]; [congruence|].
    split; [congruence|exact H2].
Qed.

Lemma handleCardNumberChange_eq m value :
  handleCardNumberChange m value
  = handleInputChange m cardNumberField (formatCardNumber value).
Proof.
  unfold handleCardNumberChange. cbv zeta.
  pose proof (formatCardNumber_length value) as H.
  apply Nat.leb_le in H. rewrite H. reflexivity.
Qed.

Lemma handleExpiryChange_eq m value :
  handleExpiryChange m value
  = handleInputChange m expiryDateField (formatExpiryDate value).
Proof.
  unfold handleExpiryChange. cbv zeta.
  pose proof (formatExpiryDate_length value) as H.
  apply Nat.leb_le in H. rewrite H. reflexivity.
Qed.

Lemma consistent_react f e :
  consistent f -> enabled f e = true -> consistent (react f e).
Proof.
  intros Hc He. pose proof Hc as [H1 H2 H3 H4 H5].
  destruct e; simpl in He |- *;
    try (apply andb_true_iff in He; destruct He as [_ He];
         apply atStep_true in He).
  - (* card number *)
    rewrite handleCardNumberChange_eq.
    apply consistent_edit; auto;
      rewrite ?handleInputChange_step, ?handleInputChange_info; simpl; auto.
    apply formatCardNumber_idempotent_aux.
  - (* cardholder name *)
    unfold handleCardholderNameChange.
    apply consistent_edit; auto;
      rewrite ?handleInputChange_step, ?handleInputChange_info; simpl; auto.
  - (* expiry date *)
    rewrite handleExpiryChange_eq.
    apply consistent_edit; auto;
      rewrite ?handleInputChange_step, ?handleInputChange_info; simpl; auto.
    apply formatExpiryDate_idempotent_aux.
  - (* CVV *)
    unfold handleCvvChange.
    apply consistent_edit; auto;
      rewrite ?handleInputChange_step, ?handleInputChange_info; simpl; auto.
    apply filterChars_all.
  - (* Continue *)
    unfold handleContinueToSummary.
    pose proof (PaymentFacts.validatePayment_ok (paymentInfo (modal f))) as Hok.
    pose proof (validatePayment_true_empty (paymentInfo (modal f))) as Hem.
    destruct (validatePayment (paymentInfo (modal f))) as [newErrors ok].
    simpl in Hok, Hem.
    destruct H2 as [[H2 _]|[_ H2]]; [congruence|].
    destruct ok;
      (split; simpl; [| |exact H3|exact H4|exact H5]).
    + intros _. split; [apply Hok; reflexivity|apply Hem; reflexivity].
    + right. split; [discriminate|exact H2].
    + intros H. congruence.
    + right. split; [congruence|exact H2].
  - (* Pay *)
    destruct H2 as [[H2 _]|[_ H2]]; [congruence|].
    split; simpl; [| |exact H3|exact H4|exact H5].
    + intros _. apply H1. congruence.
    + left. split; [reflexivity|]. rewrite H2. reflexivity.
  - (* close *)
    split; simpl; assumption.
  - (* timeout *)
    apply andb_true_iff in He. destruct He as [Hopen He].
    apply negb_true_iff in Hopen.
    unfold fireTimeout.
    destruct H2 as [[Hp Ht]|[_ Ht]]; rewrite Ht in He |- *; [|discriminate].
    rewrite Hopen.
    split; simpl; [| |exact H3|exact H4|exact H5].
    + intros _. apply H1. congruence.
    + right. split; [discriminate|reflexivity].
Qed.

Lemma reachable_consistent f : reachable f -> consistent f.
Proof.
  induction 1 as [|f e _ IH He];
    [exact consistent_initial|exact (consistent_react f e IH He)].
Qed.

Lemma formatted_digit_count s :
  formatCardNumber s = s -> (String.length (stripNonDigits s) <= 16)%nat.
Proof.
  intros H. rewrite <- H, formatCardNumber_digits, substring0_length. lia.
Qed.

(** X7.  In every flow the wizard can get into: a timeout is pending
    exactly while the step is [processing], and it is the one timeout that
    leads to [success]; past the payment step the card data is valid (so
    the card number has 13 to 16 digits) and no error is shown; the stored
    card number and expiry date are in their formatted forms and the CVV
    consists of digits. *)
Theorem reachable_flow_consistent :
  forall f : Flow,
    reachable f ->
    consistent f /\
    (currentStep (modal f) <> payment ->
     (13 <= String.length (stripNonDigits (cardNumber (paymentInfo (modal f))))
      <= 16)%nat).
Proof.
  intros f Hr. pose proof (reachable_consistent f Hr) as Hc.
  split; [exact Hc|].
  intros Hs. destruct Hc as [H1 _ H3 _ _].
  destruct (H1 Hs) as [(_ & _ & _ & _ & H13) _].
  split; [exact H13|apply formatted_digit_count; exact H3].
Qed.

(** X8.  The wizard only moves forward: an enabled event never takes a
    reachable flow to an earlier step, it reaches [success] only through
    the expiry of the timeout during [processing], and while an open flow
    is at the step [processing] that expiry is enabled and leads to
    [success]. *)
Theorem wizard_moves_forward :
  forall (f : Flow) (e : Event),
    reachable f ->
    enabled f e = true ->
    (stepRank (currentStep (modal f))
     <= stepRank (currentStep (modal (react f e))))%nat /\
    (currentStep (modal (react f e)) = success ->
     currentStep (modal f) = success \/
     (e = TimeoutExpires /\ currentStep (modal f) = processing)) /\
    (closed f = false ->
     currentStep (modal f) = processing ->
     enabled f TimeoutExpires = true /\
     currentStep (modal (react f TimeoutExpires)) = success).
Proof.
  intros f e Hr He. pose proof (reachable_consistent f Hr) as [H1 H2 _ _ _].
  assert (closed f = false ->
          currentStep (modal f) = processing ->
          enabled f TimeoutExpires = true /\
          currentStep (modal (react f TimeoutExpires)) = success) as Hlive.
  { intros Hopen Hp. destruct H2 as [[_ Ht]|[Hn _]]; [|congruence].
    simpl. unfold fireTimeout. rewrite Ht, Hopen. split; reflexivity. }
  cut ((stepRank (currentStep (modal f))
        <= stepRank (currentStep (modal (react f e))))%nat /\
       (currentStep (modal (react f e)) = success ->
        currentStep (modal f) = success \/
        (e = TimeoutExpires /\ currentStep (modal f) = processing))).
  { intros [Ha Hb]. exact (conj Ha (conj Hb Hlive)). }
  clear Hlive.
  destruct e; simpl in He; cbn [react withModal modal];
    try (apply andb_true_iff in He; destruct He as [Hopen He];
         try apply atStep_true in He).
  - rewrite handleCardNumberChange_eq, handleInputChange_step, He.
    split; [simpl; lia|discriminate].
  - unfold handleCardholderNameChange. rewrite handleInputChange_step, He.
    split; [simpl; lia|discriminate].
  - rewrite handleExpiryChange_eq, handleInputChange_step, He.
    split; [simpl; lia|discriminate].
  - unfold handleCvvChange. rewrite handleInputChange_step, He.
    split; [simpl; lia|discriminate].
  - unfold handleContinueToSummary.
    destruct (validatePayment (paymentInfo (modal f))) as [newErrors ok].
    destruct ok; simpl; rewrite He; simpl; (split; [lia|discriminate]).
  - unfold handleConfirmPayment. simpl. rewrite He. simpl.
    split; [lia|discriminate].
  - unfold onClose. simpl. split; [lia|]. intros H; left; exact H.
  - apply negb_true_iff in Hopen. unfold fireTimeout.
    destruct H2 as [[Hp Ht]|[_ Ht]]; rewrite Ht in He |- *; [|discriminate].
    rewrite Hopen. simpl. rewrite Hp. simpl. split; [lia|].
    intros _; right; split; reflexivity.
Qed.

Lemma run_reachable events : forall f f',
  reachable f -> run f events = Some f' -> reachable f'.
Proof.
  induction events as [|e rest IH]; intros f f' Hr; simpl.
  - intros [= <-]. exact Hr.
  - destruct (enabled f e) eqn:He; [|discriminate].
    apply IH. apply reachable_step; assumption.
Qed.

Lemma reviewing_reachable : reachable MoreExamples.reviewing.
Proof.
  apply (run_reachable MoreExamples.fillAndContinue initialFlow).
  - apply reachable_initial.
  - vm_compute. reflexivity.
Qed.

Lemma paying_reachable : reachable MoreExamples.paying.
Proof.
  apply reachable_step; [exact reviewing_reachable|].
  vm_compute. reflexivity.
Qed.

(** X7 on the flow of a customer who has entered a card and confirmed the
    payment. *)
Lemma reachable_flow_consistent_witness :
  reachable MoreExamples.paying /\ consistent MoreExamples.paying.
Proof.
  split; [exact paying_reachable|].
  exact (proj1 (reachable_flow_consistent MoreExamples.paying
                  paying_reachable)).
Defined.

(** X8 on the click that confirms the payment. *)
Lemma wizard_moves_forward_witness :
  (reachable MoreExamples.reviewing /\
   enabled MoreExamples.reviewing ClickPay = true) /\
  (stepRank (currentStep (modal MoreExamples.reviewing))
   <= stepRank (currentStep (modal (react MoreExamples.reviewing ClickPay))))%nat.
Proof.
  assert (enabled MoreExamples.reviewing ClickPay = true) as He
    by (vm_compute; reflexivity).
  split; [split; [exact reviewing_reachable|exact He]|].
  exact (proj1 (wizard_moves_forward MoreExamples.reviewing ClickPay
                  reviewing_reachable He)).
Defined.

End PaymentInputFacts.
(** ** The table of upcoming renewals *)

Module RenewalsTableFacts.
Import RenewalsTable JSNum JSArrayFacts RenewalOrder Spec.
Local Open Scope Z_scope.

Lemma ceil_days d :
  Qceiling (inject_Z d / inject_Z (1000 * 3600 * 24)) = - ((- d) / msPerDay).
Proof.
  unfold Qceiling, Qfloor, Qdiv, Qmult, Qinv, Qopp, inject_Z. simpl.
  rewrite Z.mul_1_r. reflexivity.
Qed.

Lemma renewsSoon_Some today sub :
  renewsSoon today sub = true <->
  exists t, Sub.renewalDate sub = Some t /\
            today - msPerDay < t <= today + 30 * msPerDay.
Proof.
  unfold renewsSoon, daysUntilRenewal, subTime, getTime.
  destruct (Sub.renewalDate sub) as [t|].
  - rewrite ceil_days, andb_true_iff, Z.leb_le, Z.leb_le.
    unfold msPerDay. split.
    + intros H. exists t. split; [reflexivity|].
      Z.div_mod_to_equations. lia.
    + intros (t' & [= <-] & H). Z.div_mod_to_equations. lia.
  - split; [discriminate|]. intros (t & [=] & _).
Qed.

Lemma soon_valid today subs :
  Forall hasValidDate (List.filter (renewsSoon today) subs).
Proof.
  apply List.Forall_forall. intros s Hs. apply filter_In in Hs.
  destruct Hs as [_ Hs]. apply renewsSoon_Some in Hs.
  destruct Hs as (t & Ht & _). exists t. exact Ht.
Qed.

Lemma numberRows_subs subs : forall index,
  map snd (numberRows index subs) = subs.
Proof.
  induction subs as [|s rest IH]; intros index; simpl;
    [reflexivity|rewrite IH; reflexivity].
Qed.

Lemma numberRows_length subs : forall index,
  length (numberRows index subs) = length subs.
Proof.
  induction subs as [|s rest IH]; intros index; simpl;
    [reflexivity|rewrite IH; reflexivity].
Qed.

Lemma numberRows_serials subs :
  (length subs <= 5)%nat ->
  map fst (numberRows 0 subs)
  = firstn (length subs) ["01"; "02"; "03"; "04"; "05"]%string.
Proof.
  intros H.
  destruct subs as [|a [|b [|c [|d [|e [|f rest]]]]]];
    try reflexivity.
  simpl in H. lia.
Qed.

Lemma sorted_app_le {A} (R : A -> A -> Prop) (l1 l2 : list A) :
  StronglySorted R (l1 ++ l2) ->
  forall x y, In x l1 -> In y l2 -> R x y.
Proof.
  induction l1 as [|a l1 IH]; intros HS x y Hx Hy; [destruct Hx|].
  simpl in HS. inversion HS as [|? ? HS' Hall]; subst.
  destruct Hx as [<-|Hx].
  - rewrite List.Forall_forall in Hall. apply Hall.
    apply in_or_app. right. exact Hy.
  - apply IH; assumption.
Qed.

Lemma sorted_firstn {A} (R : A -> A -> Prop) (l : list A) n :
  StronglySorted R l -> StronglySorted R (firstn n l).
Proof.
  intros HS. revert n. induction HS as [|a l HS IH Hall]; intros n.
  - rewrite firstn_nil. constructor.
  - destruct n as [|n]; simpl; [constructor|].
    constructor; [apply IH|].
    rewrite List.Forall_forall in Hall |- *.
    intros x Hx. apply Hall.
    rewrite <- (firstn_skipn n l). apply in_or_app. left. exact Hx.
Qed.

Lemma filter_length_zero {A} (p : A -> bool) (l : list A) :
  (length (List.filter p l) =? 0)%nat = true <->
  forall x, In x l -> p x = false.
Proof.
  rewrite Nat.eqb_eq. split.
  - intros H x Hx. destruct (p x) eqn:E; [|reflexivity].
    assert (In x (List.filter p l)) as Hin by (apply filter_In; auto).
    destruct (List.filter p l); [destruct Hin|discriminate].
  - intros H. induction l as [|a l IH]; simpl; [reflexivity|].
    rewrite (H a (or_introl eq_refl)). apply IH.
    intros x Hx. apply H. right. exact Hx.
Qed.

(** X9.  A subscription is listed as an upcoming renewal exactly when its
    renewal date is valid and lies after [today] minus one day and at or
    before [today] plus thirty days: a renewal that fell due less than
    twenty-four hours ago still counts as upcoming, and a record with an
    Invalid Date never does. *)
Theorem renewsSoon_window :
  forall (today : Z) (sub : Subscription),
    (renewsSoon today sub = true <->
     exists t, Sub.renewalDate sub = Some t /\
               today - msPerDay < t <= today + 30 * msPerDay) /\
    (Sub.renewalDate sub = None -> renewsSoon today sub = false).
Proof.
  intros today sub. split; [apply renewsSoon_Some|].
  intros H. unfold renewsSoon, daysUntilRenewal. rewrite H. reflexivity.
Qed.

(** X10.  The table of upcoming renewals has at most five rows, numbered
    "01", "02", ... in order; its rows are subscriptions of the collection
    that renew within the window, in ascending order of renewal date; and
    a subscription within the window that is not shown renews no earlier
    than every row that is shown. *)
Theorem upcomingRenewals_rows :
  forall (today : Z) (subs : list Subscription),
    let rows := upcomingRenewals today subs in
    length rows
    = Nat.min 5 (length (List.filter (renewsSoon today) subs)) /\
    map fst rows = firstn (length rows) ["01"; "02"; "03"; "04"; "05"]%string /\
    (forall sub, In sub (map snd rows) ->
                 In sub subs /\ renewsSoon today sub = true) /\
    StronglySorted (fun a b => renewalTime a <= renewalTime b)
                   (map snd rows) /\
    (forall sub shown,
       In sub subs -> renewsSoon today sub = true ->
       ~ In sub (map snd rows) -> In shown (map snd rows) ->
       renewalTime shown <= renewalTime sub).
Proof.
  intros today subs rows. unfold rows, upcomingRenewals.
  change byRenewalTime with byRenewal.
  set (soon := List.filter (renewsSoon today) subs).
  pose proof (sort_byRenewal_sorted soon (soon_valid today subs)) as Hsorted.
  pose proof (sort_In byRenewal soon) as HIn.
  pose proof (Permutation_length (sort_Permutation byRenewal soon)) as Hlen.
  set (sorted := JSArray.sort byRenewal soon) in *.
  rewrite numberRows_subs, numberRows_length, length_firstn, Hlen.
  split; [reflexivity|].
  split.
  { rewrite <- Hlen, <- (length_firstn 5 sorted).
    apply numberRows_serials. rewrite length_firstn. lia. }
  split.
  { intros sub Hsub.
    assert (In sub sorted) as Hs.
    { rewrite <- (firstn_skipn 5 sorted). apply in_or_app. left. exact Hsub. }
    apply HIn, filter_In in Hs. exact Hs. }
  split; [apply sorted_firstn; exact Hsorted|].
  intros sub shown Hsub Hsoon Hnot Hshown.
  assert (In sub sorted) as Hs by (apply HIn, filter_In; auto).
  rewrite <- (firstn_skipn 5 sorted) in Hs, Hsorted.
  apply in_app_or in Hs. destruct Hs as [Hs|Hs]; [contradiction|].
  exact (sorted_app_le _ _ _ Hsorted shown sub Hshown Hs).
Qed.

(** X11.  The renewals panel shows the prompt to add subscriptions exactly
    when there is no subscription; otherwise it shows the table, and the
    message that nothing renews in the next thirty days appears exactly
    when the table has no row. *)
Theorem renewalsPanel_message :
  forall (today : Z) (subs : list Subscription),
    (renewalsPanel today subs = AddSubscriptionsPrompt <-> subs = []) /\
    (forall rows message,
       renewalsPanel today subs = Table rows message ->
       rows = upcomingRenewals today subs /\
       (message = true <-> rows = []) /\
       (message = true <->
        forall sub, In sub subs -> renewsSoon today sub = false)).
Proof.
  intros today subs. unfold renewalsPanel. split.
  - destruct subs; simpl; split; congruence.
  - intros rows message. destruct (0 <? length subs)%nat; [|discriminate].
    intros [= <- <-]. split; [reflexivity|].
    split; [|apply filter_length_zero].
    rewrite Nat.eqb_eq. unfold upcomingRenewals.
    pose proof (Permutation_length
                  (sort_Permutation byRenewalTime
                     (List.filter (renewsSoon today) subs))) as Hlen.
    set (soon := List.filter (renewsSoon today) subs) in *.
    set (sorted := JSArray.sort byRenewalTime soon) in *.
    split.
    + intros H0. rewrite H0 in Hlen.
      destruct sorted; [reflexivity|discriminate].
    + intros Hrows. apply (f_equal (@length _)) in Hrows.
      rewrite numberRows_length, length_firstn, Hlen in Hrows.
      change (length (@nil (string * Subscription))) with 0%nat in Hrows.
      lia.
Qed.

End RenewalsTableFacts.
(** ** Further properties of the dashboard analytics *)

Module DashboardMore.
Import Dashboard JSNum JSNumFacts JSDateFacts RewindFacts JSArrayFacts.
Import JSObjectFacts RenewalOrder Spec MoreSpec DashboardFacts.
Local Open Scope Q_scope.

Lemma fold_left_skip {A B} (f : A -> B -> A) (p : B -> bool) (l : list B) :
  (forall acc x, p x = false -> f acc x = acc) ->
  forall acc, fold_left f l acc = fold_left f (List.filter p l) acc.
Proof.
  intros H. induction l as [|x l IH]; intros acc; simpl; [reflexivity|].
  destruct (p x) eqn:E; simpl; [apply IH|].
  rewrite (H acc x E). apply IH.
Qed.

Lemma filter_filter_implied {A} (p q : A -> bool) (l : list A) :
  (forall x, q x = true -> p x = true) ->
  List.filter q (List.filter p l) = List.filter q l.
Proof.
  intros H. induction l as [|x l IH]; simpl; [reflexivity|].
  destruct (p x) eqn:Ep; simpl.
  - destruct (q x); [f_equal|]; exact IH.
  - destruct (q x) eqn:Eq; [|exact IH].
    rewrite (H x Eq) in Ep. discriminate.
Qed.

Lemma sumOf_filter_split f (p : Subscription -> bool) l :
  sumOf f l
  == sumOf f (List.filter p l) + sumOf f (List.filter (fun x => negb (p x)) l).
Proof.
  induction l as [|x l IH]; simpl; [lra|].
  destruct (p x); simpl; lra.
Qed.

Lemma conditional_spend_le (p : Subscription -> bool) subs :
  Forall (fun sub => 0 <= Sub.cost sub) subs ->
  forall acc acc', acc <= acc' ->
    fold_left (fun total sub => if p sub then total + monthlyCost sub
                                else total) subs acc
    <= fold_left (fun total sub => total + monthlyCost sub) subs acc'.
Proof.
  induction 1 as [|sub rest Hc _ IH]; intros acc acc' Hle; simpl;
    [exact Hle|].
  pose proof (monthlyCost_nonneg sub Hc).
  destruct (p sub); apply IH; lra.
Qed.

Lemma fold_all_counted (p : Subscription -> bool) subs :
  Forall (fun sub => p sub = true) subs ->
  forall acc,
    fold_left (fun total sub => if p sub then total + monthlyCost sub
                                else total) subs acc
    = fold_left (fun total sub => total + monthlyCost sub) subs acc.
Proof.
  induction 1 as [|sub rest Hp _ IH]; intros acc; simpl; [reflexivity|].
  rewrite Hp. apply IH.
Qed.

Lemma fold_none_counted (p : Subscription -> bool) subs :
  Forall (fun sub => p sub = false) subs ->
  forall acc,
    fold_left (fun total sub => if p sub then total + monthlyCost sub
                                else total) subs acc
    = acc.
Proof.
  induction 1 as [|sub rest Hp _ IH]; intros acc; simpl; [reflexivity|].
  rewrite Hp. apply IH.
Qed.

Section Local.
Context {tz : TimeZone}.

Lemma getLastMonthSpend_le today subs :
  Forall (fun sub => 0 <= Sub.cost sub) subs ->
  getLastMonthSpend today subs <= calculateMonthlySpend subs.
Proof.
  intros Hc. unfold getLastMonthSpend, calculateMonthlySpend. cbv zeta.
  apply (conditional_spend_le
           (fun sub =>
              dateLe (stepBack (Sub.billingCycle sub) (Sub.renewalDate sub))
                     (setMonth (Some today) (subZ (getMonth (Some today)) 1)))
           subs Hc).
  lra.
Qed.

(** X12.  For non-negative costs the estimate of last month's spend never
    exceeds the current monthly spend, so the change percentage is never
    negative: the dashboard cannot report a decrease. *)
Theorem changePercentage_never_negative :
  forall (today : Z) (subs : list Subscription),
    Forall (fun sub => 0 <= Sub.cost sub) subs ->
    getLastMonthSpend today subs <= calculateMonthlySpend subs /\
    0 <= changePercentage today subs.
Proof.
  intros today subs Hc.
  pose proof (getLastMonthSpend_le today subs Hc) as Hle.
  split; [exact Hle|].
  unfold changePercentage. cbv zeta.
  destruct (Qlt_bool 0 (getLastMonthSpend today subs)) eqn:E; [|lra].
  apply Qlt_bool_iff in E.
  apply Qmult_le_0_compat; [|lra].
  apply Qle_shift_div_l; [exact E|]. lra.
Qed.

(** *** Records without a valid renewal date *)

Lemma undated_not_counted lastMonth total sub :
  hasDate sub = false ->
  (if dateLe (stepBack (Sub.billingCycle sub) (Sub.renewalDate sub)) lastMonth
   then total + monthlyCost sub else total) = total.
Proof.
  unfold hasDate. destruct (Sub.renewalDate sub); [discriminate|].
  intros _. rewrite stepBack_None. reflexivity.
Qed.

Lemma undated_not_active fuel md acc sub :
  hasDate sub = false -> addIfActive fuel md acc sub = acc.
Proof.
  unfold hasDate, addIfActive. destruct (Sub.renewalDate sub); [discriminate|].
  intros _. destruct acc as [monthSpend|]; [|reflexivity].
  rewrite rewind_invalid_start. reflexivity.
Qed.

Lemma getNextRenewal_unfold today subs :
  getNextRenewal today subs
  = match JSArray.sort byRenewal
            (List.filter (fun sub => dateGe (Sub.renewalDate sub) (Some today))
                         subs) with
    | [] => "N/A"%string
    | nextRenewal :: _ => formatMonthDay (Sub.renewalDate nextRenewal)
    end.
Proof. destruct subs; reflexivity. Qed.

(** X13.  A record whose renewal date is an Invalid Date counts toward the
    monthly spend, but every date-based figure ignores it: the estimate of
    last month's spend, the raw estimate of each month of the trend series,
    the next renewal and the table of upcoming renewals are what they
    would be without such records. *)
Theorem undated_records_ignored :
  forall (today : Z) (fuel : nat) (monthDate : Date)
         (subs : list Subscription),
    let dated := List.filter hasDate subs in
    let undated := List.filter (fun sub => negb (hasDate sub)) subs in
    getLastMonthSpend today subs = getLastMonthSpend today dated /\
    monthSpendAt fuel monthDate subs = monthSpendAt fuel monthDate dated /\
    getNextRenewal today subs = getNextRenewal today dated /\
    RenewalsTable.upcomingRenewals today subs
    = RenewalsTable.upcomingRenewals today dated /\
    calculateMonthlySpend subs
    == calculateMonthlySpend dated + calculateMonthlySpend undated.
Proof.
  intros today fuel monthDate subs dated undated.
  split.
  { unfold getLastMonthSpend. cbv zeta.
    apply (fold_left_skip _ hasDate).
    intros acc x Hx. apply undated_not_counted. exact Hx. }
  split.
  { unfold monthSpendAt. apply (fold_left_skip _ hasDate).
    intros acc x Hx. apply undated_not_active. exact Hx. }
  split.
  { rewrite !getNextRenewal_unfold. unfold dated.
    rewrite filter_filter_implied; [reflexivity|].
    intros x Hx. unfold hasDate.
    destruct (Sub.renewalDate x); [reflexivity|discriminate]. }
  split.
  { unfold RenewalsTable.upcomingRenewals, dated.
    rewrite filter_filter_implied; [reflexivity|].
    intros x Hx. unfold hasDate.
    destruct (Sub.renewalDate x) eqn:E; [reflexivity|].
    unfold RenewalsTable.renewsSoon, RenewalsTable.daysUntilRenewal in Hx.
    rewrite E in Hx. discriminate. }
  unfold calculateMonthlySpend. rewrite !fold_spend_acc.
  rewrite (sumOf_filter_split normalize hasDate subs).
  unfold dated, undated. lra.
Qed.

(** *** Which renewal dates count toward last month *)

Lemma counted_when_before today sub k :
  (28 <= k <= 31)%Z ->
  (- maxTime + 31 * msPerDay <= today <= maxTime)%Z ->
  renewsBefore today sub ->
  dateLe (stepBack (Sub.billingCycle sub) (Sub.renewalDate sub))
         (TimeClip (today - k * msPerDay)) = true.
Proof.
  intros Hk Ht (t & Et & Hlo & Hhi). rewrite Et.
  rewrite (TimeClip_in_range (today - k * msPerDay))
    by (unfold maxTime, msPerDay in *; lia).
  unfold stepBack. fold (isMonthly sub). destruct (isMonthly sub).
  - destruct (setMonth_back t) as (k' & Hk' & ->).
    rewrite TimeClip_in_range by (unfold maxTime, msPerDay in *; lia).
    simpl. apply Z.leb_le. unfold msPerDay in *. lia.
  - destruct (setFullYear_back t) as (k' & Hk' & ->).
    rewrite TimeClip_in_range by (unfold maxTime, msPerDay in *; lia).
    simpl. apply Z.leb_le. unfold msPerDay in *. lia.
Qed.

Lemma left_out_when_after today sub k :
  (28 <= k <= 31)%Z ->
  renewsAfter today sub ->
  dateLe (stepBack (Sub.billingCycle sub) (Sub.renewalDate sub))
         (TimeClip (today - k * msPerDay)) = false.
Proof.
  intros Hk Hafter. unfold renewsAfter in Hafter.
  destruct (Sub.renewalDate sub) as [t|]; [|rewrite stepBack_None; reflexivity].
  specialize (Hafter t eq_refl).
  destruct (TimeClip (today - k * msPerDay)) as [lm|] eqn:Elm;
    [|destruct (stepBack _ _); reflexivity].
  apply TimeClip_Some in Elm. subst lm.
  unfold stepBack. fold (isMonthly sub). destruct (isMonthly sub).
  - destruct (setMonth_back t) as (k' & Hk' & ->).
    destruct (TimeClip (t - k' * msPerDay)) as [s|] eqn:Es; [|reflexivity].
    apply TimeClip_Some in Es. subst s.
    simpl. apply Z.leb_gt. unfold msPerDay in *. lia.
  - destruct (setFullYear_back t) as (k' & Hk' & ->).
    destruct (TimeClip (t - k' * msPerDay)) as [s|] eqn:Es; [|reflexivity].
    apply TimeClip_Some in Es. subst s.
    simpl. apply Z.leb_gt. unfold msPerDay in *. lia.
Qed.

(** X14.  Which renewal dates count toward last month's spend.  If every
    monthly record renews at least five days before [today] and every
    other record at most 331 days after [today], the estimate of last
    month's spend is the whole monthly spend.  If every monthly record
    renews more than five days after [today] and every other record more
    than 341 days after [today], the estimate is zero and so is the change
    percentage.  (Between these bounds the outcome depends on the lengths
    of the months involved and on changes of the zone's offset.) *)
Theorem getLastMonthSpend_windows :
  forall (today : Z) (subs : list Subscription),
    ((- maxTime + 31 * msPerDay <= today <= maxTime)%Z ->
     Forall (renewsBefore today) subs ->
     getLastMonthSpend today subs = calculateMonthlySpend subs) /\
    (Forall (renewsAfter today) subs ->
     getLastMonthSpend today subs = 0 /\ changePercentage today subs = 0).
Proof.
  intros today subs.
  destruct (setMonth_back today) as (k & Hk & Ek).
  assert (Forall (renewsAfter today) subs ->
          getLastMonthSpend today subs = 0) as Hzero.
  { intros Hall. unfold getLastMonthSpend. cbv zeta. rewrite Ek.
    apply (fold_none_counted
             (fun sub =>
                dateLe (stepBack (Sub.billingCycle sub) (Sub.renewalDate sub))
                       (TimeClip (today - k * msPerDay)))).
    apply List.Forall_forall. intros sub Hin.
    rewrite List.Forall_forall in Hall.
    apply left_out_when_after; [exact Hk|apply Hall; exact Hin]. }
  split.
  - intros Ht Hall. unfold getLastMonthSpend, calculateMonthlySpend.
    cbv zeta. rewrite Ek.
    apply (fold_all_counted
             (fun sub =>
                dateLe (stepBack (Sub.billingCycle sub) (Sub.renewalDate sub))
                       (TimeClip (today - k * msPerDay)))).
    apply List.Forall_forall. intros sub Hin.
    rewrite List.Forall_forall in Hall.
    apply counted_when_before; [exact Hk|exact Ht|apply Hall; exact Hin].
  - intros Hall. split; [apply Hzero; exact Hall|].
    unfold changePercentage. cbv zeta. rewrite (Hzero Hall). reflexivity.
Qed.

End Local.

(** X12 on the sample collection. *)
Lemma changePercentage_never_negative_witness :
  Forall (fun sub => 0 <= Sub.cost sub) Examples.collection /\
  0 <= changePercentage (tz := Examples.IST) Examples.today
         Examples.collection.
Proof.
  split; [exact sample_costs|].
  exact (proj2 (changePercentage_never_negative (tz := Examples.IST)
                  Examples.today Examples.collection sample_costs)).
Defined.

(** X14 on a monthly record that renewed thirteen days ago together with a
    yearly record that renews in four months. *)
Lemma getLastMonthSpend_windows_witness :
  ((- maxTime + 31 * msPerDay <= Examples.today <= maxTime)%Z /\
   Forall (renewsBefore Examples.today) [Examples.spotify; Examples.domain]) /\
  getLastMonthSpend (tz := Examples.IST) Examples.today
    [Examples.spotify; Examples.domain]
  = calculateMonthlySpend [Examples.spotify; Examples.domain].
Proof.
  assert ((- maxTime + 31 * msPerDay <= Examples.today <= maxTime)%Z) as Ht
    by (unfold maxTime, msPerDay, Examples.today; lia).
  assert (Forall (renewsBefore Examples.today)
                 [Examples.spotify; Examples.domain]) as Hall.
  { constructor; [|constructor; [|constructor]].
    - exists 1760918400000%Z. split; [reflexivity|].
      unfold maxTime, msPerDay, Examples.today; simpl; lia.
    - exists 1772323200000%Z. split; [reflexivity|].
      unfold maxTime, msPerDay, Examples.today; simpl; lia. }
  split; [split; [exact Ht|exact Hall]|].
  exact (proj1 (getLastMonthSpend_windows (tz := Examples.IST)
                  Examples.today [Examples.spotify; Examples.domain])
               Ht Hall).
Defined.

(** *** Totals of the category breakdown *)










Lemma toFixed2_nonneg x : 0 <= x -> 0 <= toFixed2 x.
Proof.
  intros Hx. unfold toFixed2.
  destruct (Qlt_bool x 0) eqn:E; [apply Qlt_bool_iff in E; lra|].
  pose proof (Qlt_floor (x * 100 + (1 # 2))) as Hhi.
  rewrite inject_Z_plus in Hhi. change (inject_Z 1) with 1 in Hhi.
  assert (inject_Z (-1) < inject_Z (Qfloor (x * 100 + (1 # 2)))) as H
    by (change (inject_Z (-1)) with (-1); lra).
  rewrite <- Zlt_Qlt in H.
  assert (inject_Z 0 <= inject_Z (Qfloor (x * 100 + (1 # 2)))) as H'
    by (rewrite <- Zle_Qle; lia).
  change (inject_Z 0) with 0 in H'.
  set (n := inject_Z (Qfloor (x * 100 + (1 # 2)))) in *.
  assert (n / 100 == n * (1 # 100)) as -> by field. lra.
Qed.





End DashboardMore.
(** ** The registry grid and the form that adds a subscription *)

Module RegistryMore.
Import Registry RegistryExtras JSString JSArrayFacts JSStringFacts.
Local Open Scope string_scope.

Lemma sort_constant {A} (comparefn : A -> A -> option Q) (l : list A) :
  (forall x y, comparefn x y = Some 0%Q) -> JSArray.sort comparefn l = l.
Proof.
  intros H. induction l as [|x l IH]; simpl; [reflexivity|].
  rewrite IH. destruct l as [|y l']; [reflexivity|]. simpl.
  unfold JSArray.sortCompare. rewrite H. reflexivity.
Qed.

Lemma filter_all {A} (p : A -> bool) (l : list A) :
  (forall x, p x = true) -> List.filter p l = l.
Proof.
  intros H. induction l as [|x l IH]; simpl; [reflexivity|].
  rewrite H, IH. reflexivity.
Qed.

Lemma includes_empty s : includes s "" = true.
Proof. apply includes_spec. exists "", s. reflexivity. Qed.

Section ViewMore.
Variable toLowerCase : string -> string.
Variable localeCompare : string -> string -> Z.

Abbreviation view := (filteredAndSortedSubscriptions toLowerCase localeCompare).
Abbreviation keeps := (matchesSearchAndFilter toLowerCase).

Lemma keeps_everything sub :
  toLowerCase "" = "" -> keeps "" "all" sub = true.
Proof.
  intros H. unfold matchesSearchAndFilter. cbv zeta.
  rewrite H, includes_empty. reflexivity.
Qed.

(** X16.  With an empty search term and the filter "all" (the state the
    page starts in) the view is a rearrangement of the whole collection:
    no subscription is hidden.  The grid then shows the cards unless the
    collection is empty, in which case it shows the invitation to add the
    first subscription. *)
Theorem default_view_shows_everything :
  toLowerCase "" = "" ->
  forall (subs : list Subscription) (sortBy : string),
    Permutation (view subs "" "all" sortBy) subs /\
    (subs = [] ->
     grid toLowerCase localeCompare subs "" "all" sortBy
     = EmptyState "Add your first subscription to get started.") /\
    (subs <> [] ->
     grid toLowerCase localeCompare subs "" "all" sortBy
     = Cards (view subs "" "all" sortBy)).
Proof.
  intros Hlower subs sortBy.
  assert (Permutation (view subs "" "all" sortBy) subs) as HP.
  { unfold filteredAndSortedSubscriptions.
    rewrite sort_Permutation, filter_all; [reflexivity|].
    intros x. apply keeps_everything. exact Hlower. }
  split; [exact HP|]. split.
  - intros ->. reflexivity.
  - intros Hne. unfold grid. cbv zeta.
    pose proof (Permutation_length HP) as Hlen.
    destruct (view subs "" "all" sortBy) as [|x shown]; [|reflexivity].
    destruct subs; [contradiction|discriminate].
Qed.

(** X17.  A sort key other than "name", "cost" and "renewal" leaves the
    filtered subscriptions in the order of the collection; and whatever
    the sort key, the grid shows the empty state exactly when no
    subscription passes the search and the category filter, with the
    invitation to add a first subscription only for an empty collection. *)
Theorem unknown_sort_key_and_empty_state :
  forall (subs : list Subscription) (searchTerm filterBy sortBy : string),
    (sortBy <> "name" -> sortBy <> "cost" -> sortBy <> "renewal" ->
     view subs searchTerm filterBy sortBy
     = List.filter (keeps searchTerm filterBy) subs) /\
    match grid toLowerCase localeCompare subs searchTerm filterBy sortBy with
    | Cards shown =>
        shown = view subs searchTerm filterBy sortBy /\
        exists sub, In sub subs /\ keeps searchTerm filterBy sub = true
    | EmptyState message =>
        (forall sub, In sub subs -> keeps searchTerm filterBy sub = false) /\
        (subs = [] ->
         message = "Add your first subscription to get started.") /\
        (subs <> [] -> message = "Try adjusting your search or filters.")
    end.
Proof.
  intros subs searchTerm filterBy sortBy. split.
  - intros H1 H2 H3. unfold filteredAndSortedSubscriptions.
    apply sort_constant. intros x y. unfold compareBy.
    destruct (String.eqb_spec sortBy "name"); [contradiction|].
    destruct (String.eqb_spec sortBy "cost"); [contradiction|].
    destruct (String.eqb_spec sortBy "renewal"); [contradiction|].
    reflexivity.
  - unfold grid. cbv zeta.
    pose proof (sort_In (compareBy localeCompare sortBy)
                  (List.filter (keeps searchTerm filterBy) subs)) as HIn.
    fold (view subs searchTerm filterBy sortBy) in HIn.
    destruct (view subs searchTerm filterBy sortBy) as [|x shown] eqn:E.
    + simpl. split.
      * intros sub Hsub.
        destruct (keeps searchTerm filterBy sub) eqn:Ek; [|reflexivity].
        exfalso. apply (HIn sub). apply filter_In. split; assumption.
      * unfold emptyStateMessage. split.
        -- intros ->. reflexivity.
        -- intros Hne. destruct subs; [contradiction|reflexivity].
    + simpl. split; [reflexivity|].
      exists x. apply filter_In. apply HIn. left. reflexivity.
Qed.

End ViewMore.

(** X16 with the ASCII lower-casing and the comparison by code units. *)
Lemma default_view_shows_everything_witness :
  asciiToLowerCase "" = "" /\
  Permutation
    (filteredAndSortedSubscriptions asciiToLowerCase codeUnitCompare
       Examples.collection "" "all" "cost")
    Examples.collection.
Proof.
  split; [reflexivity|].
  exact (proj1 (default_view_shows_everything asciiToLowerCase
                  codeUnitCompare eq_refl Examples.collection "cost")).
Defined.

(** X17 on an unrecognised sort key. *)
Lemma unknown_sort_key_and_empty_state_witness :
  ("price" <> "name" /\ "price" <> "cost" /\ "price" <> "renewal") /\
  filteredAndSortedSubscriptions asciiToLowerCase codeUnitCompare
    Examples.collection "" "all" "price"
  = List.filter (matchesSearchAndFilter asciiToLowerCase "" "all")
                Examples.collection.
Proof.
  assert ("price" <> "name") as H1 by discriminate.
  assert ("price" <> "cost") as H2 by discriminate.
  assert ("price" <> "renewal") as H3 by discriminate.
  split; [exact (conj H1 (conj H2 H3))|].
  exact (proj1 (unknown_sort_key_and_empty_state asciiToLowerCase
                  codeUnitCompare Examples.collection "" "all" "price")
               H1 H2 H3).
Defined.

Lemma getOwn_categoryColors category :
  category <> "Entertainment" -> category <> "Music" ->
  category <> "Productivity" -> category <> "Design" ->
  category <> "Shopping" ->
  JSObject.getOwn categoryColors category = None.
Proof.
  intros H1 H2 H3 H4 H5. unfold categoryColors. simpl.
  destruct (String.eqb_spec category "Entertainment"); [contradiction|].
  destruct (String.eqb_spec category "Music"); [contradiction|].
  destruct (String.eqb_spec category "Productivity"); [contradiction|].
  destruct (String.eqb_spec category "Design"); [contradiction|].
  destruct (String.eqb_spec category "Shopping"); [contradiction|].
  reflexivity.
Qed.

Lemma inherited_not_known category :
  JSObject.inheritedFunction category = true \/
  JSObject.protoKey category = true ->
  JSObject.getOwn categoryColors category = None.
Proof.
  intros H. apply getOwn_categoryColors; intros ->;
    destruct H as [H|H]; vm_compute in H; discriminate H.
Qed.

(** X18.  The colour of a category badge in the registry is what the
    dashboard gives the same category in its breakdown, for every
    category.  A category other than the five known ones gets the
    fallback colour on both pages, unless it names a member that objects
    inherit (such as "constructor" or "toString"): then the expression
    yields that member, not a colour. *)
Theorem badgeColor_matches_dashboard :
  forall category : string,
    badgeColor category = Dashboard.getCategoryColor category /\
    (category <> "Entertainment" -> category <> "Music" ->
     category <> "Productivity" -> category <> "Design" ->
     category <> "Shopping" ->
     JSObject.inheritedFunction category = false ->
     JSObject.protoKey category = false ->
     badgeColor category = Dashboard.Hex "#64748b") /\
    (JSObject.inheritedFunction category = true \/
     JSObject.protoKey category = true ->
     badgeColor category = Dashboard.InheritedMember).
Proof.
  intros category. split; [reflexivity|]. split.
  - intros H1 H2 H3 H4 H5 Hi Hp. unfold badgeColor, JSObject.get.
    rewrite (getOwn_categoryColors category H1 H2 H3 H4 H5), Hp, Hi.
    reflexivity.
  - intros H. unfold badgeColor, JSObject.get.
    rewrite (inherited_not_known category H).
    destruct (JSObject.protoKey category) eqn:Hp; [reflexivity|].
    destruct H as [H|H]; [rewrite H; reflexivity|discriminate H].
Qed.

End RegistryMore.

Module AddSubscriptionFacts.
Import AddSubscriptionModal.
Local Open Scope string_scope.

Section SubmitFacts.
Variable parseFloat : string -> option Q.

Lemma missing_spec s : missing s = true <-> s = "".
Proof. unfold missing. apply String.eqb_eq. Qed.

Lemma missing_false s : missing s = false <-> s <> "".
Proof. unfold missing. apply String.eqb_neq. Qed.

(** X19.  Submitting the form always prevents the default action.  When
    one of the name, the cost, the renewal date and the category is empty
    it only raises the alert: nothing is added and the form stays open.
    Otherwise it hands exactly one subscription to [onAdd] and then
    closes; that subscription has a non-empty name, plan, renewal date and
    category, the plan being "Standard" when none was entered, and its
    cost is whatever [parseFloat] makes of the cost text, a NaN
    included. *)
Theorem handleSubmit_spec :
  forall formData : FormData,
    let complete :=
      name formData <> "" /\ cost formData <> "" /\
      renewalDate formData <> "" /\ category formData <> "" in
    (~ complete ->
     handleSubmit parseFloat formData
     = [PreventDefault; Alert "Please fill in all required fields"]) /\
    (complete ->
     exists subscription,
       handleSubmit parseFloat formData
       = [PreventDefault; OnAdd subscription; OnClose] /\
       Intent.name subscription = name formData /\
       Intent.description subscription = description formData /\
       (plan formData = "" -> Intent.plan subscription = "Standard") /\
       (plan formData <> "" -> Intent.plan subscription = plan formData) /\
       Intent.cost subscription = parseFloat (cost formData) /\
       Intent.renewalDate subscription = renewalDate formData /\
       Intent.billingCycle subscription = billingCycle formData /\
       Intent.category subscription = category formData /\
       Intent.name subscription <> "" /\ Intent.plan subscription <> "" /\
       Intent.renewalDate subscription <> "" /\
       Intent.category subscription <> "").
Proof.
  intros formData complete. unfold complete, handleSubmit.
  destruct (missing (name formData)) eqn:E1;
    [apply missing_spec in E1|apply missing_false in E1];
  (destruct (missing (cost formData)) eqn:E2;
    [apply missing_spec in E2|apply missing_false in E2]);
  (destruct (missing (renewalDate formData)) eqn:E3;
    [apply missing_spec in E3|apply missing_false in E3]);
  (destruct (missing (category formData)) eqn:E4;
    [apply missing_spec in E4|apply missing_false in E4]);
  simpl; (split; [intros H|intros (H1 & H2 & H3 & H4)]);
  try reflexivity; try contradiction;
  try (exfalso; apply H; auto; fail).
  eexists. split; [reflexivity|]. simpl.
  destruct (missing (plan formData)) eqn:E5;
    [apply missing_spec in E5|apply missing_false in E5].
  - repeat (split; [first [reflexivity|assumption|discriminate
                          |intros; reflexivity|intros; contradiction]|]).
    assumption.
  - repeat (split; [first [reflexivity|assumption|discriminate
                          |intros; reflexivity|intros; contradiction]|]).
    assumption.
Qed.

End SubmitFacts.
End AddSubscriptionFacts.
(** ** The masked card number of the summary step *)

Module PaymentSummaryFacts.
Import PaymentModal PaymentInput JSString PaymentSpec MoreSpec.
Import PaymentInputFacts.
Local Open Scope string_scope.

Lemma sliceLast4_formatted s :
  formatCardNumber s = s ->
  (13 <= String.length (stripNonDigits s))%nat ->
  String.length (sliceLast4 s) = 4%nat /\
  (allChars isDigit (sliceLast4 s) = true
   <-> String.length (stripNonDigits s) = 16%nat).
Proof.
  intros Hf H13.
  pose proof (formatCardNumber_groups s) as Hg. rewrite Hf in Hg.
  pose proof (formatCardNumber_digits s) as Hd. rewrite Hf in Hd.
  assert (allChars isDigit (stripNonDigits s) = true) as Hall
    by apply filterChars_all.
  rewrite Hd in Hg.
  set (d := stripNonDigits s) in *.
  assert (String.length d <= 16)%nat as H16.
  { rewrite Hd, substring0_length. lia. }
  clearbody d. clear Hd Hf. subst s.
  do 13 (match goal with
         | x : string |- _ => destruct x as [|? ?]; [simpl in H13; lia|]
         end).
  match goal with
  | x : string |- _ => destruct x as [|c14 [|c15 [|c16 [|c17 rest]]]]
  end.
  - split; [reflexivity|].
    split; intros H; [|simpl in H; lia].
    unfold sliceLast4 in H. simpl in H.
    rewrite ?andb_false_r in H. discriminate H.
  - split; [reflexivity|].
    split; intros H; [|simpl in H; lia].
    unfold sliceLast4 in H. simpl in H.
    rewrite ?andb_false_r in H. discriminate H.
  - split; [reflexivity|].
    split; intros H; [|simpl in H; lia].
    unfold sliceLast4 in H. simpl in H.
    rewrite ?andb_false_r in H. discriminate H.
  - split; [reflexivity|].
    split; intros _; [reflexivity|].
    simpl in Hall.
    repeat (apply andb_true_iff in Hall; destruct Hall as [? Hall]).
    unfold sliceLast4. simpl.
    repeat (apply andb_true_iff; split; try assumption).
  - simpl in H16. lia.
Qed.

(** X20.  On the summary and later steps the masked card line shows the
    last four characters of the stored, formatted card number.  They are
    four digits exactly when the card number has sixteen digits; for the
    shorter numbers that validation accepts (13 to 15 digits) the four
    characters include the space that separates the last group. *)
Theorem summary_mask_last_four :
  forall f : Flow,
    reachable f ->
    currentStep (modal f) <> payment ->
    let shown := sliceLast4 (cardNumber (paymentInfo (modal f))) in
    maskedCardNumber (paymentInfo (modal f)) = "**** **** **** " +:+ shown /\
    String.length shown = 4%nat /\
    (allChars isDigit shown = true
     <-> String.length (stripNonDigits (cardNumber (paymentInfo (modal f))))
         = 16%nat).
Proof.
  intros f Hr Hs shown. split; [reflexivity|].
  destruct (reachable_consistent f Hr) as [H1 _ H3 _ _].
  destruct (H1 Hs) as [(_ & _ & _ & _ & H13) _].
  exact (sliceLast4_formatted _ H3 H13).
Qed.

(** X20 on the flow of a customer who reviews a sixteen-digit card. *)
Lemma summary_mask_last_four_witness :
  (reachable MoreExamples.reviewing /\
   currentStep (modal MoreExamples.reviewing) <> payment) /\
  maskedCardNumber (paymentInfo (modal MoreExamples.reviewing))
  = "**** **** **** 1111".
Proof.
  assert (currentStep (modal MoreExamples.reviewing) <> payment) as Hs
    by (vm_compute; discriminate).
  split; [split; [exact reviewing_reachable|exact Hs]|].
  exact (proj1 (summary_mask_last_four MoreExamples.reviewing
                  reviewing_reachable Hs)).
Defined.

(** X21.  The whole checkout.  From an open flow at the payment step with
    valid card data, Continue, Pay and the expiry of the timeout are each
    enabled in turn and lead to the success step, with the card data
    unchanged, no error shown and no timeout left.  With invalid card
    data Continue leaves the flow at the payment step, where Pay is not
    available. *)
Theorem checkout_reaches_success :
  forall f : Flow,
    reachable f ->
    closed f = false ->
    currentStep (modal f) = payment ->
    (validInfo (paymentInfo (modal f)) ->
     exists f',
       run f [ClickContinue; ClickPay; TimeoutExpires] = Some f' /\
       currentStep (modal f') = success /\
       paymentInfo (modal f') = paymentInfo (modal f) /\
       errors (modal f') = ∅ /\
       timeouts f' = [] /\
       closed f' = false) /\
    (~ validInfo (paymentInfo (modal f)) ->
     run f [ClickContinue; ClickPay] = None).
Proof.
  intros f Hr Hopen Hstep.
  destruct (reachable_consistent f Hr) as [_ H2 _ _ _].
  assert (timeouts f = []) as Hno.
  { destruct H2 as [[H2 _]|[_ H2]]; [congruence|exact H2]. }
  pose proof (PaymentFacts.validatePayment_ok (paymentInfo (modal f))) as Hok.
  pose proof (validatePayment_true_empty (paymentInfo (modal f))) as Hem.
  assert (enabled f ClickContinue = true) as He.
  { simpl. rewrite Hopen. simpl. apply atStep_true. exact Hstep. }
  unfold run. rewrite He. cbn [react]. unfold handleContinueToSummary.
  destruct (validatePayment (paymentInfo (modal f))) as [newErrors ok].
  simpl in Hok, Hem. split.
  - intros Hvalid. apply Hok in Hvalid. subst ok.
    rewrite (Hem eq_refl). unfold enabled, atStep. simpl.
    rewrite Hopen, Hno. simpl.
    eexists. split; [reflexivity|]. simpl. repeat split.
  - intros Hinvalid. destruct ok; [exfalso; apply Hinvalid, Hok; reflexivity|].
    unfold enabled, atStep. simpl. rewrite Hstep, andb_false_r. reflexivity.
Qed.

(** X21 on a customer who has typed valid card data. *)
Lemma checkout_reaches_success_witness :
  (reachable (PaymentModal.mkFlow
                (PaymentModal.mkModal payment
                   (paymentInfo (modal MoreExamples.reviewing)) ∅) [] false) /\
   validInfo (paymentInfo (modal MoreExamples.reviewing))) /\
  exists f',
    run (PaymentModal.mkFlow
           (PaymentModal.mkModal payment
              (paymentInfo (modal MoreExamples.reviewing)) ∅) [] false)
        [ClickContinue; ClickPay; TimeoutExpires] = Some f' /\
    currentStep (modal f') = success.
Proof.
  assert (reachable (PaymentModal.mkFlow
                (PaymentModal.mkModal payment
                   (paymentInfo (modal MoreExamples.reviewing)) ∅) [] false))
    as Hr.
  { apply (run_reachable
             [ChangeCardNumber "4111111111111111";
              ChangeCardholderName "A. Kumar";
              ChangeExpiryDate "1225"; ChangeCvv "123"] initialFlow).
    - apply reachable_initial.
    - vm_compute. reflexivity. }
  assert (validInfo (paymentInfo (modal MoreExamples.reviewing))) as Hv.
  { apply PaymentFacts.validatePayment_ok. vm_compute. reflexivity. }
  split; [split; [exact Hr|exact Hv]|].
  destruct (proj1 (checkout_reaches_success _ Hr eq_refl eq_refl) Hv)
    as (f' & Hrun & Hstep & _).
  exists f'. split; [exact Hrun|exact Hstep].
Defined.

End PaymentSummaryFacts.
(** ** The trend series never goes below zero *)

Module ChartMore.
Import Dashboard JSNum JSNumFacts JSDateFacts RewindFacts Spec MoreSpec.
Import DashboardFacts DashboardMore.
Local Open Scope Q_scope.

Lemma MathMax0_ge0 x : 0 <= MathMax0 x.
Proof.
  unfold MathMax0. destruct (Qlt_bool 0 x) eqn:E; [|lra].
  apply Qlt_bool_iff in E. lra.
Qed.

Lemma toFixed2_hundredths x :
  0 <= x ->
  exists n : Z, (0 <= n)%Z /\ toFixed2 x = inject_Z n / 100.
Proof.
  intros Hx. unfold toFixed2.
  destruct (Qlt_bool x 0) eqn:E; [apply Qlt_bool_iff in E; lra|].
  exists (Qfloor (x * 100 + (1 # 2))). split; [|reflexivity].
  pose proof (Qlt_floor (x * 100 + (1 # 2))) as Hhi.
  rewrite inject_Z_plus in Hhi. change (inject_Z 1) with 1 in Hhi.
  assert (inject_Z (-1) < inject_Z (Qfloor (x * 100 + (1 # 2)))) as H
    by (change (inject_Z (-1)) with (-1); lra).
  rewrite <- Zlt_Qlt in H. lia.
Qed.

Section Local.
Context {tz : TimeZone}.

Lemma fold_addIfActive_returns fuel md subs : forall acc,
  (forall sub, In sub subs ->
     (enoughFuel md (Sub.renewalDate sub) <= fuel)%nat) ->
  exists raw, fold_left (addIfActive fuel md) subs (Some acc) = Some raw.
Proof.
  induction subs as [|sub rest IH]; intros acc Hf; simpl.
  - exists acc. reflexivity.
  - destruct (rewind_enough (Sub.billingCycle sub) md (Sub.renewalDate sub)
                fuel (Hf sub (or_introl eq_refl))) as (d & -> & _).
    destruct (dateLe d md); apply IH; intros s Hs; apply Hf; right; exact Hs.
Qed.

Lemma chartPoint_returns fuel today subs i r :
  (forall sub, In sub subs ->
     (enoughFuel (monthDateAt today i) (Sub.renewalDate sub) <= fuel)%nat) ->
  exists p,
    chartPoint fuel today subs i r = Some p /\
    0 <= total p /\
    exists n : Z, (0 <= n)%Z /\ total p = inject_Z n / 100.
Proof.
  intros Hfuel.
  destruct (fold_addIfActive_returns fuel (monthDateAt today i) subs 0 Hfuel)
    as (raw & Eraw).
  unfold chartPoint. cbv zeta. unfold monthSpendAt. rewrite Eraw.
  eexists. split; [reflexivity|]. simpl total.
  split; [apply toFixed2_nonneg, MathMax0_ge0|].
  apply toFixed2_hundredths, MathMax0_ge0.
Qed.

(** X22.  Given enough iterations for the backward-stepping loops,
    [generateChartData] returns twelve points whatever the costs, the
    renewal dates, the clock and the random numbers are, and no point is
    negative: every total is a non-negative whole number of hundredths. *)
Theorem generateChartData_never_negative :
  forall (fuel : nat) (random : nat -> Q) (today : Z)
         (subs : list Subscription),
    (chartFuel today subs <= fuel)%nat ->
    exists pts,
      generateChartData fuel random today subs = Some pts /\
      length pts = 12%nat /\
      Forall (fun p => 0 <= total p /\
                       exists n : Z, (0 <= n)%Z /\ total p = inject_Z n / 100)
             pts.
Proof.
  intros fuel random today subs Hfuel.
  assert (forall k : nat, (k < 12)%nat ->
    exists p,
      chartPoint fuel today subs (11 - Z.of_nat k) (random k) = Some p /\
      0 <= total p /\
      exists n : Z, (0 <= n)%Z /\ total p = inject_Z n / 100) as Hpt.
  { intros k Hk. apply chartPoint_returns.
    intros sub Hin. etransitivity; [|exact Hfuel].
    apply chartFuel_enough; assumption. }
  unfold generateChartData.
  set (f := fun k : nat =>
              chartPoint fuel today subs (11 - Z.of_nat k) (random k)).
  destruct (mapM f (seq 0 12)) as [pts|] eqn:E.
  - exists pts. split; [reflexivity|].
    pose proof (length_mapM _ _ _ E) as Hlen. rewrite length_seq in Hlen.
    split; [symmetry; exact Hlen|].
    apply mapM_Some in E.
    apply List.Forall_forall. intros p Hp.
    apply list_elem_of_In, list_elem_of_lookup in Hp.
    destruct Hp as (k & Hk).
    destruct (Forall2_lookup_r _ _ _ k p E Hk) as (j & Hj & Hfj).
    apply lookup_seq in Hj. destruct Hj as [-> Hlt].
    destruct (Hpt k Hlt) as (p' & Hp' & Hnn & Hn).
    unfold f in Hfj. simpl in Hfj. rewrite Hp' in Hfj. injection Hfj as <-.
    split; assumption.
  - exfalso. apply mapM_None in E. apply Exists_exists in E.
    destruct E as (k & Hin & Hnone).
    apply list_elem_of_In, in_seq in Hin.
    destruct (Hpt k ltac:(lia)) as (p & Hp & _).
    unfold f in Hnone. congruence.
Qed.

End Local.

(** X22 on the sample collection. *)
Lemma generateChartData_never_negative_witness :
  (chartFuel (tz := Examples.IST) Examples.today Examples.collection <= 20)%nat
  /\ exists pts,
       generateChartData (tz := Examples.IST) 20 Examples.high Examples.today
         Examples.collection = Some pts /\
       length pts = 12%nat.
Proof.
  assert (chartFuel (tz := Examples.IST) Examples.today Examples.collection
          <= 20)%nat as Hfuel by (vm_compute; lia).
  split; [exact Hfuel|].
  destruct (generateChartData_never_negative (tz := Examples.IST) 20
              Examples.high Examples.today Examples.collection Hfuel)
    as (pts & Hpts & Hlen & _).
  exists pts. split; [exact Hpts|exact Hlen].
Defined.

End ChartMore.

(** ** Filling in the form that adds a subscription *)

Module AddSubscriptionFormFacts.
Import AddSubscriptionModal.
Local Open Scope string_scope.

Ltac fieldCases k :=
  destruct (String.eqb_spec k "name");
  [|destruct (String.eqb_spec k "description");
    [|destruct (String.eqb_spec k "plan");
      [|destruct (String.eqb_spec k "cost");
        [|destruct (String.eqb_spec k "renewalDate");
          [|destruct (String.eqb_spec k "billingCycle");
            [|destruct (String.eqb_spec k "category")]]]]]].

(** Field by field: the edited field takes the new value, every other
    field keeps its own. *)
Lemma handleInputChange_fields formData field value :
  handleInputChange formData field value
  = mkForm
      (if String.eqb field "name" then value else name formData)
      (if String.eqb field "description" then value
       else description formData)
      (if String.eqb field "plan" then value else plan formData)
      (if String.eqb field "cost" then value else cost formData)
      (if String.eqb field "renewalDate" then value
       else renewalDate formData)
      (if String.eqb field "billingCycle" then value
       else billingCycle formData)
      (if String.eqb field "category" then value else category formData).
Proof.
  unfold handleInputChange.
  fieldCases field; subst; destruct formData; reflexivity.
Qed.

Lemma overwrite (field key v1 v2 old : string) :
  (if String.eqb field key then v2
   else if String.eqb field key then v1 else old)
  = (if String.eqb field key then v2 else old).
Proof. destruct (String.eqb field key); reflexivity. Qed.

Lemma swap (k1 k2 key v1 v2 old : string) :
  k1 <> k2 ->
  (if String.eqb k2 key then v2
   else if String.eqb k1 key then v1 else old)
  = (if String.eqb k1 key then v1
     else if String.eqb k2 key then v2 else old).
Proof.
  intros Hne.
  destruct (String.eqb_spec k1 key), (String.eqb_spec k2 key);
    try reflexivity.
  congruence.
Qed.

Lemma handleInputChange_twice formData field v1 v2 :
  handleInputChange (handleInputChange formData field v1) field v2
  = handleInputChange formData field v2.
Proof.
  rewrite !handleInputChange_fields. cbn [name description plan cost
    renewalDate billingCycle category].
  rewrite !overwrite. reflexivity.
Qed.

Lemma handleInputChange_comm formData k1 k2 v1 v2 :
  k1 <> k2 ->
  handleInputChange (handleInputChange formData k1 v1) k2 v2
  = handleInputChange (handleInputChange formData k2 v2) k1 v1.
Proof.
  intros Hne. rewrite !handleInputChange_fields.
  cbn [name description plan cost renewalDate billingCycle category].
  f_equal; apply swap; exact Hne.
Qed.

Section FormFacts.
Variable parseFloat : string -> option Q.

(** X23.  Edits of the form: a later edit of a field replaces an earlier
    one, and edits of different fields can be made in either order.  When
    only the four required fields are filled in, submitting adds a
    subscription with these four values, an empty description, the plan
    "Standard" and the billing cycle "monthly", and closes the form. *)
Theorem form_edits_and_defaults :
  (forall formData field v1 v2,
     handleInputChange (handleInputChange formData field v1) field v2
     = handleInputChange formData field v2) /\
  (forall formData k1 k2 v1 v2,
     k1 <> k2 ->
     handleInputChange (handleInputChange formData k1 v1) k2 v2
     = handleInputChange (handleInputChange formData k2 v2) k1 v1) /\
  (forall name cost renewalDate category : string,
     name <> "" -> cost <> "" -> renewalDate <> "" -> category <> "" ->
     handleSubmit parseFloat
       (handleInputChange
          (handleInputChange
             (handleInputChange
                (handleInputChange initialFormData "name" name)
                "cost" cost)
             "renewalDate" renewalDate)
          "category" category)
     = [PreventDefault;
        OnAdd {| Intent.name := name;
                 Intent.description := "";
                 Intent.plan := "Standard";
                 Intent.cost := parseFloat cost;
                 Intent.renewalDate := renewalDate;
                 Intent.billingCycle := "monthly";
                 Intent.category := category |};
        OnClose]).
Proof.
  split; [exact handleInputChange_twice|].
  split; [exact handleInputChange_comm|].
  intros name cost renewalDate category Hn Hc Hr Hcat.
  rewrite !handleInputChange_fields.
  unfold handleSubmit, initialFormData, missing.
  cbn [AddSubscriptionModal.name AddSubscriptionModal.description
       AddSubscriptionModal.plan AddSubscriptionModal.cost
       AddSubscriptionModal.renewalDate AddSubscriptionModal.billingCycle
       AddSubscriptionModal.category String.eqb Ascii.eqb Bool.eqb].
  apply String.eqb_neq in Hn, Hc, Hr, Hcat.
  rewrite Hn, Hc, Hr, Hcat. reflexivity.
Qed.

End FormFacts.
End AddSubscriptionFormFacts.
